(** * osgridref: Ordnance Survey grid references, datums and Helmert transforms

    A shallow embedding of the Go package [osgrid] (the dms, osgridref and
    latlon-ellipsoidal-datum sources) and the properties established about it.

    Conventions of the embedding.

    - [float64] is Rocq's primitive binary64 [float]; every Go operation is
      rounded on its own, in the order Go's precedence and left associativity
      give (the behaviour of the gc compiler on amd64, which does not fuse
      multiply-add).
    - Go evaluates constant expressions exactly and rounds once, when the
      constant meets a [float64] operand.  Constants are therefore kept as
      exact rationals ([Q]) and folded with [Qf].  An untyped division of two
      integer constants, such as [5/4], is Go's integer division.
    - [int] is [Z]; where a result can leave 64 bits (the products of
      [stringN]'s [pow]) the wrap-around is written out.
    - Go strings are byte strings.  [strings.ToUpper] and
      [strconv.ParseFloat] are operations of the classes [GoStrings] and
      [GoStrconv]; the other library functions met are modelled on bytes.
    - The functions of Go's [math] package that are approximations (Sin, Cos,
      Tan, Atan2, Pow) and [math.Mod] are not part of this repository: they
      are the operations of the class [GoMath], and every property is stated
      for an arbitrary instance.  [RefMath] is one executable instance;
      [GoMathSpecial] lists the values at zero some properties need, and
      [GoMathAccurate] the accuracy a numeric bound needs. *)

From Stdlib Require Import ZArith QArith Bool List String Lia Floats.
From Equations Require Import Equations.
Import ListNotations.

Set Warnings "-inexact-float".

(** ** Go constants and conversions *)

Module GoConst.

Local Open Scope Z_scope.

Definition round_half_even (q r d : Z) : Z :=
  match Z.compare (2 * r) d with
  | Lt => q
  | Gt => q + 1
  | Eq => if Z.even q then q else q + 1
  end.

(** The binary64 number nearest to [num/den] (ties to even), for quotients in
    the normal range. *)
Definition Q2F (num den : Z) : float :=
  if (num =? 0) || (den <=? 0) then 0%float
  else
    let n := Z.abs num in
    let e := Z.log2 n - Z.log2 den in
    let scaled (sh : Z) :=
      if 0 <=? sh then (n * 2 ^ sh, den) else (n, den * 2 ^ (- sh)) in
    let sh0 := 53 - e in
    let '(n0, d0) := scaled sh0 in
    let sh := if 2 ^ 53 <=? n0 / d0 then sh0 - 1 else sh0 in
    let '(n1, d1) := scaled sh in
    let m := round_half_even (n1 / d1) (n1 mod d1) d1 in
    let f := Z.ldexp (PrimFloat.of_uint63 (Uint63.of_Z m)) (- sh) in
    if num <? 0 then (- f)%float else f.

(** A constant expression meeting a [float64] operand. *)
Definition Qf (q : Q) : float := Q2F (Qnum q) (Zpos (Qden q)).

(** [float64(i)] for an [int] [i]. *)
Definition float64_of_int (i : Z) : float := Q2F i 1.

(** The value of a finite float as a fraction [(num, den)]. *)
Definition F2Q (x : float) : option (Z * Z) :=
  match Prim2SF x with
  | S754_zero _ => Some (0, 1)
  | S754_finite s m e =>
      let m' := if s then Z.neg m else Z.pos m in
      Some (if 0 <=? e then (m' * 2 ^ e, 1) else (m', 2 ^ (- e)))
  | _ => None
  end.

(** Division of two untyped integer constants. *)
Definition int_div (x y : Z) : Q := inject_Z (Z.quot x y).

(** [math.Pi], the literal of Go's math/const.go. *)
Definition math_Pi : Q :=
  Qmake 314159265358979323846264338327950288419716939937510582097494459
        (10 ^ 62).

End GoConst.

Import GoConst.

(** ** The approximating functions of Go's [math] package *)

Class GoMath : Type := {
  math_Sin : float -> float;
  math_Cos : float -> float;
  math_Tan : float -> float;
  math_Atan2 : float -> float -> float;
  math_Pow : float -> float -> float;
  math_Mod : float -> float -> float
}.

(** Values of those functions at zero: [Sin(+0) = +0] and
    [Atan2(+0, x>=0) = +0] are special cases listed in the package
    documentation; [Cos(0) = 1] is what its kernel [1 - 0.5*z*z + ...]
    evaluates to at [z = 0]. *)
Class GoMathSpecial (M : GoMath) : Prop := {
  Sin_zero : math_Sin 0 = 0%float;
  Cos_zero : math_Cos 0 = 1%float;
  Atan2_zero_zero : math_Atan2 0 0 = 0%float;
  Atan2_zero_pos : forall x, (0 <? x)%float = true -> math_Atan2 0 x = 0%float
}.

(** [math.Sqrt], [math.Abs] and [math.IsNaN] are exact IEEE operations. *)
Definition math_Sqrt (x : float) : float := PrimFloat.sqrt x.
Definition math_Abs (x : float) : float := PrimFloat.abs x.
Definition math_IsNaN (x : float) : bool := PrimFloat.is_nan x.

(** [math.Round]: nearest integer, halves away from zero. *)
Definition math_Round (x : float) : float :=
  match F2Q x with
  | None => x
  | Some (n, d) =>
      let a := Z.abs n in
      let r := ((2 * a + d) / (2 * d))%Z in
      if (r =? 0)%Z then (if (n <? 0)%Z then (-0)%float else x * 0)%float
      else float64_of_int (if (n <? 0)%Z then (- r)%Z else r)
  end.

(** [int(x)] for a [float64] holding an integer in the range of [int]. *)
Definition int_of_float64 (x : float) : Z :=
  match F2Q x with
  | Some (n, d) => Z.quot n d
  | None => (- 2 ^ 63)%Z
  end.

(** ** Outcomes of a call: a value, a panic, or still running when the
    iteration budget given to the model is used up *)

Inductive outcome (P A : Type) : Type :=
| Done (a : A)
| Panic (p : P)
| Running.
Arguments Done {P A} a.
Arguments Panic {P A} p.
Arguments Running {P A}.

Open Scope float_scope.

(** ** dms: wrapping of degrees *)

Section Dms.
Context {M : GoMath}.

Definition Wrap90 (degrees : float) : float :=
  if (-90 <=? degrees) && (degrees <=? 90) then degrees
  else
    let x := degrees in
    let a := 90 in
    let p := 360 in
    4 * a / p * math_Abs (math_Mod (math_Mod (x - p / 4) p + p) p - p / 2) - a.

Definition Wrap180 (degrees : float) : float :=
  if (-180 <=? degrees) && (degrees <=? 180) then degrees
  else
    let x := degrees in
    let a := 180 in
    let p := 360 in
    math_Mod (math_Mod (2 * a * x / p - p / 2) p + p) p - a.

End Dms.

(** ** latlon-ellipsoidal-datum: ellipsoids and datums *)

Definition toRadians : float := Eval vm_compute in Qf (math_Pi / 180).
Definition toDegrees : float := Eval vm_compute in Qf (180 / math_Pi).

Record Ellipseoid : Type := mkEllipseoid {
  ell_a : float;
  ell_b : float;
  ell_f : float
}.

(** A [[7]float64]. *)
Record Array7 : Type := mkArray7 {
  t0 : float; t1 : float; t2 : float; t3 : float;
  t4 : float; t5 : float; t6 : float
}.

Definition Array7_map (g : float -> float) (t : Array7) : Array7 :=
  mkArray7 (g (t0 t)) (g (t1 t)) (g (t2 t)) (g (t3 t))
           (g (t4 t)) (g (t5 t)) (g (t6 t)).

Record Datum : Type := mkDatum {
  Name : string;
  Ellipsoid : Ellipseoid;
  Transform : Array7
}.

(** Zero values, returned by a map lookup that misses and left in the fields
    a composite literal does not mention. *)
Definition zero_Ellipseoid : Ellipseoid := mkEllipseoid 0 0 0.
Definition zero_Array7 : Array7 := mkArray7 0 0 0 0 0 0 0.
Definition zero_Datum : Datum := mkDatum EmptyString zero_Ellipseoid zero_Array7.

Fixpoint map_index {V : Type} (zero : V) (m : list (string * V)) (k : string) : V :=
  match m with
  | [] => zero
  | (k', v) :: m' => if String.eqb k k' then v else map_index zero m' k
  end.

(** [1 / d] for a decimal constant [d = num / den]. *)
Definition inv_const (num den : Z) : float := Qf (1 / Qmake num (Z.to_pos den)).

Definition ellipsoids : list (string * Ellipseoid) :=
  Eval vm_compute in
  [ ("WGS84"%string, mkEllipseoid 6378137 6356752.314245 (inv_const 298257223563 (10 ^ 9)));
    ("Airy1830"%string, mkEllipseoid 6377563.396 6356256.909 (inv_const 2993249646 (10 ^ 7)));
    ("AiryModified"%string, mkEllipseoid 6377340.189 6356034.448 (inv_const 2993249646 (10 ^ 7)));
    ("Bessel1841"%string, mkEllipseoid 6377397.155 6356078.962818 (inv_const 2991528128 (10 ^ 7)));
    ("Clarke1866"%string, mkEllipseoid 6378206.4 6356583.8 (inv_const 294978698214 (10 ^ 9)));
    ("Clarke1880IGN"%string, mkEllipseoid 6378249.2 6356515.0 (inv_const 293466021294 (10 ^ 9)));
    ("GRS80"%string, mkEllipseoid 6378137 6356752.314140 (inv_const 298257222101 (10 ^ 9)));
    ("Intl1924"%string, mkEllipseoid 6378388 6356911.946 (inv_const 297 1));
    ("WGS72"%string, mkEllipseoid 6378135 6356750.5 (inv_const 29826 (10 ^ 2))) ].

Definition ellipsoid (k : string) : Ellipseoid := map_index zero_Ellipseoid ellipsoids k.

Definition Datums : list (string * Datum) :=
  Eval vm_compute in
  [ ("ED50"%string, mkDatum "ED50" (ellipsoid "Intl1924")
       (mkArray7 89.5 93.8 123.1 (-1.2) 0.0 0.0 0.156));
    ("ETRS89"%string, mkDatum "ETRS89" (ellipsoid "GRS80")
       (mkArray7 0 0 0 0 0 0 0));
    ("Irl1975"%string, mkDatum "Irl1975" (ellipsoid "AiryModified")
       (mkArray7 (-482.530) 130.596 (-564.557) (-8.150) 1.042 0.214 0.631));
    ("NAD27"%string, mkDatum "NAD27" (ellipsoid "Clarke1866")
       (mkArray7 8 (-160) (-176) 0 0 0 0));
    ("NAD83"%string, mkDatum "NAD83" (ellipsoid "GRS80")
       (mkArray7 0.9956 (-1.9103) (-0.5215) (-0.00062) 0.025915 0.009426 0.011599));
    ("NTF"%string, mkDatum "NTF" (ellipsoid "Clarke1880IGN")
       (mkArray7 168 60 (-320) 0 0 0 0));
    ("OSGB36"%string, mkDatum "OSGB36" (ellipsoid "Airy1830")
       (mkArray7 (-446.448) 125.157 (-542.060) 20.4894 (-0.1502) (-0.2470) (-0.8421)));
    ("Potsdam"%string, mkDatum "Potsdam" (ellipsoid "Bessel1841")
       (mkArray7 (-582) (-105) (-414) (-8.3) 1.04 0.35 (-3.08)));
    ("TokyoJapan"%string, mkDatum "TokyoJapan" (ellipsoid "Bessel1841")
       (mkArray7 148 (-507) (-685) 0 0 0 0));
    ("WGS72"%string, mkDatum "WGS72" (ellipsoid "WGS72")
       (mkArray7 0 0 (-4.5) (-0.22) 0 0 0.554));
    ("WGS84"%string, mkDatum "WGS84" (ellipsoid "WGS84")
       (mkArray7 0.0 0.0 0.0 0.0 0.0 0.0 0.0)) ].

Definition OSGB36 : Datum := Eval vm_compute in map_index zero_Datum Datums "OSGB36".
Definition WGS84 : Datum := Eval vm_compute in map_index zero_Datum Datums "WGS84".

(** ** Points *)

Record LatLonEllipsoidalDatum : Type := mkLatLon {
  Lat : float;
  Lon : float;
  Height : float;
  ll_Datum : Datum
}.

Record Cartesian : Type := mkCartesian {
  c_X : float;
  c_Y : float;
  c_Z : float;
  c_Datum : Datum
}.

Definition Cartesian_with_Datum (c : Cartesian) (d : Datum) : Cartesian :=
  mkCartesian (c_X c) (c_Y c) (c_Z c) d.

(** ** Parsing a latitude/longitude pair

    [strings.Split] belongs to Go's library and [ParseDegrees] reads one
    angle from text; [ParseLatLon] is modelled over both, an angle being
    returned with the flag [err != nil]. *)

Inductive error : Type :=
| invalid_LatLon (latLon : string).

Section Parse.
Context {M : GoMath}.
Variable strings_Split : string -> string -> list string.
Variable ParseDegrees : string -> float * bool.

Definition zero_LatLon : LatLonEllipsoidalDatum := mkLatLon 0 0 0 zero_Datum.

Definition ParseLatLon (latLon : string) (height : float) (datum : Datum)
  : LatLonEllipsoidalDatum * option error :=
  let errMessage := invalid_LatLon latLon in
  let datum := if String.eqb (Name datum) "" then WGS84 else datum in
  match strings_Split latLon "," with
  | [part0; part1] =>
      let '(lat, err1) := ParseDegrees part0 in
      let lat := Wrap90 lat in
      let '(lon, err2) := ParseDegrees part1 in
      let lon := Wrap180 lon in
      if err1 || err2 then (zero_LatLon, Some errMessage)
      else (mkLatLon lat lon height datum, None)
  | _ => (zero_LatLon, Some errMessage)
  end.

End Parse.

(** ** Helmert transformation and change of datum (Cartesian) *)

Definition Cartesian_applyTransform (c : Cartesian) (t : Array7) : Cartesian :=
  let x1 := c_X c in
  let y1 := c_Y c in
  let z1 := c_Z c in
  let tx := t0 t in
  let ty := t1 t in
  let tz := t2 t in
  let s := t3 t / 1e6 + 1 in
  let rx := (t4 t / 3600) * toRadians in
  let ry := (t5 t / 3600) * toRadians in
  let rz := (t6 t / 3600) * toRadians in
  let x2 := tx + x1 * s - y1 * rz + z1 * ry in
  let y2 := ty + x1 * rz + y1 * s - z1 * rx in
  let z2 := tz - x1 * ry + y1 * rx + z1 * s in
  mkCartesian x2 y2 z2 zero_Datum.

(** The number of nested calls [Cartesian.ConvertDatum] still has to make:
    one when neither datum is WGS84, none otherwise. *)
Definition relay_hops (c : Cartesian) (toDatum : Datum) : nat :=
  if String.eqb (Name (c_Datum c)) (Name toDatum) then 0%nat
  else if String.eqb (Name (c_Datum c)) "WGS84" then 0%nat
  else if String.eqb (Name toDatum) "WGS84" then 0%nat
  else 1%nat.

(** A value together with the equation that names it, so that the branch
    taken is known when the nested call is shown to terminate. *)
Definition inspect {A : Type} (x : A) : {y : A | x = y} := exist _ x eq_refl.

Section ConvertDatum.
Local Notation "x 'eqn:' p" := (exist _ x p) (only parsing, at level 20).

Equations? Cartesian_ConvertDatum (c : Cartesian) (toDatum : Datum) : Cartesian
  by wf (relay_hops c toDatum) lt :=
  Cartesian_ConvertDatum c toDatum with inspect (String.eqb (Name (c_Datum c)) (Name toDatum)) => {
    | true eqn: Hsame => c
    | false eqn: Hne with inspect (String.eqb (Name (c_Datum c)) "WGS84") => {
      | true eqn: Hfrom =>
          Cartesian_with_Datum (Cartesian_applyTransform c (Transform toDatum)) toDatum
      | false eqn: Hc with inspect (String.eqb (Name toDatum) "WGS84") => {
        | true eqn: Hto =>
            Cartesian_with_Datum
              (Cartesian_applyTransform c (Array7_map PrimFloat.opp (Transform (c_Datum c))))
              toDatum
        | false eqn: Hd =>
            Cartesian_with_Datum
              (Cartesian_applyTransform (Cartesian_ConvertDatum c WGS84) (Transform toDatum))
              toDatum } } }.
Proof.
  unfold relay_hops. rewrite Hne, Hc, Hd. simpl.
  destruct (String.eqb (Name (c_Datum c)) "WGS84"); auto.
Qed.

End ConvertDatum.

(** ** Geodetic and geocentric coordinates; change of datum (lat/lon) *)

Section Ellipsoidal.
Context {M : GoMath}.

Definition LatLon_ToCartesian (l : LatLonEllipsoidalDatum) : Cartesian :=
  let ellipsoid := Ellipsoid (ll_Datum l) in
  let φ := Lat l * toRadians in
  let λ_ := Lon l * toRadians in
  let h := Height l in
  let a := ell_a ellipsoid in
  let f := ell_f ellipsoid in
  let sinφ := math_Sin φ in
  let cosφ := math_Cos φ in
  let sinλ := math_Sin λ_ in
  let cosλ := math_Cos λ_ in
  let eSq := 2 * f - f * f in
  let ν := a / math_Sqrt (1 - eSq * sinφ * sinφ) in
  let x := (ν + h) * cosφ * cosλ in
  let y := (ν + h) * cosφ * sinλ in
  let z := (ν * (1 - eSq) + h) * sinφ in
  mkCartesian x y z (ll_Datum l).

Definition Cartesian_ToLatLon (c : Cartesian) : LatLonEllipsoidalDatum :=
  let x := c_X c in
  let y := c_Y c in
  let z := c_Z c in
  let a := ell_a (Ellipsoid (c_Datum c)) in
  let b := ell_b (Ellipsoid (c_Datum c)) in
  let f := ell_f (Ellipsoid (c_Datum c)) in
  let e2 := 2 * f - f * f in
  let ε2 := e2 / (1 - e2) in
  let p := math_Sqrt (x * x + y * y) in
  let R := math_Sqrt (p * p + z * z) in
  let tanβ := (b * z) / (a * p) * (1 + ε2 * b / R) in
  let sinβ := tanβ / math_Sqrt (1 + tanβ * tanβ) in
  let cosβ := sinβ / tanβ in
  let φ :=
    if negb (math_IsNaN cosβ)
    then math_Atan2 (z + ε2 * b * sinβ * sinβ * sinβ) (p - e2 * a * cosβ * cosβ * cosβ)
    else 0.0 in
  let λ_ := math_Atan2 y x in
  let sinφ := math_Sin φ in
  let cosφ := math_Cos φ in
  let ν := a / math_Sqrt (1 - e2 * sinφ * sinφ) in
  let h := p * cosφ + z * sinφ - (a * a / ν) in
  mkLatLon (φ * toDegrees) (λ_ * toDegrees) h (c_Datum c).

Definition LatLon_ConvertDatum (l : LatLonEllipsoidalDatum) (toDatum : Datum)
  : LatLonEllipsoidalDatum :=
  let oldCartesian := LatLon_ToCartesian l in
  let newCartesian := Cartesian_ConvertDatum oldCartesian toDatum in
  let newLatLon := Cartesian_ToLatLon newCartesian in
  newLatLon.

End Ellipsoidal.

(** ** osgridref: the national grid *)

Module NatGrid.

Local Open Scope Q_scope.

(** Airy 1830 major and minor semi-axes. *)
Definition a : Q := Qmake 6377563396 1000.
Definition b : Q := Qmake 6356256909 1000.
(** NatGrid scale factor on central meridian. *)
Definition F0 : Q := Qmake 9996012717 (10 ^ 10).
(** NatGrid true origin is 49°N, 2°W. *)
Definition φ0 : Q := 49 * (math_Pi / 180).
Definition λ0 : Q := - (2) * (math_Pi / 180).
(** Northing and easting of true origin, metres. *)
Definition N0 : Q := - (100000).
Definition E0 : Q := 400000.
(** Eccentricity squared. *)
Definition e2 : Q := 1 - (b * b) / (a * a).
Definition n : Q := (a - b) / (a + b).
Definition n2 : Q := n * n.
Definition n3 : Q := n * n * n.

End NatGrid.

Record OsGridRef : Type := mkOsGridRef {
  Easting : Z;
  Northing : Z
}.

Definition OsGridRef_Valid (o : OsGridRef) : bool :=
  ((Easting o >=? 0) && (Easting o <=? 700000)
   && (Northing o >=? 0) && (Northing o <=? 1300000))%Z.

(** The value [assertValid] panics with (the source formats it into a
    message). *)
Inductive panic_value : Type :=
| Invalid_OS_grid_ref (o : OsGridRef).

Definition OsGridRef_assertValid (o : OsGridRef) : outcome panic_value unit :=
  if negb (OsGridRef_Valid o) then Panic (Invalid_OS_grid_ref o) else Done tt.

(** The constant subexpressions of the two projections, folded as the Go
    compiler folds them.  [(5/4)], [(21/8)], [(15/8)] and [(35/24)] divide
    untyped integer constants. *)
Module NatGridF.
Import NatGrid.
Local Open Scope Q_scope.

Definition a_F0 : float := Eval vm_compute in Qf (a * F0).
Definition b_F0 : float := Eval vm_compute in Qf (b * F0).
Definition a_F0_1_e2 : float := Eval vm_compute in Qf (a * F0 * (1 - e2)).
Definition e2 : float := Eval vm_compute in Qf NatGrid.e2.
Definition φ0 : float := Eval vm_compute in Qf NatGrid.φ0.
Definition λ0 : float := Eval vm_compute in Qf NatGrid.λ0.
Definition N0 : float := Eval vm_compute in Qf NatGrid.N0.
Definition E0 : float := Eval vm_compute in Qf NatGrid.E0.
Definition Ma_coeff : float :=
  Eval vm_compute in Qf (1 + n + int_div 5 4 * n2 + int_div 5 4 * n3).
Definition Mb_coeff : float :=
  Eval vm_compute in Qf (3 * n + 3 * n * n + int_div 21 8 * n3).
Definition Mc_coeff : float :=
  Eval vm_compute in Qf (int_div 15 8 * n2 + int_div 15 8 * n3).
Definition Md_coeff : float :=
  Eval vm_compute in Qf (int_div 35 24 * n3).

End NatGridF.

Section Grid.
Context {M : GoMath}.
Import NatGridF.

(** The meridional arc [M] for latitude [φ]; the same four statements occur
    in [OsGridRef.ToLatLon] and in [ToOsGridRef]. *)
Definition meridional_arc (φ : float) : float :=
  let Ma := Ma_coeff * (φ - φ0) in
  let Mb := Mb_coeff * math_Sin (φ - φ0) * math_Cos (φ + φ0) in
  let Mc := Mc_coeff * math_Sin (2 * (φ - φ0)) * math_Cos (2 * (φ + φ0)) in
  let Md := Md_coeff * math_Sin (3 * (φ - φ0)) * math_Cos (3 * (φ + φ0)) in
  b_F0 * (Ma - Mb + Mc - Md).

(** The loop [for { ...; if math.Abs(N-N0-M) < 0.00001 { break } }], run for
    at most [fuel] iterations; [Some (φ, M)] when it breaks. *)
Fixpoint latitude_loop (fuel : nat) (N φ Marc : float) : option (float * float) :=
  match fuel with
  | O => None
  | S fuel' =>
      let φ := (N - N0 - Marc) / a_F0 + φ in
      let Marc := meridional_arc φ in
      if math_Abs (N - N0 - Marc) <? 0.00001 then Some (φ, Marc)
      else latitude_loop fuel' N φ Marc
  end.

Definition osgb36ToWGS84 (lat lon : float) : float * float :=
  let latLon := mkLatLon lat lon 0 OSGB36 in
  let converted := LatLon_ConvertDatum latLon WGS84 in
  (Lat converted, Lon converted).

Definition OsGridRef_ToLatLon (fuel : nat) (o : OsGridRef)
  : outcome panic_value (float * float) :=
  let E := float64_of_int (Easting o) in
  let N := float64_of_int (Northing o) in
  match latitude_loop fuel N φ0 0 with
  | None => Running
  | Some (φ, _) =>
      let cosφ := math_Cos φ in
      let sinφ := math_Sin φ in
      let ν := a_F0 / math_Sqrt (1 - e2 * sinφ * sinφ) in
      let ρ := a_F0_1_e2 / math_Pow (1 - e2 * sinφ * sinφ) 1.5 in
      let η2 := ν / ρ - 1 in
      let tanφ := math_Tan φ in
      let tan2φ := tanφ * tanφ in
      let tan4φ := tan2φ * tan2φ in
      let tan6φ := tan4φ * tan2φ in
      let secφ := 1 / cosφ in
      let ν3 := ν * ν * ν in
      let ν5 := ν3 * ν * ν in
      let ν7 := ν5 * ν * ν in
      let VII := tanφ / (2 * ρ * ν) in
      let VIII := tanφ / (24 * ρ * ν3) * (5 + 3 * tan2φ + η2 - 9 * tan2φ * η2) in
      let IX := tanφ / (720 * ρ * ν5) * (61 + 90 * tan2φ + 45 * tan4φ) in
      let X := secφ / ν in
      let XI := secφ / (6 * ν3) * (ν / ρ + 2 * tan2φ) in
      let XII := secφ / (120 * ν5) * (5 + 28 * tan2φ + 24 * tan4φ) in
      let XIIA := secφ / (5040 * ν7) * (61 + 662 * tan2φ + 1320 * tan4φ + 720 * tan6φ) in
      let dE := E - E0 in
      let dE2 := dE * dE in
      let dE3 := dE2 * dE in
      let dE4 := dE2 * dE2 in
      let dE5 := dE3 * dE2 in
      let dE6 := dE4 * dE2 in
      let dE7 := dE5 * dE2 in
      let φ := φ - VII * dE2 + VIII * dE4 - IX * dE6 in
      let λ_ := λ0 + X * dE - XI * dE3 + XII * dE5 - XIIA * dE7 in
      Done (osgb36ToWGS84 (φ * toDegrees) (λ_ * toDegrees))
  end.

Definition LatLon_ToOsGridRef (l : LatLonEllipsoidalDatum) : OsGridRef :=
  let point :=
    if negb (String.eqb (Name (ll_Datum l)) (Name OSGB36))
    then LatLon_ConvertDatum l OSGB36 else l in
  let φ := Lat point * toRadians in
  let λ_ := Lon point * toRadians in
  let cosφ := math_Cos φ in
  let sinφ := math_Sin φ in
  let ν := a_F0 / math_Sqrt (1 - e2 * sinφ * sinφ) in
  let ρ := a_F0_1_e2 / math_Pow (1 - e2 * sinφ * sinφ) 1.5 in
  let η2 := ν / ρ - 1 in
  let Marc := meridional_arc φ in
  let cos3φ := cosφ * cosφ * cosφ in
  let cos5φ := cos3φ * cosφ * cosφ in
  let tan2φ := math_Tan φ * math_Tan φ in
  let tan4φ := tan2φ * tan2φ in
  let I := Marc + N0 in
  let II := (ν / 2) * sinφ * cosφ in
  let III := (ν / 24) * sinφ * cos3φ * (5 - tan2φ + 9 * η2) in
  let IIIA := (ν / 720) * sinφ * cos5φ * (61 - 58 * tan2φ + tan4φ) in
  let IV := ν * cosφ in
  let V := (ν / 6) * cos3φ * (ν / ρ - tan2φ) in
  let VI := (ν / 120) * cos5φ * (5 - 18 * tan2φ + tan4φ + 14 * η2 - 58 * tan2φ * η2) in
  let Δλ := λ_ - λ0 in
  let Δλ2 := Δλ * Δλ in
  let Δλ3 := Δλ2 * Δλ in
  let Δλ4 := Δλ3 * Δλ in
  let Δλ5 := Δλ4 * Δλ in
  let Δλ6 := Δλ5 * Δλ in
  let N := I + II * Δλ2 + III * Δλ4 + IIIA * Δλ6 in
  let E := E0 + IV * Δλ + V * Δλ3 + VI * Δλ5 in
  mkOsGridRef (int_of_float64 (math_Round E)) (int_of_float64 (math_Round N)).

End Grid.

(** ** The Helmert transformation as the specification words it

    Scale [s] in parts per million becomes [s/10^6 + 1]; a rotation in
    arc-seconds is divided by 3600 and multiplied by [pi/180]. *)

Module HelmertSpec.

Definition scale (s : float) : float := s / 1000000 + 1.
Definition arcsec_to_rad (r : float) : float := r / 3600 * Qf (math_Pi / 180).

Definition x' (x y z tx s rz ry : float) : float :=
  tx + x * scale s - y * arcsec_to_rad rz + z * arcsec_to_rad ry.
Definition y' (x y z ty s rz rx : float) : float :=
  ty + x * arcsec_to_rad rz + y * scale s - z * arcsec_to_rad rx.
Definition z' (x y z tz s ry rx : float) : float :=
  tz - x * arcsec_to_rad ry + y * arcsec_to_rad rx + z * scale s.

End HelmertSpec.

(** ** Sample inputs *)

(** A point on the equator and the prime meridian, 10 cm above WGS84. *)
Definition equator_point : LatLonEllipsoidalDatum := mkLatLon 0 0 0.1 WGS84.

(** The Cartesian point and the target datum of the example in the comment
    of [Cartesian.ConvertDatum]. *)
Definition sample_cartesian : Cartesian :=
  mkCartesian 3980574.247 (-102.127) 4966830.065 OSGB36.
Definition Irl1975 : Datum := Eval vm_compute in map_index zero_Datum Datums "Irl1975".

(** The north pole of the WGS84 ellipsoid, in geocentric coordinates. *)
Definition north_pole : Cartesian := mkCartesian 0 0 6356752.314245 WGS84.

(** A grid reference one metre beyond the north-east corner of the grid. *)
Definition beyond_corner : OsGridRef := mkOsGridRef 700001 1300001.

(** The sample conversion of the source: SJ 92395 52997. *)
Definition sample_ref : OsGridRef := mkOsGridRef 392395 352997.

(** ** Classes of binary64 values *)

Definition inf_or_nan (s : spec_float) : bool :=
  match s with S754_infinity _ | S754_nan => true | _ => false end.

Definition zero_or_nan (s : spec_float) : bool :=
  match s with S754_zero _ | S754_nan => true | _ => false end.

(** ** An executable instance of [GoMath]

    The functions are evaluated in fixed point with [prec] fractional bits
    (Taylor series after argument reduction) and rounded once to binary64.
    The instance serves to run the model and as the reference of
    [GoMathAccurate]; nothing below assumes that Go's library returns the
    same bits at ordinary arguments.  Arguments of [Sin],
    [Cos] and [Tan] beyond [2^60] in magnitude, and exponents of [Pow] other
    than 0, 0.5, 1 and 1.5, are outside its domain and give NaN. *)

Module Ref.

Local Open Scope Z_scope.

Definition prec : Z := 128.
Definition ONE : Z := 2 ^ prec.
Definition fx_mul (x y : Z) : Z := Z.shiftr (x * y) prec.
Definition fx_div (x y : Z) : Z := (Z.shiftl x prec) / y.
Definition PI : Z := Eval vm_compute in (Qnum math_Pi * ONE) / Zpos (Qden math_Pi).

Definition fx_of_frac (q : Z * Z) : Z := (fst q * ONE) / snd q.
Definition float_of_fx (v : Z) : float := Q2F v ONE.

Definition signbit (x : float) : bool :=
  match Prim2SF x with
  | S754_zero s | S754_infinity s | S754_finite s _ _ => s
  | S754_nan => false
  end.

Definition copysign (x sgn : float) : float :=
  if signbit sgn then (- PrimFloat.abs x)%float else PrimFloat.abs x.

(** [term - term*r2/((i+1)(i+2)) + ...], [k] further terms. *)
Fixpoint alt_series (k : nat) (term r2 i acc : Z) : Z :=
  match k with
  | O => acc
  | S k' =>
      let term' := - (fx_mul term r2) / ((i + 1) * (i + 2)) in
      alt_series k' term' r2 (i + 2) (acc + term')
  end.

Definition fx_sin (r : Z) : Z := alt_series 18 r (fx_mul r r) 1 r.
Definition fx_cos (r : Z) : Z := alt_series 18 ONE (fx_mul r r) 0 ONE.

(** Sine and cosine of a fixed-point angle, after reduction by quadrants. *)
Definition fx_sincos (x : Z) : Z * Z :=
  let k := (2 * x + PI / 2) / PI in
  let r := x - (k * PI) / 2 in
  let s := fx_sin r in
  let c := fx_cos r in
  match k mod 4 with
  | 0 => (s, c)
  | 1 => (c, - s)
  | 2 => (- s, - c)
  | _ => (- c, s)
  end.

Definition small (x : float) : bool := (PrimFloat.abs x <? 0x1p-30)%float.
Definition in_domain (x : float) : bool := (PrimFloat.abs x <? 0x1p60)%float.

Definition Sin (x : float) : float :=
  if (x =? 0)%float || is_nan x || small x then x
  else if negb (in_domain x) then nan
  else match F2Q x with
       | Some q => float_of_fx (fst (fx_sincos (fx_of_frac q)))
       | None => nan
       end.

Definition Cos (x : float) : float :=
  if is_nan x then x
  else if small x then 1%float
  else if negb (in_domain x) then nan
  else match F2Q x with
       | Some q => float_of_fx (snd (fx_sincos (fx_of_frac q)))
       | None => nan
       end.

Definition Tan (x : float) : float :=
  if (x =? 0)%float || is_nan x || small x then x
  else if negb (in_domain x) then nan
  else match F2Q x with
       | Some q =>
           let '(s, c) := fx_sincos (fx_of_frac q) in
           if c =? 0 then copysign infinity (float_of_fx s)
           else if c <? 0 then Q2F (- s) (- c) else Q2F s c
       | None => nan
       end.

(** [u - u^3/3 + u^5/5 - ...], [k] further terms; [pow] is the last power. *)
Fixpoint atan_series (k : nat) (pow u2 i acc : Z) : Z :=
  match k with
  | O => acc
  | S k' =>
      let pow' := - (fx_mul pow u2) in
      atan_series k' pow' u2 (i + 2) (acc + pow' / (i + 2))
  end.

Definition fx_atan_small (u : Z) : Z := atan_series 48 u (fx_mul u u) 1 u.

Definition ATAN_HALF : Z :=
  Eval vm_compute in atan_series 70 (ONE / 2) (fx_mul (ONE / 2) (ONE / 2)) 1 (ONE / 2).

(** Arctangent of [t] in [0, 1]. *)
Definition fx_atan01 (t : Z) : Z :=
  if 8 * t <=? 3 * ONE then fx_atan_small t
  else ATAN_HALF + fx_atan_small (fx_div (t - ONE / 2) (ONE + t / 2)).

(** Arctangent of the positive fraction [n/d]. *)
Definition fx_atan_frac (n d : Z) : Z :=
  if n <=? d then fx_atan01 ((n * ONE) / d)
  else PI / 2 - fx_atan01 ((d * ONE) / n).

Definition Atan2 (y x : float) : float :=
  if (y =? 0)%float && (0 <? x)%float then y
  else if is_nan x || is_nan y then nan
  else if (y =? 0)%float then
    (if (x =? 0)%float && negb (signbit x) then y else copysign (float_of_fx PI) y)
  else if (x =? 0)%float then copysign (float_of_fx (PI / 2)) y
  else match F2Q (PrimFloat.abs y), F2Q (PrimFloat.abs x) with
       | Some (ny, dy), Some (nx, dx) =>
           let n := ny * dx in
           let d := dy * nx in
           if (0 <? x)%float && (n * 2 ^ 30 <? d) then copysign (Q2F n d) y
           else
             let q := fx_atan_frac n d in
             copysign (float_of_fx (if (x <? 0)%float then PI - q else q)) y
       | None, Some _ => copysign (float_of_fx (PI / 2)) y
       | Some _, None => if (0 <? x)%float then copysign 0 y else copysign (float_of_fx PI) y
       | None, None =>
           copysign (float_of_fx (if (0 <? x)%float then PI / 4 else 3 * PI / 4)) y
       end.

(** [x^1.5] as the square root of the exact cube. *)
Definition pow_3_2 (x : float) : float :=
  match F2Q x with
  | Some (n, d) =>
      if n <=? 0 then (if n =? 0 then 0%float else nan)
      else
        let n3 := n * n * n in
        let d3 := d * d * d in
        let k := 120 - (Z.log2 n3 - Z.log2 d3) / 2 in
        if 0 <=? k then Q2F (Z.sqrt ((n3 * 2 ^ (2 * k)) / d3)) (2 ^ k)
        else Q2F (Z.sqrt (n3 / (d3 * 2 ^ (- 2 * k))) * 2 ^ (- k)) 1
  | None => if (0 <? x)%float then x else nan
  end.

Definition Pow (x y : float) : float :=
  if (y =? 0)%float then 1%float
  else if (y =? 1)%float then x
  else if (y =? 0.5)%float then PrimFloat.sqrt x
  else if (y =? 1.5)%float then pow_3_2 x
  else nan.

(** [math.Mod]: the remainder with the sign of [x]; an exact operation. *)
Definition Mod (x y : float) : float :=
  if is_nan x || is_nan y || (y =? 0)%float then nan
  else match F2Q x, F2Q y with
       | Some (nx, dx), Some (ny, dy) =>
           let r := Z.rem (nx * dy) (Z.abs ny * dx) in
           if r =? 0 then (x * 0)%float else Q2F r (dx * dy)
       | Some _, None => x
       | None, _ => nan
       end.

End Ref.

#[export] Instance RefMath : GoMath := {|
  math_Sin := Ref.Sin;
  math_Cos := Ref.Cos;
  math_Tan := Ref.Tan;
  math_Atan2 := Ref.Atan2;
  math_Pow := Ref.Pow;
  math_Mod := Ref.Mod
|}.

(** ** Candidate sets

    When the math library is only known up to a few units in the last place,
    a quantity of the computation is known to lie in a finite set of
    binary64 numbers.  The programs of the conversion are written once more
    as expressions, which can be run on floats (agreeing with the functions
    above) and on candidate sets. *)

Module Cand.

Definition fset : Type := list float.

Fixpoint insert (x : float) (s : fset) : fset :=
  match s with
  | [] => [x]
  | y :: s' =>
      if PrimFloat.Leibniz.eqb x y then s
      else if x <? y then x :: s
      else y :: insert x s'
  end.

Definition of_list (l : list float) : fset := fold_right insert [] l.

Definition lift1 (f : float -> float) (s : fset) : fset := of_list (map f s).

Definition lift2 (f : float -> float -> float) (s1 s2 : fset) : fset :=
  of_list (flat_map (fun x => map (f x) s2) s1).

Fixpoint orbit (n : nat) (f : float -> float) (x : float) : list float :=
  match n with
  | O => []
  | S k => f x :: orbit k f (f x)
  end.

(** The distance, in units in the last place, granted to the math library. *)
Definition ulps : nat := 4.

(** A value and its [ulps] neighbours on either side. *)
Definition near (v : float) : fset :=
  of_list (v :: orbit ulps next_up v ++ orbit ulps next_down v).

Definition spread1 (f : float -> float) (s : fset) : fset :=
  of_list (flat_map (fun x => near (f x)) s).

Definition spread2 (f : float -> float -> float) (s1 s2 : fset) : fset :=
  of_list (flat_map (fun x => flat_map (fun y => near (f x y)) s2) s1).

(** Where the reference values are granted to be close: moderate arguments,
    and results that are not tiny next to the function's scale (near a zero
    of sine or cosine away from the origin, a library's argument reduction
    is felt). *)
Definition not_tiny (v : float) : bool := 0x1p-10 <=? abs v.
Definition sin_dom (x : float) : bool :=
  (abs x <=? 8) && ((abs x <=? 0.5) || not_tiny (Ref.Sin x)).
Definition cos_dom (x : float) : bool :=
  (abs x <=? 8) && not_tiny (Ref.Cos x).
Definition tan_dom (x : float) : bool :=
  (abs x <=? 1.5) && ((abs x <=? 0.5) || not_tiny (Ref.Tan x)).
Definition ordinary (x : float) : bool := (0x1p-100 <=? abs x) && (abs x <=? 0x1p100).
Definition atan2_dom (y x : float) : bool := ordinary y && ordinary x.
Definition pow_dom (x y : float) : bool :=
  PrimFloat.Leibniz.eqb y 1.5 && (0.25 <=? x) && (x <=? 4).

End Cand.

(** A math library within [Cand.ulps] units in the last place of the
    reference instance, on the domains above. *)
Class GoMathAccurate (M : GoMath) : Prop := {
  Sin_accurate : forall x, Cand.sin_dom x = true -> In (math_Sin x) (Cand.near (Ref.Sin x));
  Cos_accurate : forall x, Cand.cos_dom x = true -> In (math_Cos x) (Cand.near (Ref.Cos x));
  Tan_accurate : forall x, Cand.tan_dom x = true -> In (math_Tan x) (Cand.near (Ref.Tan x));
  Atan2_accurate : forall y x,
    Cand.atan2_dom y x = true -> In (math_Atan2 y x) (Cand.near (Ref.Atan2 y x));
  Pow_accurate : forall x y,
    Cand.pow_dom x y = true -> In (math_Pow x y) (Cand.near (Ref.Pow x y))
}.

(** Expressions over variables of type [var]. *)
Module Expr.

Section Syntax.
Variable var : Type.

Inductive expr : Type :=
| Cst (c : float)
| Var (x : var)
| Add (a b : expr)
| Sub (a b : expr)
| Mul (a b : expr)
| Div (a b : expr)
| Sqrt (a : expr)
| Sin (a : expr)
| Cos (a : expr)
| Tan (a : expr)
| Atan2 (a b : expr)
| Pow (a b : expr)
| Let (a : expr) (body : var -> expr)
| IfNotNaN (c t e : expr).

End Syntax.

Arguments Cst {var} c.
Arguments Var {var} x.
Arguments Add {var} a b.
Arguments Sub {var} a b.
Arguments Mul {var} a b.
Arguments Div {var} a b.
Arguments Sqrt {var} a.
Arguments Sin {var} a.
Arguments Cos {var} a.
Arguments Tan {var} a.
Arguments Atan2 {var} a b.
Arguments Pow {var} a b.
Arguments Let {var} a body.
Arguments IfNotNaN {var} c t e.

(** The value of an expression on floats. *)
Fixpoint denote {M : GoMath} (e : expr float) : float :=
  match e with
  | Cst c => c
  | Var x => x
  | Add a b => denote a + denote b
  | Sub a b => denote a - denote b
  | Mul a b => denote a * denote b
  | Div a b => denote a / denote b
  | Sqrt a => math_Sqrt (denote a)
  | Sin a => math_Sin (denote a)
  | Cos a => math_Cos (denote a)
  | Tan a => math_Tan (denote a)
  | Atan2 a b => math_Atan2 (denote a) (denote b)
  | Pow a b => math_Pow (denote a) (denote b)
  | Let a body => denote (body (denote a))
  | IfNotNaN c t e => if negb (math_IsNaN (denote c)) then denote t else denote e
  end.

Definition bind {A B : Type} (o : option A) (k : A -> option B) : option B :=
  match o with
  | Some a => k a
  | None => None
  end.

Definition guard (b : bool) (s : Cand.fset) : option Cand.fset :=
  if b then Some s else None.

(** The candidates of an expression; [None] when an argument leaves the
    domain on which the math library is granted to be accurate. *)
Fixpoint candidates (e : expr Cand.fset) : option Cand.fset :=
  match e with
  | Cst c => Some [c]
  | Var s => Some s
  | Add a b => bind (candidates a) (fun sa => bind (candidates b) (fun sb =>
      Some (Cand.lift2 PrimFloat.add sa sb)))
  | Sub a b => bind (candidates a) (fun sa => bind (candidates b) (fun sb =>
      Some (Cand.lift2 PrimFloat.sub sa sb)))
  | Mul a b => bind (candidates a) (fun sa => bind (candidates b) (fun sb =>
      Some (Cand.lift2 PrimFloat.mul sa sb)))
  | Div a b => bind (candidates a) (fun sa => bind (candidates b) (fun sb =>
      Some (Cand.lift2 PrimFloat.div sa sb)))
  | Sqrt a => bind (candidates a) (fun sa => Some (Cand.lift1 math_Sqrt sa))
  | Sin a => bind (candidates a) (fun sa =>
      guard (forallb Cand.sin_dom sa) (Cand.spread1 Ref.Sin sa))
  | Cos a => bind (candidates a) (fun sa =>
      guard (forallb Cand.cos_dom sa) (Cand.spread1 Ref.Cos sa))
  | Tan a => bind (candidates a) (fun sa =>
      guard (forallb Cand.tan_dom sa) (Cand.spread1 Ref.Tan sa))
  | Atan2 a b => bind (candidates a) (fun sa => bind (candidates b) (fun sb =>
      guard (forallb (fun y => forallb (Cand.atan2_dom y) sb) sa)
            (Cand.spread2 Ref.Atan2 sa sb)))
  | Pow a b => bind (candidates a) (fun sa => bind (candidates b) (fun sb =>
      guard (forallb (fun x => forallb (Cand.pow_dom x) sb) sa)
            (Cand.spread2 Ref.Pow sa sb)))
  | Let a body => bind (candidates a) (fun sa => candidates (body sa))
  | IfNotNaN c t e => bind (candidates c) (fun sc =>
      if forallb (fun x => negb (math_IsNaN x)) sc then candidates t
      else if forallb math_IsNaN sc then candidates e
      else bind (candidates t) (fun st => bind (candidates e) (fun se =>
             Some (Cand.of_list (st ++ se)))))
  end.

(** The same expression read on floats and on candidate sets, with each
    float variable lying in its set. *)
Inductive related : expr float -> expr Cand.fset -> Prop :=
| R_Cst c : related (Cst c) (Cst c)
| R_Var x s : In x s -> related (Var x) (Var s)
| R_Add a a' b b' : related a a' -> related b b' -> related (Add a b) (Add a' b')
| R_Sub a a' b b' : related a a' -> related b b' -> related (Sub a b) (Sub a' b')
| R_Mul a a' b b' : related a a' -> related b b' -> related (Mul a b) (Mul a' b')
| R_Div a a' b b' : related a a' -> related b b' -> related (Div a b) (Div a' b')
| R_Sqrt a a' : related a a' -> related (Sqrt a) (Sqrt a')
| R_Sin a a' : related a a' -> related (Sin a) (Sin a')
| R_Cos a a' : related a a' -> related (Cos a) (Cos a')
| R_Tan a a' : related a a' -> related (Tan a) (Tan a')
| R_Atan2 a a' b b' : related a a' -> related b b' -> related (Atan2 a b) (Atan2 a' b')
| R_Pow a a' b b' : related a a' -> related b b' -> related (Pow a b) (Pow a' b')
| R_Let a a' f f' :
    related a a' -> (forall x s, In x s -> related (f x) (f' s)) ->
    related (Let a f) (Let a' f')
| R_IfNotNaN c c' t t' e e' :
    related c c' -> related t t' -> related e e' ->
    related (IfNotNaN c t e) (IfNotNaN c' t' e').

End Expr.

(** ** The conversion as expressions *)

Module Prog.
Import Expr NatGridF.

Declare Scope expr_scope.
Delimit Scope expr_scope with expr.
Notation "a + b" := (Add a b) : expr_scope.
Notation "a - b" := (Sub a b) : expr_scope.
Notation "a * b" := (Mul a b) : expr_scope.
Notation "a / b" := (Div a b) : expr_scope.
Notation "# x" := (Var x) (at level 9, format "# x") : expr_scope.
Notation "$ c" := (Cst c) (at level 9, c at level 9, format "$ c") : expr_scope.
Notation "'elet' x := a 'in' b" := (Let a (fun x => b))
  (at level 10, x name, a at level 200, b at level 200) : expr_scope.

Section Programs.
Context {var : Type}.
Local Open Scope expr_scope.

(** [meridional_arc]. *)
Definition arc (φ : var) : expr var :=
  elet Ma := $Ma_coeff * (#φ - $φ0) in
  elet Mb := $Mb_coeff * Sin (#φ - $φ0) * Cos (#φ + $φ0) in
  elet Mc := $Mc_coeff * Sin ($2 * (#φ - $φ0)) * Cos ($2 * (#φ + $φ0)) in
  elet Md := $Md_coeff * Sin ($3 * (#φ - $φ0)) * Cos ($3 * (#φ + $φ0)) in
  $b_F0 * (#Ma - #Mb + #Mc - #Md).

(** The latitude of the next iteration of the loop. *)
Definition next_φ (N φ Marc : var) : expr var :=
  (#N - $N0 - #Marc) / $a_F0 + #φ.

(** The latitude on OSGB36, in degrees, from the easting and the latitude
    the loop ends with. *)
Definition grid_lat (E φ : var) : expr var :=
  elet sinφ := Sin #φ in
  elet ν := $a_F0 / Sqrt ($1 - $e2 * #sinφ * #sinφ) in
  elet ρ := $a_F0_1_e2 / Pow ($1 - $e2 * #sinφ * #sinφ) $1.5 in
  elet η2 := #ν / #ρ - $1 in
  elet tanφ := Tan #φ in
  elet tan2φ := #tanφ * #tanφ in
  elet tan4φ := #tan2φ * #tan2φ in
  elet ν3 := #ν * #ν * #ν in
  elet ν5 := #ν3 * #ν * #ν in
  elet VII := #tanφ / ($2 * #ρ * #ν) in
  elet VIII := #tanφ / ($24 * #ρ * #ν3)
               * ($5 + $3 * #tan2φ + #η2 - $9 * #tan2φ * #η2) in
  elet IX := #tanφ / ($720 * #ρ * #ν5) * ($61 + $90 * #tan2φ + $45 * #tan4φ) in
  elet dE := #E - $E0 in
  elet dE2 := #dE * #dE in
  elet dE4 := #dE2 * #dE2 in
  elet dE6 := #dE4 * #dE2 in
  (#φ - #VII * #dE2 + #VIII * #dE4 - #IX * #dE6) * $toDegrees.

(** The longitude on OSGB36, in degrees. *)
Definition grid_lon (E φ : var) : expr var :=
  elet cosφ := Cos #φ in
  elet sinφ := Sin #φ in
  elet ν := $a_F0 / Sqrt ($1 - $e2 * #sinφ * #sinφ) in
  elet ρ := $a_F0_1_e2 / Pow ($1 - $e2 * #sinφ * #sinφ) $1.5 in
  elet tanφ := Tan #φ in
  elet tan2φ := #tanφ * #tanφ in
  elet tan4φ := #tan2φ * #tan2φ in
  elet tan6φ := #tan4φ * #tan2φ in
  elet secφ := $1 / #cosφ in
  elet ν3 := #ν * #ν * #ν in
  elet ν5 := #ν3 * #ν * #ν in
  elet ν7 := #ν5 * #ν * #ν in
  elet X := #secφ / #ν in
  elet XI := #secφ / ($6 * #ν3) * (#ν / #ρ + $2 * #tan2φ) in
  elet XII := #secφ / ($120 * #ν5) * ($5 + $28 * #tan2φ + $24 * #tan4φ) in
  elet XIIA := #secφ / ($5040 * #ν7)
               * ($61 + $662 * #tan2φ + $1320 * #tan4φ + $720 * #tan6φ) in
  elet dE := #E - $E0 in
  elet dE2 := #dE * #dE in
  elet dE3 := #dE2 * #dE in
  elet dE5 := #dE3 * #dE2 in
  elet dE7 := #dE5 * #dE2 in
  ($λ0 + #X * #dE - #XI * #dE3 + #XII * #dE5 - #XIIA * #dE7) * $toDegrees.

(** [LatLon.ToCartesian] at height 0 on the ellipsoid [el]. *)
Definition cart_ν (el : Ellipseoid) (lat : var) : expr var :=
  elet sinφ := Sin (#lat * $toRadians) in
  elet eSq := $2 * $(ell_f el) - $(ell_f el) * $(ell_f el) in
  $(ell_a el) / Sqrt ($1 - #eSq * #sinφ * #sinφ).

Definition cart_x (el : Ellipseoid) (lat lon : var) : expr var :=
  elet ν := cart_ν el lat in
  (#ν + $0) * Cos (#lat * $toRadians) * Cos (#lon * $toRadians).

Definition cart_y (el : Ellipseoid) (lat lon : var) : expr var :=
  elet ν := cart_ν el lat in
  (#ν + $0) * Cos (#lat * $toRadians) * Sin (#lon * $toRadians).

Definition cart_z (el : Ellipseoid) (lat : var) : expr var :=
  elet ν := cart_ν el lat in
  elet eSq := $2 * $(ell_f el) - $(ell_f el) * $(ell_f el) in
  (#ν * ($1 - #eSq) + $0) * Sin (#lat * $toRadians).

(** [applyTransform] with the parameters [t]. *)
Definition helmert_x (t : Array7) (x y z : var) : expr var :=
  $(t0 t) + #x * ($(t3 t) / $1e6 + $1)
  - #y * ($(t6 t) / $3600 * $toRadians) + #z * ($(t5 t) / $3600 * $toRadians).

Definition helmert_y (t : Array7) (x y z : var) : expr var :=
  $(t1 t) + #x * ($(t6 t) / $3600 * $toRadians)
  + #y * ($(t3 t) / $1e6 + $1) - #z * ($(t4 t) / $3600 * $toRadians).

Definition helmert_z (t : Array7) (x y z : var) : expr var :=
  $(t2 t) - #x * ($(t5 t) / $3600 * $toRadians)
  + #y * ($(t4 t) / $3600 * $toRadians) + #z * ($(t3 t) / $1e6 + $1).

(** [Cartesian.ToLatLon] on the ellipsoid [el]: latitude and longitude in
    degrees. *)
Definition geo_lat (el : Ellipseoid) (x y z : var) : expr var :=
  elet e2 := $2 * $(ell_f el) - $(ell_f el) * $(ell_f el) in
  elet ε2 := #e2 / ($1 - #e2) in
  elet p := Sqrt (#x * #x + #y * #y) in
  elet R := Sqrt (#p * #p + #z * #z) in
  elet tanβ := ($(ell_b el) * #z) / ($(ell_a el) * #p) * ($1 + #ε2 * $(ell_b el) / #R) in
  elet sinβ := #tanβ / Sqrt ($1 + #tanβ * #tanβ) in
  elet cosβ := #sinβ / #tanβ in
  IfNotNaN #cosβ
    (Atan2 (#z + #ε2 * $(ell_b el) * #sinβ * #sinβ * #sinβ)
           (#p - #e2 * $(ell_a el) * #cosβ * #cosβ * #cosβ))
    $0
  * $toDegrees.

Definition geo_lon (x y : var) : expr var :=
  Atan2 #y #x * $toDegrees.

End Programs.

End Prog.

(** ** The conversion on candidate sets *)

Module CandRun.
Import Expr Prog.

Definition below_threshold (N Marc : float) : bool :=
  math_Abs (N - NatGridF.N0 - Marc) <? 0.00001.

(** The loop of [OsGridRef.ToLatLon]: an iteration must break, or go on,
    for all candidates alike. *)
Fixpoint loop_candidates (fuel : nat) (N : float) (Sφ SM : Cand.fset)
  : option (Cand.fset * Cand.fset) :=
  match fuel with
  | O => None
  | S fuel' =>
      bind (candidates (next_φ [N] Sφ SM)) (fun Sφ' =>
      bind (candidates (arc Sφ')) (fun SM' =>
      if forallb (below_threshold N) SM' then Some (Sφ', SM')
      else if forallb (fun m => negb (below_threshold N m)) SM'
           then loop_candidates fuel' N Sφ' SM'
           else None))
  end.

Definition osgb36ToWGS84_candidates (Slat Slon : Cand.fset) : option (Cand.fset * Cand.fset) :=
  let el := Ellipsoid OSGB36 in
  let t := Array7_map PrimFloat.opp (Transform OSGB36) in
  bind (candidates (cart_x el Slat Slon)) (fun Sx =>
  bind (candidates (cart_y el Slat Slon)) (fun Sy =>
  bind (candidates (cart_z el Slat)) (fun Sz =>
  bind (candidates (helmert_x t Sx Sy Sz)) (fun Sx2 =>
  bind (candidates (helmert_y t Sx Sy Sz)) (fun Sy2 =>
  bind (candidates (helmert_z t Sx Sy Sz)) (fun Sz2 =>
  bind (candidates (geo_lat (Ellipsoid WGS84) Sx2 Sy2 Sz2)) (fun Slat' =>
  bind (candidates (geo_lon Sx2 Sy2)) (fun Slon' =>
  Some (Slat', Slon'))))))))).

Definition ToLatLon_candidates (fuel : nat) (o : OsGridRef)
  : option (Cand.fset * Cand.fset) :=
  let E := float64_of_int (Easting o) in
  let N := float64_of_int (Northing o) in
  bind (loop_candidates fuel N [NatGridF.φ0] [0]) (fun '(Sφ, _) =>
  bind (candidates (grid_lat [E] Sφ)) (fun Slat =>
  bind (candidates (grid_lon [E] Sφ)) (fun Slon =>
  osgb36ToWGS84_candidates Slat Slon))).

(** All candidates within [delta] of [v]. *)
Definition all_within (delta v : float) (s : Cand.fset) : bool :=
  forallb (fun x => math_Abs (x - v) <=? delta) s.

(** Whether every candidate result of [OsGridRef.ToLatLon] on [o] lies
    within [delta] of the latitude [lat0] and of the longitude [lon0]. *)
Definition ToLatLon_within (fuel : nat) (o : OsGridRef) (lat0 lon0 delta : float) : bool :=
  match ToLatLon_candidates fuel o with
  | Some (Slat, Slon) => all_within delta lat0 Slat && all_within delta lon0 Slon
  | None => false
  end.

End CandRun.

(** ** Grid references as text

    Go strings are byte sequences: [string], one [ascii] per byte.  The
    functions of Go's library met here are modelled by what they do on the
    arguments the code gives them:

    - [strings.ReplaceAll(s, " ", "")] drops every space byte;
    - [strings.ToUpper] follows Unicode and is an operation of the class
      [GoStrings]; [GoStringsASCII] states what it does to a string of ASCII
      bytes (the letters a to z are raised, nothing else changes);
    - the two regular expressions are matched by [commaSeparatedFormat] and
      [gridRefFormat]; [\d] is an ASCII digit and [\s] one of tab, newline,
      form feed, carriage return and space;
    - [strconv.ParseFloat(s, 32)] is only given a non-empty string of digits:
      it returns the decimal value rounded to the nearest [float32] (ties to
      even), and an error when that is 2^128 or more;
    - [strconv.ParseInt(s, 10, 32)] is only given five digits;
    - [fmt]'s [%d] writes the shortest decimal form, [%0*d] pads it with
      zeros after the sign up to the given width; a negative width pads with
      spaces on the right instead, and a width beyond a million in magnitude
      writes [%!(BADWIDTH)] and no padding.

    [int] is 64 bits wide.  The products of the local [pow] wrap around; the
    other integer operations of [stringN] and [ParseOsGridRef] stay in range
    for every [int] argument, and [/] and [%] are [Z.quot] and [Z.rem].
    [int(e)] of a [float64] beyond the range of [int] is the most negative
    [int] (amd64). *)

Section GoBytes.
Import Ascii.
Local Open Scope string_scope.
Local Open Scope Z_scope.

Definition byte_value (c : ascii) : Z := Z.of_N (N_of_ascii c).

(** [byte(z)]: the low eight bits. *)
Definition byte_of_int (z : Z) : ascii := ascii_of_N (Z.to_N (z mod 256)).

Definition is_digit (c : ascii) : bool :=
  (48 <=? byte_value c) && (byte_value c <=? 57).

Definition is_upper (c : ascii) : bool :=
  (65 <=? byte_value c) && (byte_value c <=? 90).

Definition is_lower (c : ascii) : bool :=
  (97 <=? byte_value c) && (byte_value c <=? 122).

Definition is_regexp_space (c : ascii) : bool :=
  let b := byte_value c in
  (b =? 9) || (b =? 10) || (b =? 12) || (b =? 13) || (b =? 32).

Fixpoint string_forallb (p : ascii -> bool) (s : string) : bool :=
  match s with
  | EmptyString => true
  | String c r => p c && string_forallb p r
  end.

Fixpoint string_map (f : ascii -> ascii) (s : string) : string :=
  match s with
  | EmptyString => EmptyString
  | String c r => String (f c) (string_map f r)
  end.

(** [s[:n]] and [s[n:]], for [n <= len(s)]. *)
Fixpoint string_take (n : nat) (s : string) : string :=
  match n, s with
  | S n', String c r => String c (string_take n' r)
  | _, _ => EmptyString
  end.

Fixpoint string_drop (n : nat) (s : string) : string :=
  match n, s with
  | S n', String _ r => string_drop n' r
  | _, _ => s
  end.

Fixpoint string_repeat (c : ascii) (n : nat) : string :=
  match n with
  | O => EmptyString
  | S n' => String c (string_repeat c n')
  end.

Definition is_ASCII (s : string) : bool :=
  string_forallb (fun c => byte_value c <? 128) s.

Definition ascii_upper (c : ascii) : ascii :=
  if is_lower c then byte_of_int (byte_value c - 32) else c.

Fixpoint strings_ReplaceAll_space (s : string) : string :=
  match s with
  | EmptyString => EmptyString
  | String c r =>
      if Ascii.eqb c " "%char then strings_ReplaceAll_space r
      else String c (strings_ReplaceAll_space r)
  end.

(** *** Decimal numerals *)

Definition digit_char (d : Z) : ascii := byte_of_int (48 + d).

(** The [w] low decimal digits of [v]. *)
Fixpoint decimal_digits (w : nat) (v : Z) : string :=
  match w with
  | O => EmptyString
  | S w' => decimal_digits w' (v / 10) ++ String (digit_char (v mod 10)) EmptyString
  end.

Fixpoint decimal_length (fuel : nat) (v : Z) : nat :=
  match fuel with
  | O => 1%nat
  | S fuel' => if v <? 10 then 1%nat else S (decimal_length fuel' (v / 10))
  end.

(** The shortest decimal form of [v >= 0]. *)
Definition decimal (v : Z) : string :=
  decimal_digits (decimal_length (Z.to_nat (Z.log2 v)) v) v.

(** The value of a string of digits. *)
Fixpoint decimal_value_from (acc : Z) (s : string) : Z :=
  match s with
  | EmptyString => acc
  | String c r => decimal_value_from (10 * acc + (byte_value c - 48)) r
  end.

Definition decimal_value (s : string) : Z := decimal_value_from 0 s.

(** *** fmt *)

(** [%d] *)
Definition fmt_d (v : Z) : string :=
  if v <? 0 then "-" ++ decimal (- v) else decimal v.

Definition pad_zeros (w : Z) (s : string) : string :=
  string_repeat "0"%char (Z.to_nat w - String.length s) ++ s.

Definition pad_right (w : Z) (s : string) : string :=
  s ++ string_repeat " "%char (Z.to_nat w - String.length s).

(** [%0*d] with the operands [w] and [v]. *)
Definition fmt_0star_d (w v : Z) : string :=
  if (w <? -1000000) || (1000000 <? w) then "%!(BADWIDTH)" ++ fmt_d v
  else if w <? 0 then pad_right (- w) (fmt_d v)
  else if v <? 0 then "-" ++ pad_zeros (w - 1) (decimal (- v))
  else pad_zeros w (decimal v).

(** *** strconv *)

(** The nearest [float32] to the integer [v >= 0], ties to even. *)
Definition round_float32 (v : Z) : Z :=
  if v <? 2 ^ 24 then v
  else
    let sh := Z.log2 v - 23 in
    let q := Z.shiftr v sh in
    let r := v - Z.shiftl q sh in
    let half := Z.shiftl 1 (sh - 1) in
    let q' := if r <? half then q
              else if half <? r then q + 1
              else if Z.even q then q else q + 1 in
    Z.shiftl q' sh.

(** [strconv.ParseFloat(s, 32)] on a string of digits: the value (an
    integer, held in a [float64]) and the flag [err != nil]. *)
Definition strconv_ParseFloat_32 (s : string) : Z * bool :=
  let r := round_float32 (decimal_value s) in
  (r, 2 ^ 128 <=? r).

(** [int(e)] for a [float64] holding the integer [e >= 0]. *)
Definition int_of_integral_float64 (e : Z) : Z :=
  if e <? 2 ^ 63 then e else - 2 ^ 63.

(** [strconv.ParseInt(s, 10, 32)] on five digits. *)
Definition strconv_ParseInt_10_32 (s : string) : Z := decimal_value s.

(** *** The two formats *)

Fixpoint span_digits (s : string) : string * string :=
  match s with
  | String c r =>
      if is_digit c then let '(d, t) := span_digits r in (String c d, t)
      else (EmptyString, s)
  | EmptyString => (EmptyString, EmptyString)
  end.

Fixpoint skip_regexp_space (s : string) : string :=
  match s with
  | String c r => if is_regexp_space c then skip_regexp_space r else s
  | EmptyString => EmptyString
  end.

Definition digit_string (s : string) : bool :=
  negb (String.eqb s "") && string_forallb is_digit s.

(** [^(\d+),\s*(\d+)$]: the two groups of a match. *)
Definition commaSeparatedFormat (s : string) : option (string * string) :=
  let '(e, r) := span_digits s in
  match r with
  | String c r' =>
      let n := skip_regexp_space r' in
      if Ascii.eqb c ","%char && digit_string e && digit_string n
      then Some (e, n) else None
  | EmptyString => None
  end.

(** [^[A-Z]{2}[0-9]+$] *)
Definition gridRefFormat (s : string) : bool :=
  match s with
  | String c1 (String c2 ds) => is_upper c1 && is_upper c2 && digit_string ds
  | _ => false
  end.

End GoBytes.

Class GoStrings : Type := {
  strings_ToUpper : string -> string
}.

Class GoStringsASCII (GS : GoStrings) : Prop := {
  ToUpper_ASCII : forall s, is_ASCII s = true -> strings_ToUpper s = string_map ascii_upper s
}.

(** An instance for running the model: bytes outside ASCII are left alone. *)
#[export] Instance RefStrings : GoStrings := {
  strings_ToUpper := string_map ascii_upper
}.

(** *** ParseOsGridRef *)

Inductive grid_error : Type :=
| invalid_comma_separated_grid_ref_format (s : string)
| invalid_grid_ref_format (s : string)
| invalid_grid_reference (s : string).

Definition zero_OsGridRef : OsGridRef := mkOsGridRef 0 0.

Section GridText.
Context {GS : GoStrings}.
Import Ascii.
Local Open Scope string_scope.
Local Open Scope Z_scope.

Definition ParseOsGridRef (s : string) : OsGridRef * option grid_error :=
  let s := strings_ReplaceAll_space s in
  let s := strings_ToUpper s in
  match commaSeparatedFormat s with
  | Some (m1, m2) =>
      let '(e, err1) := strconv_ParseFloat_32 m1 in
      let '(n, err2) := strconv_ParseFloat_32 m2 in
      if err1 || err2
      then (zero_OsGridRef, Some (invalid_comma_separated_grid_ref_format s))
      else (mkOsGridRef (int_of_integral_float64 e) (int_of_integral_float64 n), None)
  | None =>
      match s with
      | String s0 (String s1 digits) =>
          if negb (gridRefFormat s) then (zero_OsGridRef, Some (invalid_grid_ref_format s))
          else
            let l1 := byte_value (byte_of_int (byte_value s0 - 65)) in
            let l2 := byte_value (byte_of_int (byte_value s1 - 65)) in
            if Ascii.eqb s0 "I"%char || Ascii.eqb s1 "I"%char
            then (zero_OsGridRef, Some (invalid_grid_ref_format s))
            else
              let l1 := if 7 <? l1 then l1 - 1 else l1 in
              let l2 := if 7 <? l2 then l2 - 1 else l2 in
              if (l1 <? 8) || (18 <? l1)
              then (zero_OsGridRef, Some (invalid_grid_reference s))
              else
                let e100km := Z.rem (l1 - 2) 5 * 5 + Z.rem l2 5 in
                let n100km := (19 - Z.quot l1 5 * 5) - Z.quot l2 5 in
                let half := Nat.div2 (String.length digits) in
                let e := string_take half digits in
                let n := string_drop half digits in
                if negb (String.length e =? String.length n)%nat
                then (zero_OsGridRef, Some (invalid_grid_reference s))
                else
                  let e := string_take 5 (e ++ "00000") in
                  let n := string_take 5 (n ++ "00000") in
                  let easting := strconv_ParseInt_10_32 e in
                  let northing := strconv_ParseInt_10_32 n in
                  (mkOsGridRef (e100km * 100000 + easting) (n100km * 100000 + northing),
                   None)
      | _ => (zero_OsGridRef, Some (invalid_grid_ref_format s))
      end
  end.

End GridText.

(** The letter arithmetic of [ParseOsGridRef], named for the statements
    below: the index of a letter once I has been skipped, and the 100 km
    square of a pair of letters. *)
Section Squares.
Import Ascii.
Local Open Scope Z_scope.

Definition letter_index (c : ascii) : Z :=
  let l := byte_value (byte_of_int (byte_value c - 65)) in
  if 7 <? l then l - 1 else l.

Definition square_e100km (c1 c2 : ascii) : Z :=
  Z.rem (letter_index c1 - 2) 5 * 5 + Z.rem (letter_index c2) 5.

Definition square_n100km (c1 c2 : ascii) : Z :=
  (19 - Z.quot (letter_index c1) 5 * 5) - Z.quot (letter_index c2) 5.

(** The letters [stringN] writes for the 100 km square [(e100km, n100km)]. *)
Definition square_letter1 (e100km n100km : Z) : ascii :=
  let l1 := (19 - n100km) - Z.rem (19 - n100km) 5 + Z.quot (e100km + 10) 5 in
  byte_of_int ((if 7 <? l1 then l1 + 1 else l1) + 65).

Definition square_letter2 (e100km n100km : Z) : ascii :=
  let l2 := Z.rem ((19 - n100km) * 5) 25 + Z.rem e100km 5 in
  byte_of_int ((if 7 <? l2 then l2 + 1 else l2) + 65).

End Squares.

(** *** Formatting *)

Inductive runtime_panic : Type :=
| integer_divide_by_zero.

Section GridFormat.
Import Ascii.
Local Open Scope string_scope.
Local Open Scope Z_scope.

Definition wrap_int (z : Z) : Z := (z + 2 ^ 63) mod 2 ^ 64 - 2 ^ 63.

(** The local function [pow] of [stringN]: [n] wrapped products, none for
    [n <= 0]. *)
Definition stringN_pow (n : Z) : Z :=
  Z.iter n (fun ret => wrap_int (ret * 10)) 1.

Definition OsGridRef_stringN (o : OsGridRef) (digits : Z) (spaces : bool)
  : outcome runtime_panic string :=
  let e := Easting o in
  let n := Northing o in
  let e100km := Z.quot e 100000 in
  let n100km := Z.quot n 100000 in
  let l1 := (19 - n100km) - Z.rem (19 - n100km) 5 + Z.quot (e100km + 10) 5 in
  let l2 := Z.rem ((19 - n100km) * 5) 25 + Z.rem e100km 5 in
  let l1 := if 7 <? l1 then l1 + 1 else l1 in
  let l2 := if 7 <? l2 then l2 + 1 else l2 in
  let letterPair :=
    String (byte_of_int (l1 + 65)) (String (byte_of_int (l2 + 65)) EmptyString) in
  let p := stringN_pow (5 - Z.quot digits 2) in
  if p =? 0 then Panic integer_divide_by_zero
  else
    let e := Z.quot (Z.rem e 100000) p in
    let n := Z.quot (Z.rem n 100000) p in
    let w := Z.quot digits 2 in
    Done (if spaces
          then letterPair ++ " " ++ fmt_0star_d w e ++ " " ++ fmt_0star_d w n
          else letterPair ++ fmt_0star_d w e ++ fmt_0star_d w n).

Definition OsGridRef_StringN (o : OsGridRef) (digits : Z) : outcome runtime_panic string :=
  OsGridRef_stringN o digits true.

Definition OsGridRef_StringNCompact (o : OsGridRef) (digits : Z)
  : outcome runtime_panic string :=
  OsGridRef_stringN o digits false.

Definition OsGridRef_String (o : OsGridRef) : outcome runtime_panic string :=
  OsGridRef_StringN o 8.

Definition OsGridRef_NumericString (o : OsGridRef) : string :=
  fmt_d (Easting o) ++ "," ++ fmt_d (Northing o).

End GridFormat.

(** ** dms: parsing degrees

    [strings.TrimSpace] removes the white space of Unicode from both ends.
    On bytes that is: as long as the string begins (ends) with the UTF-8
    encoding of one of the 25 white-space code points, that encoding is
    dropped; an invalid or overlong sequence decodes to U+FFFD, which is not
    white space.  [separatorChars.Split(s, -1)] cuts [s] at every maximal run
    of bytes other than the digits and the dot (a code point beyond ASCII
    consists of such bytes only), and gives one empty string for the empty
    [s].  [strconv.ParseFloat(s, 64)] is the operation of the class
    [GoStrconv]: [None] stands for [err != nil]. *)

Class GoStrconv : Type := {
  strconv_ParseFloat_64 : string -> option float
}.

Section DmsBytes.
Import Ascii.
Local Open Scope string_scope.
Local Open Scope Z_scope.

Definition bytes (l : list Z) : string :=
  fold_right (fun z s => String (byte_of_int z) s) EmptyString l.

(** U+0009 to U+000D, U+0020, U+0085, U+00A0, U+1680, U+2000 to U+200A,
    U+2028, U+2029, U+202F, U+205F and U+3000, in UTF-8. *)
Definition space_runes : list string :=
  Eval vm_compute in
  map bytes
    [ [9]; [10]; [11]; [12]; [13]; [32];
      [194; 133]; [194; 160]; [225; 154; 128];
      [226; 128; 128]; [226; 128; 129]; [226; 128; 130]; [226; 128; 131];
      [226; 128; 132]; [226; 128; 133]; [226; 128; 134]; [226; 128; 135];
      [226; 128; 136]; [226; 128; 137]; [226; 128; 138];
      [226; 128; 168]; [226; 128; 169]; [226; 128; 175];
      [226; 129; 159]; [227; 128; 128] ].

Fixpoint string_rev (s : string) : string :=
  match s with
  | EmptyString => EmptyString
  | String c r => string_rev r ++ String c EmptyString
  end.

Fixpoint strip_prefix (p s : string) : option string :=
  match p, s with
  | EmptyString, _ => Some s
  | String a p', String b s' => if Ascii.eqb a b then strip_prefix p' s' else None
  | String _ _, EmptyString => None
  end.

(** [s] without the first of [runes] it begins with, if any. *)
Fixpoint strip_rune (runes : list string) (s : string) : option string :=
  match runes with
  | [] => None
  | p :: runes' =>
      match strip_prefix p s with
      | Some r => Some r
      | None => strip_rune runes' s
      end
  end.

Fixpoint trim_runes (fuel : nat) (runes : list string) (s : string) : string :=
  match fuel with
  | O => s
  | S fuel' =>
      match strip_rune runes s with
      | Some r => trim_runes fuel' runes r
      | None => s
      end
  end.

Definition trim_left (s : string) : string :=
  trim_runes (String.length s) space_runes s.

Definition trim_right (s : string) : string :=
  string_rev (trim_runes (String.length s) (map string_rev space_runes) (string_rev s)).

Definition strings_TrimSpace (s : string) : string := trim_right (trim_left s).

(** A byte of [[0-9.]]. *)
Definition is_number_byte (c : ascii) : bool := is_digit c || Ascii.eqb c ".".

(** [separatorChars.Split(s, -1)]; [insep] tells that the byte before was
    part of a separator. *)
Fixpoint separatorChars_Split_from (insep : bool) (s : string) : list string :=
  match s with
  | EmptyString => [EmptyString]
  | String c r =>
      if is_number_byte c then
        match separatorChars_Split_from false r with
        | f :: fs => String c f :: fs
        | [] => [String c EmptyString]
        end
      else if insep then separatorChars_Split_from true r
      else EmptyString :: separatorChars_Split_from true r
  end.

Definition separatorChars_Split (s : string) : list string :=
  separatorChars_Split_from false s.

(** [strings.Split(s, ",")] *)
Fixpoint strings_Split_comma (s : string) : list string :=
  match s with
  | EmptyString => [EmptyString]
  | String c r =>
      if Ascii.eqb c "," then EmptyString :: strings_Split_comma r
      else
        match strings_Split_comma r with
        | f :: fs => String c f :: fs
        | [] => [String c EmptyString]
        end
  end.

(** [s[len(s)-1]] and [s[:len(s)-1]] *)
Fixpoint last_byte (s : string) : option ascii :=
  match s with
  | EmptyString => None
  | String c EmptyString => Some c
  | String _ r => last_byte r
  end.

Fixpoint all_but_last (s : string) : string :=
  match s with
  | EmptyString => EmptyString
  | String _ EmptyString => EmptyString
  | String c r => String c (all_but_last r)
  end.

(** The bytes a white-space code point can begin with, and end with. *)
Definition space_lead (c : ascii) : bool :=
  existsb (Z.eqb (byte_value c)) [9; 10; 11; 12; 13; 32; 194; 225; 226; 227].

Definition space_tail (c : ascii) : bool :=
  existsb (Z.eqb (byte_value c))
    [9; 10; 11; 12; 13; 32; 133; 160; 128; 129; 130; 131; 132; 133; 134; 135;
     136; 137; 138; 168; 169; 175; 159].

Definition is_ascii_space (c : ascii) : bool :=
  existsb (Z.eqb (byte_value c)) [9; 10; 11; 12; 13; 32].

(** Classes of text, for the statements below. *)
Definition ends_with_compass (s : string) : bool :=
  match last_byte s with
  | Some c => Ascii.eqb c "N" || Ascii.eqb c "E" || Ascii.eqb c "S" || Ascii.eqb c "W"
  | None => false
  end.

Definition number_string (p : string) : bool :=
  negb (String.eqb p "") && string_forallb is_number_byte p.

Definition separator_string (q : string) : bool :=
  string_forallb (fun c => negb (is_number_byte c)) q.

(** The commas of a string. *)
Fixpoint comma_count (s : string) : nat :=
  match s with
  | EmptyString => O
  | String c r => if Ascii.eqb c "," then S (comma_count r) else comma_count r
  end.

End DmsBytes.

Inductive dms_error : Type :=
| invalid_degree (s : string).

Section DmsParse.
Import Ascii.
Context {SC : GoStrconv}.
Local Open Scope string_scope.

(** The loop over [dmsParts]; [None] when a part is no number. *)
Fixpoint ParseDegrees_loop (dmsParts : list string) (multiplier sum : float)
  : option float :=
  match dmsParts with
  | [] => Some sum
  | part :: rest =>
      match strconv_ParseFloat_64 part with
      | None => None
      | Some f => ParseDegrees_loop rest (multiplier / 60.0) (sum + f * multiplier)
      end
  end.

Definition ParseDegrees (s : string) : float * option dms_error :=
  let orig := s in
  let s := strings_TrimSpace s in
  match strconv_ParseFloat_64 s with
  | Some f => (f, None)
  | None =>
      match s with
      | EmptyString => (0, Some (invalid_degree orig))
      | String s0 rest =>
          let negative := Ascii.eqb s0 "-" in
          let s := if Ascii.eqb s0 "-" || Ascii.eqb s0 "+" then rest else s in
          let s := strings_TrimSpace s in
          match last_byte s with
          | None => (0, Some (invalid_degree orig))
          | Some c =>
              let south_west := Ascii.eqb c "S" || Ascii.eqb c "W" in
              let north_east := Ascii.eqb c "N" || Ascii.eqb c "E" in
              let negative := if south_west then true else negative in
              let s := if south_west || north_east then all_but_last s else s in
              let s := strings_TrimSpace s in
              let dmsParts := separatorChars_Split s in
              if String.eqb (hd EmptyString dmsParts) ""
              then (0, Some (invalid_degree orig))
              else
                let dmsParts :=
                  if String.eqb (last dmsParts EmptyString) ""
                  then removelast dmsParts else dmsParts in
                match ParseDegrees_loop dmsParts 1.0 0.0 with
                | None => (0, Some (invalid_degree orig))
                | Some sum => (if negative then - sum else sum, None)
                end
          end
      end
  end.

(** [ParseDegrees] as [ParseLatLon] uses it: the value and [err != nil]. *)
Definition ParseDegrees_flag (s : string) : float * bool :=
  let '(f, err) := ParseDegrees s in
  (f, match err with Some _ => true | None => false end).

(** The result of [ParseDegrees] once the sign and the compass letter are
    taken off: [negative] and the remaining text decide. *)
Definition degrees_of_fields (orig : string) (negative : bool) (s : string)
  : float * option dms_error :=
  let dmsParts := separatorChars_Split (strings_TrimSpace s) in
  if String.eqb (hd EmptyString dmsParts) ""
  then (0, Some (invalid_degree orig))
  else
    match ParseDegrees_loop
            (if String.eqb (last dmsParts EmptyString) ""
             then removelast dmsParts else dmsParts) 1.0 0.0 with
    | None => (0, Some (invalid_degree orig))
    | Some sum => (if negative then - sum else sum, None)
    end.

End DmsParse.

(** An instance for running the model: plain decimal numerals only, with an
    optional sign and an optional fraction, rounded to the nearest binary64.
    Go's [strconv.ParseFloat] accepts more (exponents, hexadecimal numerals,
    infinities, NaN). *)
Section RefStrconvDef.
Import Ascii.
Local Open Scope string_scope.

Definition ref_ParseFloat (s : string) : option float :=
  let '(neg, body) :=
    match s with
    | String c r =>
        if Ascii.eqb c "-" then (true, r)
        else if Ascii.eqb c "+" then (false, r) else (false, s)
    | EmptyString => (false, s)
    end in
  let '(ip, rest) := span_digits body in
  let '(fp, ok) :=
    match rest with
    | EmptyString => (EmptyString, true)
    | String c r => if Ascii.eqb c "." then (r, string_forallb is_digit r)
                    else (EmptyString, false)
    end in
  if ok && negb (String.eqb (ip ++ fp) "")
  then
    let v := GoConst.Q2F (decimal_value (ip ++ fp)) (10 ^ Z.of_nat (String.length fp)) in
    Some (if neg then - v else v)
  else None.

End RefStrconvDef.

#[export] Instance RefStrconv : GoStrconv := {
  strconv_ParseFloat_64 := ref_ParseFloat
}.

(** [ParseLatLon] over the functions above; it gives [strings.Split] the
    separator [","] only. *)
Definition ParseLatLon_dms {M : GoMath} {SC : GoStrconv}
    (latLon : string) (height : float) (datum : Datum)
  : LatLonEllipsoidalDatum * option error :=
  ParseLatLon (fun s _ => strings_Split_comma s) ParseDegrees_flag latLon height datum.

(** * Properties *)

(** ** Binary64 facts used below *)

Lemma Prim2SF_zero : Prim2SF 0 = S754_zero false.
Proof. reflexivity. Qed.

Lemma Prim2SF_one : Prim2SF 1 = S754_finite false 4503599627370496 (-52).
Proof. reflexivity. Qed.

Lemma eqb_zero_class (x : float) :
  (x =? 0) = true -> exists s, Prim2SF x = S754_zero s.
Proof.
  rewrite eqb_spec, Prim2SF_zero.
  destruct (Prim2SF x) as [s | s | | s m e]; try discriminate.
  - intros _. now exists s.
  - destruct s; discriminate.
  - destruct s; discriminate.
Qed.

Lemma square_of_zero (x : float) : (x =? 0) = true -> x * x = 0.
Proof.
  intros H. destruct (eqb_zero_class x H) as [s Hs].
  apply Prim2SF_inj. rewrite mul_spec, Hs, Prim2SF_zero.
  destruct s; reflexivity.
Qed.

Lemma mul_zero_class (a : float) : zero_or_nan (Prim2SF (a * 0)) = true.
Proof.
  rewrite mul_spec, Prim2SF_zero.
  destruct (Prim2SF a); reflexivity.
Qed.

Lemma div_by_zero_class (u v : float) :
  zero_or_nan (Prim2SF v) = true -> inf_or_nan (Prim2SF (u / v)) = true.
Proof.
  rewrite div_spec.
  destruct (Prim2SF v); try discriminate; intros _;
    destruct (Prim2SF u); reflexivity.
Qed.

Lemma mul_inf_class (w k : float) :
  inf_or_nan (Prim2SF w) = true -> inf_or_nan (Prim2SF (w * k)) = true.
Proof.
  rewrite mul_spec.
  destruct (Prim2SF w); try discriminate; intros _;
    destruct (Prim2SF k); reflexivity.
Qed.

(** With an infinite (or NaN) [tanβ], [sinβ = tanβ / sqrt(1 + tanβ²)] is
    [Inf/Inf], a NaN. *)
Lemma sin_of_inf_tan (t : float) :
  inf_or_nan (Prim2SF t) = true ->
  Prim2SF (t / math_Sqrt (1 + t * t)) = S754_nan.
Proof.
  intros H. unfold math_Sqrt.
  rewrite div_spec, sqrt_spec, add_spec, mul_spec, Prim2SF_one.
  destruct (Prim2SF t) as [s | s | | s m e]; try discriminate.
  - destruct s; reflexivity.
  - reflexivity.
Qed.

Lemma div_nan_l (s t : float) : Prim2SF s = S754_nan -> Prim2SF (s / t) = S754_nan.
Proof. intros H. rewrite div_spec, H. reflexivity. Qed.

Lemma is_nan_class (x : float) : Prim2SF x = S754_nan -> math_IsNaN x = true.
Proof.
  intros H. unfold math_IsNaN, is_nan. rewrite eqb_spec, H. reflexivity.
Qed.

(** ** The reference instance has the special values *)

#[export] Instance RefMath_special : GoMathSpecial RefMath.
Proof.
  split.
  - reflexivity.
  - reflexivity.
  - reflexivity.
  - intros x H. cbn [math_Atan2 RefMath]. unfold Ref.Atan2.
    rewrite H. reflexivity.
Qed.

(** The folded constants are the roundings of the exact quotients. *)
Lemma toRadians_value : toRadians = Qf (math_Pi / 180) /\ toRadians = 0x1.1df46a2529d39p-6.
Proof. split; vm_compute; reflexivity. Qed.

Lemma toDegrees_value : toDegrees = Qf (180 / math_Pi) /\ toDegrees = 0x1.ca5dc1a63c1f8p+5.
Proof. split; vm_compute; reflexivity. Qed.

(** The series coefficients as the Go compiler folds them: the integer
    quotients [5/4], [21/8], [15/8] and [35/24] are 1, 2, 1 and 1. *)
Lemma meridional_coefficients :
  NatGridF.Ma_coeff = Qf (1 + NatGrid.n + NatGrid.n2 + NatGrid.n3)
  /\ NatGridF.Mb_coeff = Qf (3 * NatGrid.n + 3 * NatGrid.n * NatGrid.n + 2 * NatGrid.n3)
  /\ NatGridF.Mc_coeff = Qf (NatGrid.n2 + NatGrid.n3)
  /\ NatGridF.Md_coeff = Qf NatGrid.n3.
Proof. repeat split; vm_compute; reflexivity. Qed.

(** The folded constants of the projection, in decimal. *)
Lemma NatGridF_values :
  NatGridF.a_F0 = 6375020.480988971
  /\ NatGridF.b_F0 = 6353722.489488311
  /\ NatGridF.a_F0_1_e2 = 6332495.651397011
  /\ NatGridF.e2 = 0.006670540074149232
  /\ NatGridF.φ0 = 0.8552113334772214
  /\ NatGridF.λ0 = -0.03490658503988659
  /\ NatGridF.N0 = -100000
  /\ NatGridF.E0 = 400000
  /\ NatGridF.Ma_coeff = 1.0016760246797154
  /\ NatGridF.Mb_coeff = 0.005028069354687589
  /\ NatGridF.Mc_coeff = 2.8043507278533237e-06
  /\ NatGridF.Md_coeff = 4.684458516235452e-09.
Proof. repeat split. Qed.

(** Decimal constants round the same way through [Qf] and as literals. *)
Lemma decimal_constants :
  Qf (Qmake 6377563396 1000) = 6377563.396
  /\ Qf (Qmake 6356256909 1000) = 6356256.909
  /\ Qf (Qmake 6356752314245 1000000) = 6356752.314245
  /\ Qf (- Qmake 446448 1000) = -446.448
  /\ Qf (Qmake 1 100000) = 0.00001
  /\ float64_of_int 1300001 = 1300001.
Proof. repeat split. Qed.

(** ** Change of datum on Cartesian points *)

(** The recursive equation of [Cartesian.ConvertDatum], as the source has it. *)
Lemma Cartesian_ConvertDatum_eq (c : Cartesian) (toDatum : Datum) :
  Cartesian_ConvertDatum c toDatum =
  if String.eqb (Name (c_Datum c)) (Name toDatum) then c
  else if String.eqb (Name (c_Datum c)) "WGS84" then
    Cartesian_with_Datum (Cartesian_applyTransform c (Transform toDatum)) toDatum
  else if String.eqb (Name toDatum) "WGS84" then
    Cartesian_with_Datum
      (Cartesian_applyTransform c (Array7_map PrimFloat.opp (Transform (c_Datum c))))
      toDatum
  else
    Cartesian_with_Datum
      (Cartesian_applyTransform (Cartesian_ConvertDatum c WGS84) (Transform toDatum))
      toDatum.
Proof.
  funelim (Cartesian_ConvertDatum c toDatum).
  - rewrite Hsame. reflexivity.
  - rewrite Hne, Hfrom. reflexivity.
  - rewrite Hne, Hc, Hto. reflexivity.
  - rewrite Hne, Hc, Hd. reflexivity.
Qed.

Lemma Cartesian_ConvertDatum_same (c : Cartesian) (d : Datum) :
  Name (c_Datum c) = Name d -> Cartesian_ConvertDatum c d = c.
Proof.
  intros H. rewrite Cartesian_ConvertDatum_eq, H, String.eqb_refl. reflexivity.
Qed.

Lemma Cartesian_ConvertDatum_Datum (c : Cartesian) (d : Datum) :
  Name (c_Datum c) <> Name d -> c_Datum (Cartesian_ConvertDatum c d) = d.
Proof.
  intros H. apply String.eqb_neq in H.
  rewrite Cartesian_ConvertDatum_eq, H.
  destruct (String.eqb (Name (c_Datum c)) "WGS84");
    [| destruct (String.eqb (Name d) "WGS84")]; reflexivity.
Qed.

(** C3: for a Cartesian point [c] and a target datum [d] with a different
    name, [Cartesian.ConvertDatum] relays through WGS84.  From WGS84 it applies
    the seven stored parameters of [d]; to WGS84 it applies the seven
    parameters of [c]'s datum, each negated; between two other datums the
    result is the conversion of [c] to WGS84 (the negated parameters of [c]'s
    datum) followed by the stored parameters of [d].  The result carries [d]. *)
Theorem Cartesian_ConvertDatum_hub (c : Cartesian) (d : Datum) :
  Name (c_Datum c) <> Name d ->
  let t := Transform (c_Datum c) in
  let negated :=
    mkArray7 (- t0 t) (- t1 t) (- t2 t) (- t3 t) (- t4 t) (- t5 t) (- t6 t) in
  (Name (c_Datum c) = "WGS84"%string ->
     Cartesian_ConvertDatum c d
     = Cartesian_with_Datum (Cartesian_applyTransform c (Transform d)) d)
  /\ (Name d = "WGS84"%string ->
     Cartesian_ConvertDatum c d
     = Cartesian_with_Datum (Cartesian_applyTransform c negated) d)
  /\ (Name (c_Datum c) <> "WGS84"%string -> Name d <> "WGS84"%string ->
     Cartesian_ConvertDatum c WGS84
     = Cartesian_with_Datum (Cartesian_applyTransform c negated) WGS84
     /\ Cartesian_ConvertDatum c d
        = Cartesian_with_Datum
            (Cartesian_applyTransform (Cartesian_ConvertDatum c WGS84) (Transform d)) d).
Proof.
  intros Hne t negated.
  assert (Hneb := proj2 (String.eqb_neq _ _) Hne).
  repeat split.
  - intros Hc. rewrite Cartesian_ConvertDatum_eq, Hneb.
    rewrite (proj2 (String.eqb_eq _ _) Hc). reflexivity.
  - intros Hd. rewrite Cartesian_ConvertDatum_eq, Hneb.
    assert (Hc : String.eqb (Name (c_Datum c)) "WGS84" = false).
    { apply String.eqb_neq. congruence. }
    rewrite Hc, (proj2 (String.eqb_eq _ _) Hd). reflexivity.
  - apply String.eqb_neq in H.
    rewrite Cartesian_ConvertDatum_eq. cbn [Name WGS84]. rewrite H. reflexivity.
  - apply String.eqb_neq in H, H0.
    rewrite Cartesian_ConvertDatum_eq, Hneb, H, H0. reflexivity.
Qed.

Lemma Cartesian_ConvertDatum_hub_witness :
  Cartesian_ConvertDatum sample_cartesian WGS84
  = mkCartesian 3980945.0835672719 (-214.64754805995173) 4967265.5908606704 WGS84
  /\ Cartesian_ConvertDatum sample_cartesian Irl1975
     = mkCartesian 3980435.263065882 (-96.964820136723333) 4966656.4193261471 Irl1975.
Proof.
  destruct (Cartesian_ConvertDatum_hub sample_cartesian Irl1975) as (_ & _ & H).
  { vm_compute. discriminate. }
  destruct H as [H1 H2].
  { vm_compute. discriminate. }
  { vm_compute. discriminate. }
  split.
  - rewrite H1. vm_compute. reflexivity.
  - rewrite H2, H1. vm_compute. reflexivity.
Defined.

(** ** The Helmert transformation *)

(** C6: for every point [(x, y, z)] and parameters
    [(tx, ty, tz, s, rx, ry, rz)], [applyTransform] returns
    [(tx + x*s' - y*rz' + z*ry', ty + x*rz' + y*s' - z*rx',
      tz - x*ry' + y*rx' + z*s')] with [s' = s/10^6 + 1] and the rotations
    taken from arc-seconds to radians (divided by 3600, multiplied by
    [pi/180]); each operation is a binary64 operation, taken left to right. *)
Theorem Cartesian_applyTransform_helmert (x y z : float) (dat : Datum)
    (tx ty tz s rx ry rz : float) :
  let r := Cartesian_applyTransform (mkCartesian x y z dat)
             (mkArray7 tx ty tz s rx ry rz) in
  c_X r = HelmertSpec.x' x y z tx s rz ry
  /\ c_Y r = HelmertSpec.y' x y z ty s rz rx
  /\ c_Z r = HelmertSpec.z' x y z tz s ry rx.
Proof.
  cbv zeta. unfold Cartesian_applyTransform, HelmertSpec.x', HelmertSpec.y',
    HelmertSpec.z', HelmertSpec.scale, HelmertSpec.arcsec_to_rad.
  cbn [c_X c_Y c_Z t0 t1 t2 t3 t4 t5 t6].
  replace (Qf (math_Pi / 180)) with toRadians by (vm_compute; reflexivity).
  repeat split.
Qed.

(** The point returned by [applyTransform] has the zero datum; its caller
    sets the field. *)
Lemma Cartesian_applyTransform_Datum (c : Cartesian) (t : Array7) :
  c_Datum (Cartesian_applyTransform c t) = zero_Datum.
Proof. reflexivity. Qed.

(** ** Change of datum on latitude/longitude points *)

Section SameDatum.
Context {M : GoMath}.

(** C4 (as the code has it): [p.ConvertDatum(p.Datum)] skips the Helmert
    step only: [Cartesian.ConvertDatum] returns a point already on the target
    datum unchanged, so the result is [p] taken to Cartesian coordinates and
    back, on the same datum; latitude, longitude and height are recomputed
    on the way. *)
Theorem LatLon_ConvertDatum_own_datum (p : LatLonEllipsoidalDatum) :
  LatLon_ConvertDatum p (ll_Datum p) = Cartesian_ToLatLon (LatLon_ToCartesian p)
  /\ ll_Datum (LatLon_ConvertDatum p (ll_Datum p)) = ll_Datum p
  /\ (forall c : Cartesian, Cartesian_ConvertDatum c (c_Datum c) = c).
Proof.
  assert (Hc : forall c, Cartesian_ConvertDatum c (c_Datum c) = c).
  { intros c. now apply Cartesian_ConvertDatum_same. }
  unfold LatLon_ConvertDatum.
  rewrite (Cartesian_ConvertDatum_same (LatLon_ToCartesian p)) by reflexivity.
  repeat split; auto.
Qed.

Context {MS : GoMathSpecial M}.

Lemma equator_ToCartesian :
  LatLon_ToCartesian equator_point = mkCartesian 6378137.0999999996 0 0 WGS84.
Proof.
  unfold LatLon_ToCartesian, equator_point.
  cbn [Lat Lon Height ll_Datum].
  replace (0 * toRadians) with 0 by reflexivity.
  rewrite Sin_zero, Cos_zero.
  vm_compute. reflexivity.
Qed.

Lemma equator_ToLatLon :
  Cartesian_ToLatLon (mkCartesian 6378137.0999999996 0 0 WGS84)
  = mkLatLon 0 0 0.09999999962747097 WGS84.
Proof.
  unfold Cartesian_ToLatLon.
  cbn [c_X c_Y c_Z c_Datum].
  match goal with
  | |- context [if ?b then ?A else ?B] =>
      replace (if b then A else B) with 0 by (vm_compute; reflexivity)
  end.
  rewrite (Atan2_zero_pos 6378137.0999999996) by reflexivity.
  rewrite Sin_zero, Cos_zero.
  vm_compute. reflexivity.
Qed.

(** Whatever the math library does elsewhere, a height of 0.1 m on the
    equator comes back as 0.09999999962747097 m from the conversion to the
    point's own datum. *)
Lemma equator_ConvertDatum :
  LatLon_ConvertDatum equator_point (ll_Datum equator_point)
  = mkLatLon 0 0 0.09999999962747097 WGS84.
Proof.
  unfold LatLon_ConvertDatum.
  rewrite equator_ToCartesian, Cartesian_ConvertDatum_same by reflexivity.
  apply equator_ToLatLon.
Qed.

End SameDatum.

(** C4 (as claimed) fails: the conversion of [equator_point] to its own
    datum changes the height. *)
Lemma equator_height_drifts :
  Height equator_point = 0.1
  /\ Height (LatLon_ConvertDatum (M := RefMath) equator_point (ll_Datum equator_point))
     = 0.09999999962747097
  /\ (0.09999999962747097 =? 0.1) = false.
Proof.
  rewrite (equator_ConvertDatum (M := RefMath)).
  repeat split.
Qed.

(** With the reference instance the latitude moves as well, at an ordinary
    point (the Greenwich example of the source). *)
Example Greenwich_own_datum_drift :
  LatLon_ConvertDatum (M := RefMath) (mkLatLon 51.47788 (-0.00147) 0 WGS84) WGS84
  = mkLatLon 51.477880000005136 (-0.00147) (-9.3132257461547852e-10) WGS84.
Proof. vm_compute. reflexivity. Qed.

(** ** Points on the polar axis *)

Section PolarAxis.
Context {M : GoMath}.

(** C5 (what the code does): for a Cartesian point on the polar axis
    ([X = 0] and [Y = 0]) [tanβ] is a division by zero, [sinβ] is [Inf/Inf]
    and [cosβ] is NaN, so the guard [!math.IsNaN(cosβ)] leaves [φ] at its
    initial 0: [Cartesian.ToLatLon] returns latitude 0, whatever [Z], the
    ellipsoid and the math library are, and not plus or minus 90. *)
Theorem Cartesian_ToLatLon_polar_axis (d : Datum) (x y z : float) :
  (x =? 0) = true -> (y =? 0) = true ->
  Lat (Cartesian_ToLatLon (mkCartesian x y z d)) = 0.
Proof.
  intros Hx Hy. unfold Cartesian_ToLatLon. cbn [c_X c_Y c_Z c_Datum Lat].
  rewrite (square_of_zero x Hx), (square_of_zero y Hy).
  replace (math_Sqrt (0 + 0)) with 0%float by reflexivity.
  set (a := ell_a (Ellipsoid d)). set (b := ell_b (Ellipsoid d)).
  set (k := 1 + _ / _).
  set (t := b * z / (a * 0) * k).
  assert (Ht : inf_or_nan (Prim2SF t) = true).
  { apply mul_inf_class, div_by_zero_class, mul_zero_class. }
  rewrite (is_nan_class (t / math_Sqrt (1 + t * t) / t)).
  - reflexivity.
  - apply div_nan_l, sin_of_inf_tan, Ht.
Qed.

Context {MS : GoMathSpecial M}.

(** The whole result at the north pole, for any math library with the
    special values: the equator at the prime meridian, one semi-major axis
    below the ellipsoid. *)
Lemma north_pole_ToLatLon :
  Cartesian_ToLatLon north_pole = mkLatLon 0 0 (-6378137) WGS84.
Proof.
  unfold Cartesian_ToLatLon, north_pole.
  cbn [c_X c_Y c_Z c_Datum].
  match goal with
  | |- context [if ?b then ?A else ?B] =>
      replace (if b then A else B) with 0 by (vm_compute; reflexivity)
  end.
  rewrite Atan2_zero_zero, Sin_zero, Cos_zero.
  vm_compute. reflexivity.
Qed.

End PolarAxis.

Lemma Cartesian_ToLatLon_polar_axis_witness :
  Lat (Cartesian_ToLatLon (M := RefMath) north_pole) = 0.
Proof.
  apply (Cartesian_ToLatLon_polar_axis (M := RefMath) WGS84 0 0 6356752.314245);
    reflexivity.
Defined.

(** Next to the axis the formula works: one nanometre off it the latitude
    is 90. *)
Example Cartesian_ToLatLon_near_pole :
  Lat (Cartesian_ToLatLon (M := RefMath) (mkCartesian 1e-9 0 6356752.314245 WGS84)) = 90.
Proof. vm_compute. reflexivity. Qed.

(** ** Grid references *)

(** C7: [Valid] is true exactly when [0 <= Easting <= 700000] and
    [0 <= Northing <= 1300000]; the corners [{0, 0}] and [{700000, 1300000}]
    are valid, and any reference with easting 700001 or northing 1300001 is
    not. *)
Theorem OsGridRef_Valid_extent :
  (forall o : OsGridRef,
     OsGridRef_Valid o = true
     <-> (0 <= Easting o <= 700000 /\ 0 <= Northing o <= 1300000)%Z)
  /\ OsGridRef_Valid (mkOsGridRef 0 0) = true
  /\ OsGridRef_Valid (mkOsGridRef 700000 1300000) = true
  /\ (forall northing : BinNums.Z, OsGridRef_Valid (mkOsGridRef 700001 northing) = false)
  /\ (forall easting : BinNums.Z, OsGridRef_Valid (mkOsGridRef easting 1300001) = false).
Proof.
  assert (H : forall o : OsGridRef,
            OsGridRef_Valid o = true
            <-> (0 <= Easting o <= 700000 /\ 0 <= Northing o <= 1300000)%Z).
  { intros [e n]. unfold OsGridRef_Valid. cbn [Easting Northing].
    rewrite !andb_true_iff, !Z.geb_le, !Z.leb_le. lia. }
  split; [exact H |].
  split; [reflexivity |].
  split; [reflexivity |].
  split; intros v; apply not_true_is_false; rewrite H; cbn [Easting Northing]; lia.
Qed.

(** [assertValid] panics exactly on the references [Valid] rejects. *)
Lemma OsGridRef_assertValid_spec (o : OsGridRef) :
  (OsGridRef_Valid o = true -> OsGridRef_assertValid o = Done tt)
  /\ (OsGridRef_Valid o = false
      -> OsGridRef_assertValid o = Panic (Invalid_OS_grid_ref o)).
Proof.
  unfold OsGridRef_assertValid. split; intros H; rewrite H; reflexivity.
Qed.

Section GridProperties.
Context {M : GoMath}.

(** A run of the loop that breaks within [k] iterations breaks in the same
    state under any larger budget. *)
Lemma latitude_loop_more_fuel (k k' : nat) (N φ Marc : float) (r : float * float) :
  latitude_loop k N φ Marc = Some r -> (k <= k')%nat ->
  latitude_loop k' N φ Marc = Some r.
Proof.
  revert k' φ Marc. induction k as [| k IH]; intros k' φ Marc H Hle.
  - discriminate.
  - destruct k' as [| k']; [lia |].
    cbn [latitude_loop] in *.
    destruct (math_Abs _ <? _); [exact H |].
    apply IH; [exact H | lia].
Qed.

(** The loop has no cap of its own: while the residual is not below the
    threshold it goes on, so a math library returning NaN keeps every
    budget running. *)
Lemma latitude_loop_no_cap (N φ Marc : float) :
  (forall φ', (math_Abs (N - NatGridF.N0 - meridional_arc φ') <? 0.00001) = false) ->
  forall k, latitude_loop k N φ Marc = None.
Proof.
  intros H k. revert φ Marc. induction k as [| k IH]; intros φ Marc.
  - reflexivity.
  - cbn [latitude_loop]. rewrite H. apply IH.
Qed.

(** C8 (as the code has it): [OsGridRef.ToLatLon] makes no validity check
    and has no error result.  For every grid reference, inside the extent or
    not, and every iteration budget, a run either is still in the latitude
    loop or has returned a latitude/longitude pair; it never panics.  Only
    [assertValid] reports an invalid reference, and [ToLatLon] does not call
    it. *)
Theorem OsGridRef_ToLatLon_reports_nothing (fuel : nat) (o : OsGridRef) :
  (OsGridRef_ToLatLon fuel o = Running
   \/ exists lat lon : float, OsGridRef_ToLatLon fuel o = Done (lat, lon))
  /\ (forall p : panic_value, OsGridRef_ToLatLon fuel o <> Panic p)
  /\ (OsGridRef_assertValid o = Done tt <-> OsGridRef_Valid o = true).
Proof.
  unfold OsGridRef_ToLatLon, OsGridRef_assertValid.
  destruct (latitude_loop fuel _ _ _) as [[φ Marc] |].
  - split; [right; unfold osgb36ToWGS84; eauto |].
    split; [intros p; discriminate |].
    destruct (OsGridRef_Valid o); cbn; split; intros; (reflexivity || discriminate).
  - split; [left; reflexivity |].
    split; [intros p; discriminate |].
    destruct (OsGridRef_Valid o); cbn; split; intros; (reflexivity || discriminate).
Qed.

End GridProperties.

(** C8 (as claimed) fails: one metre beyond the north-east corner the
    reference is invalid, and [ToLatLon] returns a latitude and a longitude
    (here with the reference instance, in the fourth iteration). *)
Lemma OsGridRef_ToLatLon_out_of_range :
  OsGridRef_Valid beyond_corner = false
  /\ OsGridRef_assertValid beyond_corner = Panic (Invalid_OS_grid_ref beyond_corner)
  /\ OsGridRef_ToLatLon (M := RefMath) 4 beyond_corner
     = Done (61.464562475798949, 3.6320342959996443).
Proof. repeat split; vm_compute; reflexivity. Qed.

(** ** Wrapping of degrees *)

Section Wrap.
Context {M : GoMath}.

(** C10: on [[-90, 90]] [Wrap90] returns its argument itself, and on
    [[-180, 180]] so does [Wrap180], with no arithmetic applied; in
    particular [Wrap180(-180) = -180]. *)
Theorem Wrap_in_range_identity :
  (forall degrees : float,
     (-90 <=? degrees) = true -> (degrees <=? 90) = true -> Wrap90 degrees = degrees)
  /\ (forall degrees : float,
     (-180 <=? degrees) = true -> (degrees <=? 180) = true -> Wrap180 degrees = degrees)
  /\ Wrap180 (-180) = -180.
Proof.
  repeat split.
  - intros d H1 H2. unfold Wrap90. rewrite H1, H2. reflexivity.
  - intros d H1 H2. unfold Wrap180. rewrite H1, H2. reflexivity.
Qed.

End Wrap.

(** A longitude that [ParseDegrees] reads as -180 is stored as -180. *)
Lemma ParseLatLon_minus_180 {M : GoMath}
    (strings_Split : string -> string -> list string)
    (ParseDegrees : string -> float * bool)
    (latLon part0 part1 : string) (lat height : float) (datum : Datum) :
  strings_Split latLon ","%string = [part0; part1] ->
  ParseDegrees part0 = (lat, false) ->
  ParseDegrees part1 = (-180, false) ->
  exists l, ParseLatLon strings_Split ParseDegrees latLon height datum = (l, None)
            /\ Lon l = -180 /\ Lat l = Wrap90 lat.
Proof.
  intros Hs H0 H1. unfold ParseLatLon. rewrite Hs, H0, H1. cbn [orb].
  eexists. split; [reflexivity |]. split; reflexivity.
Qed.

Lemma Wrap_in_range_identity_witness :
  Wrap90 (M := RefMath) 53.074149 = 53.074149
  /\ Wrap180 (M := RefMath) (-2.1149638) = -2.1149638
  /\ Wrap180 (M := RefMath) (-180) = -180.
Proof.
  destruct (Wrap_in_range_identity (M := RefMath)) as (H90 & H180 & Hm180).
  split; [apply H90; reflexivity |].
  split; [apply H180; reflexivity | exact Hm180].
Defined.

(** Outside the range the triangle and sawtooth waves apply (the examples of
    the source comments), here with the reference instance. *)
Example Wrap_out_of_range :
  Wrap90 (M := RefMath) 91 = 89 /\ Wrap90 (M := RefMath) (-91) = -89
  /\ Wrap180 (M := RefMath) 181 = -179 /\ Wrap180 (M := RefMath) (-181) = 179.
Proof. repeat split; vm_compute; reflexivity. Qed.

(** ** The model run on the sample conversion

    With the reference instance the latitude loop breaks in the fourth
    iteration for SJ 92395 52997, and the result lies within 0.00005 degrees
    of 53.074149, -2.1149638; projecting it back gives the same reference. *)
Example sample_conversion :
  latitude_loop (M := RefMath) 3 (float64_of_int (Northing sample_ref)) NatGridF.φ0 0 = None
  /\ OsGridRef_ToLatLon (M := RefMath) 4 sample_ref
     = Done (53.074133356814556, -2.1149638026902764)
  /\ (math_Abs (53.074133356814556 - 53.074149) <? 0.00005) = true
  /\ (math_Abs (-2.1149638026902764 - -2.1149638) <? 0.00005) = true
  /\ LatLon_ToOsGridRef (M := RefMath)
       (mkLatLon 53.074133356814556 (-2.1149638026902764) 0 WGS84) = sample_ref.
Proof. repeat split; vm_compute; reflexivity. Qed.

(** ** Candidate sets are sound *)

Module CandFacts.
Import Cand.

Lemma In_insert (z x : float) (s : fset) : In z (insert x s) <-> z = x \/ In z s.
Proof.
  induction s as [| y s IH]; cbn [insert].
  - cbn. intuition.
  - destruct (PrimFloat.Leibniz.eqb x y) eqn:E.
    + apply FloatAxioms.Leibniz.eqb_spec in E. subst y. cbn. intuition.
    + destruct (x <? y); cbn; [intuition |].
      rewrite IH. intuition.
Qed.

Lemma In_of_list (z : float) (l : list float) : In z (of_list l) <-> In z l.
Proof.
  induction l as [| x l IH]; cbn [of_list fold_right].
  - reflexivity.
  - fold (of_list l). rewrite In_insert, IH. cbn. intuition.
Qed.

Lemma In_lift1 (f : float -> float) (x : float) (s : fset) :
  In x s -> In (f x) (lift1 f s).
Proof. intros H. apply In_of_list, in_map, H. Qed.

Lemma In_lift2 (f : float -> float -> float) (x y : float) (s1 s2 : fset) :
  In x s1 -> In y s2 -> In (f x y) (lift2 f s1 s2).
Proof.
  intros H1 H2. apply In_of_list, in_flat_map. exists x. split; [exact H1 |].
  apply in_map, H2.
Qed.

Lemma In_near_self (v : float) : In v (near v).
Proof. apply In_of_list. left. reflexivity. Qed.

Lemma In_spread1 (f g : float -> float) (x : float) (s : fset) :
  In x s -> In (g x) (near (f x)) -> In (g x) (spread1 f s).
Proof.
  intros H1 H2. apply In_of_list, in_flat_map. exists x. split; assumption.
Qed.

Lemma In_spread2 (f g : float -> float -> float) (x y : float) (s1 s2 : fset) :
  In x s1 -> In y s2 -> In (g x y) (near (f x y)) -> In (g x y) (spread2 f s1 s2).
Proof.
  intros H1 H2 H3. apply In_of_list, in_flat_map. exists x. split; [exact H1 |].
  apply in_flat_map. exists y. split; assumption.
Qed.

End CandFacts.

#[export] Instance RefMath_accurate : GoMathAccurate RefMath.
Proof.
  split; intros; apply CandFacts.In_near_self.
Qed.

Section Soundness.
Context {M : GoMath} {MA : GoMathAccurate M}.
Import Expr CandFacts.

Lemma bind_Some {A B : Type} (o : option A) (k : A -> option B) (b : B) :
  bind o k = Some b -> exists a, o = Some a /\ k a = Some b.
Proof. destruct o as [a |]; cbn; [eauto | discriminate]. Qed.

Lemma guard_Some (b : bool) (s s' : Cand.fset) :
  guard b s = Some s' -> b = true /\ s = s'.
Proof. destruct b; cbn; [intros [= <-]; auto | discriminate]. Qed.

(** Whatever the math library returns within its granted accuracy, the
    value of an expression is one of its candidates. *)
Theorem candidates_sound (e : expr float) (e' : expr Cand.fset) :
  related e e' -> forall s, candidates e' = Some s -> In (denote e) s.
Proof.
  induction 1; cbn [candidates denote]; intros s0 Hs.
  - injection Hs as <-. left. reflexivity.
  - injection Hs as <-. assumption.
  - apply bind_Some in Hs as (sa & Ha & Hs). apply bind_Some in Hs as (sb & Hb & Hs).
    injection Hs as <-. apply In_lift2; auto.
  - apply bind_Some in Hs as (sa & Ha & Hs). apply bind_Some in Hs as (sb & Hb & Hs).
    injection Hs as <-. apply In_lift2; auto.
  - apply bind_Some in Hs as (sa & Ha & Hs). apply bind_Some in Hs as (sb & Hb & Hs).
    injection Hs as <-. apply In_lift2; auto.
  - apply bind_Some in Hs as (sa & Ha & Hs). apply bind_Some in Hs as (sb & Hb & Hs).
    injection Hs as <-. apply In_lift2; auto.
  - apply bind_Some in Hs as (sa & Ha & Hs). injection Hs as <-. apply In_lift1; auto.
  - apply bind_Some in Hs as (sa & Ha & Hs). apply guard_Some in Hs as [Hd <-].
    rewrite forallb_forall in Hd.
    apply In_spread1; [auto |]. apply Sin_accurate, Hd; auto.
  - apply bind_Some in Hs as (sa & Ha & Hs). apply guard_Some in Hs as [Hd <-].
    rewrite forallb_forall in Hd.
    apply In_spread1; [auto |]. apply Cos_accurate, Hd; auto.
  - apply bind_Some in Hs as (sa & Ha & Hs). apply guard_Some in Hs as [Hd <-].
    rewrite forallb_forall in Hd.
    apply In_spread1; [auto |]. apply Tan_accurate, Hd; auto.
  - apply bind_Some in Hs as (sa & Ha & Hs). apply bind_Some in Hs as (sb & Hb & Hs).
    apply guard_Some in Hs as [Hd <-].
    rewrite forallb_forall in Hd.
    apply In_spread2; [auto | auto |]. apply Atan2_accurate.
    specialize (Hd _ (IHrelated1 _ Ha)). rewrite forallb_forall in Hd. apply Hd; auto.
  - apply bind_Some in Hs as (sa & Ha & Hs). apply bind_Some in Hs as (sb & Hb & Hs).
    apply guard_Some in Hs as [Hd <-].
    rewrite forallb_forall in Hd.
    apply In_spread2; [auto | auto |]. apply Pow_accurate.
    specialize (Hd _ (IHrelated1 _ Ha)). rewrite forallb_forall in Hd. apply Hd; auto.
  - apply bind_Some in Hs as (sa & Ha & Hs). eauto.
  - apply bind_Some in Hs as (sc & Hc & Hs).
    specialize (IHrelated1 _ Hc).
    destruct (forallb (fun x => negb (math_IsNaN x)) sc) eqn:E1.
    + rewrite forallb_forall in E1. rewrite (E1 _ IHrelated1). auto.
    + destruct (forallb math_IsNaN sc) eqn:E2.
      * rewrite forallb_forall in E2. rewrite (E2 _ IHrelated1). cbn. auto.
      * apply bind_Some in Hs as (st & Ht & Hs). apply bind_Some in Hs as (se & He & Hs).
        injection Hs as <-. apply In_of_list, in_or_app.
        destruct (negb (math_IsNaN (denote c))); [left | right]; auto.
Qed.

End Soundness.

(** ** The expressions are the functions *)

Section Reading.
Context {M : GoMath}.
Import Expr Prog.

Lemma arc_denote (φ : float) : denote (arc φ) = meridional_arc φ.
Proof. reflexivity. Qed.

Lemma next_φ_denote (N φ Marc : float) :
  denote (next_φ N φ Marc) = (N - NatGridF.N0 - Marc) / NatGridF.a_F0 + φ.
Proof. reflexivity. Qed.

Lemma LatLon_ToCartesian_denote (lat lon : float) (d : Datum) :
  LatLon_ToCartesian (mkLatLon lat lon 0 d)
  = mkCartesian (denote (cart_x (Ellipsoid d) lat lon))
                (denote (cart_y (Ellipsoid d) lat lon))
                (denote (cart_z (Ellipsoid d) lat)) d.
Proof. reflexivity. Qed.

Lemma Cartesian_applyTransform_denote (x y z : float) (d : Datum) (t : Array7) :
  Cartesian_applyTransform (mkCartesian x y z d) t
  = mkCartesian (denote (helmert_x t x y z)) (denote (helmert_y t x y z))
                (denote (helmert_z t x y z)) zero_Datum.
Proof. reflexivity. Qed.

Lemma Cartesian_ToLatLon_denote (x y z : float) (d : Datum) :
  Lat (Cartesian_ToLatLon (mkCartesian x y z d)) = denote (geo_lat (Ellipsoid d) x y z)
  /\ Lon (Cartesian_ToLatLon (mkCartesian x y z d)) = denote (geo_lon x y).
Proof. split; reflexivity. Qed.

(** After the loop, [OsGridRef.ToLatLon] hands these two angles to
    [osgb36ToWGS84]. *)
Lemma OsGridRef_ToLatLon_denote (fuel : nat) (o : OsGridRef) (φ Marc : float) :
  latitude_loop fuel (float64_of_int (Northing o)) NatGridF.φ0 0 = Some (φ, Marc) ->
  OsGridRef_ToLatLon fuel o
  = Done (osgb36ToWGS84 (denote (grid_lat (float64_of_int (Easting o)) φ))
                        (denote (grid_lon (float64_of_int (Easting o)) φ))).
Proof. intros H. unfold OsGridRef_ToLatLon. rewrite H. reflexivity. Qed.

End Reading.

(** ** The candidate sets cover the run *)

Section Covering.
Context {M : GoMath} {MA : GoMathAccurate M}.
Import Expr Prog.

Ltac related := unfold arc, next_φ, grid_lat, grid_lon, cart_x, cart_y, cart_z,
  cart_ν, helmert_x, helmert_y, helmert_z, geo_lat, geo_lon;
  repeat first [ assumption | progress intros | constructor ].

Lemma In_singleton (x : float) : In x [x].
Proof. left. reflexivity. Qed.

Lemma arc_related φ Sφ : In φ Sφ -> related (arc φ) (arc Sφ).
Proof. intros. related. Qed.

Lemma next_φ_related N φ m SN Sφ SM :
  In N SN -> In φ Sφ -> In m SM -> related (next_φ N φ m) (next_φ SN Sφ SM).
Proof. intros. related. Qed.

Lemma grid_lat_related E φ SE Sφ :
  In E SE -> In φ Sφ -> related (grid_lat E φ) (grid_lat SE Sφ).
Proof. intros. related. Qed.

Lemma grid_lon_related E φ SE Sφ :
  In E SE -> In φ Sφ -> related (grid_lon E φ) (grid_lon SE Sφ).
Proof. intros. related. Qed.

Lemma cart_x_related el lat lon Slat Slon :
  In lat Slat -> In lon Slon -> related (cart_x el lat lon) (cart_x el Slat Slon).
Proof. intros. related. Qed.

Lemma cart_y_related el lat lon Slat Slon :
  In lat Slat -> In lon Slon -> related (cart_y el lat lon) (cart_y el Slat Slon).
Proof. intros. related. Qed.

Lemma cart_z_related el lat Slat :
  In lat Slat -> related (cart_z el lat) (cart_z el Slat).
Proof. intros. related. Qed.

Lemma helmert_related t x y z Sx Sy Sz :
  In x Sx -> In y Sy -> In z Sz ->
  related (helmert_x t x y z) (helmert_x t Sx Sy Sz)
  /\ related (helmert_y t x y z) (helmert_y t Sx Sy Sz)
  /\ related (helmert_z t x y z) (helmert_z t Sx Sy Sz).
Proof. intros. repeat split; related. Qed.

Lemma geo_related el x y z Sx Sy Sz :
  In x Sx -> In y Sy -> In z Sz ->
  related (geo_lat el x y z) (geo_lat el Sx Sy Sz)
  /\ related (geo_lon x y) (geo_lon Sx Sy).
Proof. intros. split; related. Qed.

Lemma latitude_loop_covered (fuel : nat) (N φ m : float) (Sφ SM Sφ' SM' : Cand.fset) :
  In φ Sφ -> In m SM ->
  CandRun.loop_candidates fuel N Sφ SM = Some (Sφ', SM') ->
  exists φ' m', latitude_loop fuel N φ m = Some (φ', m') /\ In φ' Sφ' /\ In m' SM'.
Proof.
  revert φ m Sφ SM. induction fuel as [| fuel IH]; intros φ m Sφ SM Hφ Hm H.
  - discriminate.
  - cbn [CandRun.loop_candidates] in H.
    apply bind_Some in H as (S1 & H1 & H). apply bind_Some in H as (S2 & H2 & H).
    assert (Hφ1 : In ((N - NatGridF.N0 - m) / NatGridF.a_F0 + φ) S1).
    { rewrite <- next_φ_denote.
      apply (candidates_sound _ _ (next_φ_related _ _ _ _ _ _ (In_singleton N) Hφ Hm) _ H1). }
    assert (Hm1 : In (meridional_arc ((N - NatGridF.N0 - m) / NatGridF.a_F0 + φ)) S2).
    { rewrite <- arc_denote.
      apply (candidates_sound _ _ (arc_related _ _ Hφ1) _ H2). }
    cbn [latitude_loop].
    fold (CandRun.below_threshold N
            (meridional_arc ((N - NatGridF.N0 - m) / NatGridF.a_F0 + φ))).
    destruct (forallb (CandRun.below_threshold N) S2) eqn:E1.
    + injection H as <- <-.
      rewrite forallb_forall in E1. rewrite (E1 _ Hm1). eauto.
    + destruct (forallb (fun m0 => negb (CandRun.below_threshold N m0)) S2) eqn:E2;
        [| discriminate].
      rewrite forallb_forall in E2. specialize (E2 _ Hm1).
      apply negb_true_iff in E2. rewrite E2.
      apply (IH _ _ _ _ Hφ1 Hm1 H).
Qed.

Lemma osgb36ToWGS84_denote (lat lon : float) :
  let t := Array7_map PrimFloat.opp (Transform OSGB36) in
  let x := denote (cart_x (Ellipsoid OSGB36) lat lon) in
  let y := denote (cart_y (Ellipsoid OSGB36) lat lon) in
  let z := denote (cart_z (Ellipsoid OSGB36) lat) in
  let x2 := denote (helmert_x t x y z) in
  let y2 := denote (helmert_y t x y z) in
  let z2 := denote (helmert_z t x y z) in
  osgb36ToWGS84 lat lon
  = (denote (geo_lat (Ellipsoid WGS84) x2 y2 z2), denote (geo_lon x2 y2)).
Proof.
  cbv zeta. unfold osgb36ToWGS84, LatLon_ConvertDatum.
  rewrite Cartesian_ConvertDatum_eq. reflexivity.
Qed.

Lemma osgb36ToWGS84_covered (lat lon : float) (Slat Slon Slat' Slon' : Cand.fset) :
  In lat Slat -> In lon Slon ->
  CandRun.osgb36ToWGS84_candidates Slat Slon = Some (Slat', Slon') ->
  In (fst (osgb36ToWGS84 lat lon)) Slat' /\ In (snd (osgb36ToWGS84 lat lon)) Slon'.
Proof.
  intros Hlat Hlon H. unfold CandRun.osgb36ToWGS84_candidates in H.
  apply bind_Some in H as (Sx & Hx & H). apply bind_Some in H as (Sy & Hy & H).
  apply bind_Some in H as (Sz & Hz & H). apply bind_Some in H as (Sx2 & Hx2 & H).
  apply bind_Some in H as (Sy2 & Hy2 & H). apply bind_Some in H as (Sz2 & Hz2 & H).
  apply bind_Some in H as (Sa & Ha & H). apply bind_Some in H as (Sb & Hb & H).
  injection H as <- <-.
  pose proof (candidates_sound _ _ (cart_x_related _ _ _ _ _ Hlat Hlon) _ Hx) as Ix.
  pose proof (candidates_sound _ _ (cart_y_related _ _ _ _ _ Hlat Hlon) _ Hy) as Iy.
  pose proof (candidates_sound _ _ (cart_z_related _ _ _ Hlat) _ Hz) as Iz.
  destruct (helmert_related (Array7_map PrimFloat.opp (Transform OSGB36))
              _ _ _ _ _ _ Ix Iy Iz) as (Rx & Ry & Rz).
  pose proof (candidates_sound _ _ Rx _ Hx2) as Ix2.
  pose proof (candidates_sound _ _ Ry _ Hy2) as Iy2.
  pose proof (candidates_sound _ _ Rz _ Hz2) as Iz2.
  destruct (geo_related (Ellipsoid WGS84) _ _ _ _ _ _ Ix2 Iy2 Iz2) as (Ra & Rb).
  rewrite (osgb36ToWGS84_denote lat lon). cbn [fst snd].
  split.
  - apply (candidates_sound _ _ Ra _ Ha).
  - apply (candidates_sound _ _ Rb _ Hb).
Qed.

(** For a math library within the granted accuracy, a run of
    [OsGridRef.ToLatLon] whose candidate sets could be computed returns, and
    returns one of the candidates. *)
Theorem OsGridRef_ToLatLon_covered (fuel : nat) (o : OsGridRef) (Slat Slon : Cand.fset) :
  CandRun.ToLatLon_candidates fuel o = Some (Slat, Slon) ->
  exists lat lon, OsGridRef_ToLatLon fuel o = Done (lat, lon)
                  /\ In lat Slat /\ In lon Slon.
Proof.
  unfold CandRun.ToLatLon_candidates. intros H.
  apply bind_Some in H as ([Sφ SM] & Hloop & H).
  apply bind_Some in H as (S1 & H1 & H). apply bind_Some in H as (S2 & H2 & H).
  destruct (latitude_loop_covered _ _ _ _ _ _ _ _
              (In_singleton NatGridF.φ0) (In_singleton 0) Hloop)
    as (φ & m & Hrun & Hφ & _).
  rewrite (OsGridRef_ToLatLon_denote _ _ _ _ Hrun).
  pose proof (candidates_sound _ _
    (grid_lat_related _ _ _ _ (In_singleton (float64_of_int (Easting o))) Hφ) _ H1) as I1.
  pose proof (candidates_sound _ _
    (grid_lon_related _ _ _ _ (In_singleton (float64_of_int (Easting o))) Hφ) _ H2) as I2.
  destruct (osgb36ToWGS84_covered _ _ _ _ _ _ I1 I2 H) as [Ja Jb].
  destruct (osgb36ToWGS84 _ _) as [lat lon]. eauto.
Qed.

End Covering.

(** ** The sample conversion *)

Section Sample.
Context {M : GoMath}.

Lemma OsGridRef_ToLatLon_more_fuel (k k' : nat) (o : OsGridRef) (r : float * float) :
  OsGridRef_ToLatLon k o = Done r -> (k <= k')%nat -> OsGridRef_ToLatLon k' o = Done r.
Proof.
  unfold OsGridRef_ToLatLon. intros H Hle.
  destruct (latitude_loop k _ _ _) as [[φ Marc] |] eqn:E; [| discriminate].
  rewrite (latitude_loop_more_fuel _ _ _ _ _ _ E Hle). exact H.
Qed.

Context {MA : GoMathAccurate M}.

Lemma ToLatLon_within_covered (fuel : nat) (o : OsGridRef) (lat0 lon0 delta : float) :
  CandRun.ToLatLon_within fuel o lat0 lon0 delta = true ->
  exists lat lon,
    OsGridRef_ToLatLon fuel o = Done (lat, lon)
    /\ (math_Abs (lat - lat0) <=? delta) = true
    /\ (math_Abs (lon - lon0) <=? delta) = true.
Proof.
  unfold CandRun.ToLatLon_within. intros H.
  destruct (CandRun.ToLatLon_candidates fuel o) as [[Slat Slon] |] eqn:E; [| discriminate].
  apply andb_true_iff in H as [Hlat Hlon].
  unfold CandRun.all_within in Hlat, Hlon. rewrite forallb_forall in Hlat, Hlon.
  destruct (OsGridRef_ToLatLon_covered _ _ _ _ E) as (lat & lon & Hrun & Ilat & Ilon).
  exists lat, lon. auto.
Qed.

(** C2: [OsGridRef{392395, 352997}.ToLatLon()] returns, from the fourth
    iteration of its loop, a latitude within 0.00005 degrees of 53.074149
    and a longitude within 0.00005 degrees of -2.1149638 (WGS84), for every
    math library whose Sin, Cos, Tan, Atan2 and Pow are within four units in
    the last place of the reference values. *)
Theorem OsGridRef_ToLatLon_sample (fuel : nat) :
  (4 <= fuel)%nat ->
  exists lat lon,
    OsGridRef_ToLatLon fuel sample_ref = Done (lat, lon)
    /\ (math_Abs (lat - 53.074149) <=? 0.00005) = true
    /\ (math_Abs (lon - -2.1149638) <=? 0.00005) = true.
Proof.
  intros Hfuel.
  destruct (ToLatLon_within_covered 4 sample_ref 53.074149 (-2.1149638) 0.00005)
    as (lat & lon & Hrun & Hlat & Hlon).
  { vm_compute. reflexivity. }
  exists lat, lon. split; [| auto].
  apply (OsGridRef_ToLatLon_more_fuel 4); assumption.
Qed.

End Sample.

Lemma OsGridRef_ToLatLon_sample_witness :
  exists lat lon,
    OsGridRef_ToLatLon (M := RefMath) 4 sample_ref = Done (lat, lon)
    /\ (math_Abs (lat - 53.074149) <=? 0.00005) = true
    /\ (math_Abs (lon - -2.1149638) <=? 0.00005) = true.
Proof.
  apply (OsGridRef_ToLatLon_sample (M := RefMath) 4). lia.
Defined.

(** ** Grid references as text *)

Section TextFacts.
Import Ascii.
Local Open Scope string_scope.
Local Open Scope Z_scope.

Lemma byte_value_range (c : ascii) : 0 <= byte_value c < 256.
Proof.
  unfold byte_value. pose proof (N_ascii_bounded c). lia.
Qed.

Lemma byte_value_of_int (z : Z) : byte_value (byte_of_int z) = z mod 256.
Proof.
  unfold byte_value, byte_of_int.
  pose proof (Z.mod_pos_bound z 256 ltac:(lia)).
  rewrite N_ascii_embedding by lia. lia.
Qed.

Lemma byte_of_int_value (c : ascii) : byte_of_int (byte_value c) = c.
Proof.
  unfold byte_of_int. pose proof (byte_value_range c).
  rewrite Z.mod_small by lia. unfold byte_value.
  rewrite N2Z.id. apply ascii_N_embedding.
Qed.

Lemma byte_value_inj (c d : ascii) : byte_value c = byte_value d -> c = d.
Proof.
  intros H. rewrite <- (byte_of_int_value c), <- (byte_of_int_value d), H.
  reflexivity.
Qed.

Lemma string_append_assoc (a b c : string) : (a ++ b) ++ c = a ++ (b ++ c).
Proof. induction a; simpl; congruence. Qed.

Lemma string_append_nil_r (a : string) : a ++ "" = a.
Proof. induction a; simpl; congruence. Qed.

Lemma string_length_append (a b : string) :
  String.length (a ++ b) = (String.length a + String.length b)%nat.
Proof. induction a; simpl; congruence. Qed.

Lemma string_take_append (a b : string) : string_take (String.length a) (a ++ b) = a.
Proof. induction a; simpl; [destruct b|]; congruence. Qed.

Lemma string_drop_append (a b : string) : string_drop (String.length a) (a ++ b) = b.
Proof. induction a; simpl; congruence. Qed.

Lemma string_take_take_append (n : nat) (a b : string) :
  (n <= String.length a)%nat -> string_take n (a ++ b) = string_take n a.
Proof.
  revert a. induction n; intros a H.
  - destruct a, b; reflexivity.
  - destruct a; simpl in *; [lia|]. f_equal. apply IHn. lia.
Qed.

Lemma string_forallb_append (p : ascii -> bool) (a b : string) :
  string_forallb p (a ++ b) = string_forallb p a && string_forallb p b.
Proof. induction a; simpl; [reflexivity|]. rewrite IHa. now destruct (p a). Qed.

Lemma string_forallb_repeat (p : ascii -> bool) (c : ascii) (n : nat) :
  p c = true -> string_forallb p (string_repeat c n) = true.
Proof. intros H. induction n; simpl; [reflexivity|]. now rewrite H. Qed.

Lemma string_forallb_impl (p q : ascii -> bool) (s : string) :
  (forall c, p c = true -> q c = true) ->
  string_forallb p s = true -> string_forallb q s = true.
Proof.
  intros H. induction s; simpl; [reflexivity|].
  intros Hs. apply andb_prop in Hs as [H1 H2].
  now rewrite (H _ H1), IHs.
Qed.

Lemma string_length_repeat (c : ascii) (n : nat) : String.length (string_repeat c n) = n.
Proof. induction n; simpl; congruence. Qed.

Lemma strings_ReplaceAll_space_append (a b : string) :
  strings_ReplaceAll_space (a ++ b)
  = strings_ReplaceAll_space a ++ strings_ReplaceAll_space b.
Proof.
  induction a; simpl; [reflexivity|].
  destruct (a =? " ")%char; simpl; congruence.
Qed.

Lemma strings_ReplaceAll_space_none (s : string) :
  string_forallb (fun c => negb (c =? " ")%char) s = true ->
  strings_ReplaceAll_space s = s.
Proof.
  induction s; simpl; [reflexivity|].
  intros H. apply andb_prop in H as [H1 H2].
  destruct (a =? " ")%char; [discriminate|]. now rewrite IHs.
Qed.

Lemma string_map_upper_none (s : string) :
  string_forallb (fun c => negb (is_lower c)) s = true ->
  string_map ascii_upper s = s.
Proof.
  induction s; simpl; [reflexivity|].
  intros H. apply andb_prop in H as [H1 H2].
  unfold ascii_upper at 1. destruct (is_lower a); [discriminate|].
  now rewrite IHs.
Qed.

(** *** Decimal numerals *)

Lemma digit_char_value (d : Z) : 0 <= d <= 9 -> byte_value (digit_char d) = 48 + d.
Proof.
  intros H. unfold digit_char. rewrite byte_value_of_int, Z.mod_small; lia.
Qed.

Lemma digit_char_is_digit (d : Z) : 0 <= d <= 9 -> is_digit (digit_char d) = true.
Proof.
  intros H. unfold is_digit. rewrite digit_char_value by lia.
  apply andb_true_intro. split; apply Z.leb_le; lia.
Qed.

Lemma length_decimal_digits (w : nat) (v : Z) : String.length (decimal_digits w v) = w.
Proof.
  revert v. induction w; intros v; simpl; [reflexivity|].
  rewrite string_length_append, IHw. simpl. lia.
Qed.

Lemma decimal_digits_are_digits (w : nat) (v : Z) :
  string_forallb is_digit (decimal_digits w v) = true.
Proof.
  revert v. induction w; intros v; simpl; [reflexivity|].
  rewrite string_forallb_append, IHw. simpl.
  rewrite digit_char_is_digit; [reflexivity|].
  pose proof (Z.mod_pos_bound v 10 ltac:(lia)). lia.
Qed.

Lemma decimal_value_from_append (a : Z) (s t : string) :
  decimal_value_from a (s ++ t) = decimal_value_from (decimal_value_from a s) t.
Proof. revert a. induction s; intros acc; simpl; [reflexivity|]. apply IHs. Qed.

Lemma decimal_value_from_digits (w : nat) (a v : Z) :
  decimal_value_from a (decimal_digits w v) = a * 10 ^ Z.of_nat w + v mod 10 ^ Z.of_nat w.
Proof.
  revert a v. induction w; intros a v.
  - simpl. rewrite Z.mod_1_r. lia.
  - cbn [decimal_digits]. rewrite decimal_value_from_append, IHw.
    cbn [decimal_value_from].
    pose proof (Z.mod_pos_bound v 10 ltac:(lia)) as Hd.
    rewrite digit_char_value by lia.
    rewrite Nat2Z.inj_succ, Z.pow_succ_r by lia.
    assert (Hp : 0 < 10 ^ Z.of_nat w) by (apply Z.pow_pos_nonneg; lia).
    rewrite (Z.rem_mul_r v 10 (10 ^ Z.of_nat w)) by lia.
    lia.
Qed.

Lemma string_repeat_snoc (c : ascii) (n : nat) :
  string_repeat c n ++ String c "" = String c (string_repeat c n).
Proof. induction n; simpl; congruence. Qed.

Lemma decimal_digits_zero (w : nat) : decimal_digits w 0 = string_repeat "0"%char w.
Proof.
  induction w; [reflexivity|].
  cbn [decimal_digits]. change (0 / 10) with 0. rewrite IHw.
  change (digit_char (0 mod 10)) with "0"%char.
  apply string_repeat_snoc.
Qed.

Lemma decimal_digits_high_zeros (m w : nat) (v : Z) :
  0 <= v < 10 ^ Z.of_nat w ->
  decimal_digits (m + w) v = string_repeat "0"%char m ++ decimal_digits w v.
Proof.
  revert v. induction w; intros v H.
  - change (10 ^ Z.of_nat 0) with 1 in H. replace v with 0 by lia.
    rewrite Nat.add_0_r, decimal_digits_zero. simpl.
    now rewrite string_append_nil_r.
  - rewrite Nat.add_succ_r. cbn [decimal_digits].
    rewrite IHw, string_append_assoc; [reflexivity|].
    rewrite Nat2Z.inj_succ, Z.pow_succ_r in H by lia.
    split; [apply Z.div_pos; lia|].
    apply Z.div_lt_upper_bound; lia.
Qed.

Lemma decimal_length_spec (fuel : nat) (v : Z) :
  0 <= v < 10 ^ Z.of_nat (S fuel) ->
  let L := decimal_length fuel v in
  (1 <= L)%nat /\ v < 10 ^ Z.of_nat L
  /\ (L = 1%nat \/ 10 ^ Z.of_nat (L - 1) <= v).
Proof.
  revert v. induction fuel; intros v H; cbn zeta.
  - cbn [decimal_length]. split; [lia|]. split; [exact (proj2 H)|now left].
  - cbn [decimal_length]. destruct (v <? 10) eqn:E.
    + apply Z.ltb_lt in E. split; [lia|]. split; [exact E|now left].
    + apply Z.ltb_ge in E.
      assert (Hq : 0 <= v / 10 < 10 ^ Z.of_nat (S fuel)).
      { rewrite (Nat2Z.inj_succ (S fuel)), Z.pow_succ_r in H by lia.
        split; [apply Z.div_pos; lia|]. apply Z.div_lt_upper_bound; lia. }
      destruct (IHfuel _ Hq) as (H1 & H2 & H3).
      set (L := decimal_length fuel (v / 10)) in *.
      split; [lia|]. split.
      * rewrite Nat2Z.inj_succ, Z.pow_succ_r by lia.
        pose proof (Z.div_mod v 10 ltac:(lia)).
        pose proof (Z.mod_pos_bound v 10 ltac:(lia)). lia.
      * right. replace (S L - 1)%nat with (S (L - 1)) by lia.
        rewrite Nat2Z.inj_succ, Z.pow_succ_r by lia.
        pose proof (Z.div_mod v 10 ltac:(lia)).
        pose proof (Z.mod_pos_bound v 10 ltac:(lia)).
        destruct H3 as [H3 | H3].
        -- rewrite H3. change (10 ^ Z.of_nat (1 - 1)) with 1. lia.
        -- lia.
Qed.

Lemma decimal_fuel (v : Z) : 0 <= v -> 0 <= v < 10 ^ Z.of_nat (S (Z.to_nat (Z.log2 v))).
Proof.
  intros H. split; [assumption|].
  destruct (Z.eq_dec v 0) as [-> | Hn].
  - reflexivity.
  - pose proof (Z.log2_spec v ltac:(lia)) as [_ Hl].
    pose proof (Z.log2_nonneg v).
    rewrite Nat2Z.inj_succ, Z2Nat.id by lia.
    eapply Z.lt_le_trans; [apply Hl|].
    apply Z.pow_le_mono_l. lia.
Qed.

Lemma decimal_shape (v : Z) :
  0 <= v ->
  exists L : nat,
    decimal v = decimal_digits L v /\ (1 <= L)%nat /\ v < 10 ^ Z.of_nat L
    /\ (L = 1%nat \/ 10 ^ Z.of_nat (L - 1) <= v).
Proof.
  intros H. exists (decimal_length (Z.to_nat (Z.log2 v)) v).
  split; [reflexivity|]. apply decimal_length_spec, decimal_fuel, H.
Qed.

Lemma decimal_value_decimal (v : Z) : 0 <= v -> decimal_value (decimal v) = v.
Proof.
  intros H. destruct (decimal_shape v H) as (L & -> & _ & Hlt & _).
  unfold decimal_value. rewrite decimal_value_from_digits, Z.mod_small; lia.
Qed.

Lemma decimal_is_digit_string (v : Z) : 0 <= v -> digit_string (decimal v) = true.
Proof.
  intros H. destruct (decimal_shape v H) as (L & -> & HL & _).
  unfold digit_string. rewrite decimal_digits_are_digits, andb_true_r.
  destruct L; [lia|]. cbn [decimal_digits].
  destruct (decimal_digits L (v / 10)); reflexivity.
Qed.

(** Zero padding to a width the value fits in gives exactly that many
    digits. *)
Lemma pad_zeros_decimal (w : nat) (v : Z) :
  (1 <= w)%nat -> 0 <= v < 10 ^ Z.of_nat w ->
  pad_zeros (Z.of_nat w) (decimal v) = decimal_digits w v.
Proof.
  intros Hw H. destruct (decimal_shape v ltac:(lia)) as (L & -> & HL & Hlt & Hge).
  unfold pad_zeros. rewrite length_decimal_digits, Nat2Z.id.
  assert (HLw : (L <= w)%nat).
  { destruct Hge as [-> | Hge]; [assumption|].
    destruct (Nat.le_gt_cases L w) as [Hle | Hgt]; [assumption|].
    assert (10 ^ Z.of_nat w <= 10 ^ Z.of_nat (L - 1)).
    { apply Z.pow_le_mono_r; lia. }
    lia. }
  rewrite <- decimal_digits_high_zeros by lia.
  f_equal. lia.
Qed.

(** Zero padding of a value that needs more digits than the width changes
    nothing. *)
Lemma pad_zeros_short (w : Z) (s : string) :
  w <= Z.of_nat (String.length s) -> pad_zeros w s = s.
Proof.
  intros H. unfold pad_zeros.
  replace (Z.to_nat w - String.length s)%nat with 0%nat by lia.
  reflexivity.
Qed.

Lemma string_length_take (n : nat) (s : string) :
  String.length (string_take n s) = Nat.min n (String.length s).
Proof.
  revert s. induction n; intros s; [reflexivity|].
  destruct s; simpl; [reflexivity|]. now rewrite IHn.
Qed.

Lemma string_length_drop (n : nat) (s : string) :
  String.length (string_drop n s) = (String.length s - n)%nat.
Proof.
  revert s. induction n; intros s; simpl; [lia|].
  destruct s; simpl; [reflexivity|]. apply IHn.
Qed.

Lemma string_take_past (a b : string) (n : nat) :
  string_take (String.length a + n) (a ++ b) = a ++ string_take n b.
Proof. induction a; simpl; congruence. Qed.

Lemma span_digits_not_digit (c : ascii) (r : string) :
  is_digit c = false -> span_digits (String c r) = ("", String c r).
Proof. intros H. simpl. now rewrite H. Qed.

Lemma upper_not_digit (c : ascii) : is_upper c = true -> is_digit c = false.
Proof.
  unfold is_upper, is_digit. intros H. apply andb_prop in H as [H1 H2].
  apply Z.leb_le in H1. apply andb_false_intro2. apply Z.leb_gt. lia.
Qed.

Lemma commaSeparatedFormat_not_digit (c : ascii) (r : string) :
  is_digit c = false -> commaSeparatedFormat (String c r) = None.
Proof.
  intros H. unfold commaSeparatedFormat. rewrite span_digits_not_digit by assumption.
  replace (digit_string "") with false by reflexivity.
  now rewrite andb_false_r.
Qed.

End TextFacts.

Section ParseFacts.
Import Ascii.
Context {GS : GoStrings} {GSA : GoStringsASCII GS}.
Local Open Scope string_scope.
Local Open Scope Z_scope.

(** A string of capital letters and digits is left as it is by the two
    normalising steps of [ParseOsGridRef]. *)
Lemma normalise_clean (s : string) :
  string_forallb (fun c => is_upper c || is_digit c) s = true ->
  strings_ToUpper (strings_ReplaceAll_space s) = s.
Proof.
  intros H.
  assert (Hb : forall c, is_upper c || is_digit c = true ->
                 48 <= byte_value c <= 90).
  { intros c Hc. unfold is_upper, is_digit in Hc.
    apply orb_prop in Hc as [Hc | Hc]; apply andb_prop in Hc as [H1 H2];
      apply Z.leb_le in H1, H2; lia. }
  rewrite strings_ReplaceAll_space_none.
  - rewrite ToUpper_ASCII.
    + apply string_map_upper_none.
      revert H. apply string_forallb_impl. intros c Hc. apply Hb in Hc.
      unfold is_lower. apply negb_true_iff, andb_false_intro1, Z.leb_gt. lia.
    + revert H. apply string_forallb_impl. intros c Hc. apply Hb in Hc.
      apply Z.ltb_lt. lia.
  - revert H. apply string_forallb_impl. intros c Hc. apply Hb in Hc.
    apply negb_true_iff, Ascii.eqb_neq. intros ->.
    vm_compute in Hc. destruct Hc as [Hc _]. now apply Hc.
Qed.

(** [ParseOsGridRef] on two capital letters followed by digits, with the
    normalisation and the two regular expressions resolved. *)
Lemma ParseOsGridRef_letters (c1 c2 : ascii) (ds : string) :
  is_upper c1 = true -> is_upper c2 = true -> digit_string ds = true ->
  let s := String c1 (String c2 ds) in
  let half := Nat.div2 (String.length ds) in
  ParseOsGridRef s =
  if Ascii.eqb c1 "I" || Ascii.eqb c2 "I"
  then (zero_OsGridRef, Some (invalid_grid_ref_format s))
  else if (letter_index c1 <? 8) || (18 <? letter_index c1)
  then (zero_OsGridRef, Some (invalid_grid_reference s))
  else if negb (String.length (string_take half ds)
                =? String.length (string_drop half ds))%nat
  then (zero_OsGridRef, Some (invalid_grid_reference s))
  else (mkOsGridRef
          (square_e100km c1 c2 * 100000
           + decimal_value (string_take 5 (string_take half ds ++ "00000")))
          (square_n100km c1 c2 * 100000
           + decimal_value (string_take 5 (string_drop half ds ++ "00000"))),
        None).
Proof.
  intros H1 H2 Hd s half.
  unfold ParseOsGridRef.
  assert (Hs : strings_ToUpper (strings_ReplaceAll_space s) = s).
  { apply normalise_clean. unfold s. cbn [string_forallb].
    rewrite H1, H2. cbn [orb andb].
    unfold digit_string in Hd. apply andb_prop in Hd as [_ Hd].
    revert Hd. apply string_forallb_impl. intros c Hc. rewrite Hc.
    apply orb_true_r. }
  rewrite Hs. cbv zeta. unfold s at 1.
  rewrite commaSeparatedFormat_not_digit by (now apply upper_not_digit).
  unfold s at 1. cbv iota beta.
  replace (gridRefFormat s) with true
    by (unfold s, gridRefFormat; now rewrite H1, H2, Hd).
  cbn [negb].
  reflexivity.
Qed.

End ParseFacts.

Section FormatFacts.
Import Ascii.
Local Open Scope string_scope.
Local Open Scope Z_scope.

Lemma OsGridRef_Valid_bounds (o : OsGridRef) :
  OsGridRef_Valid o = true ->
  0 <= Easting o <= 700000 /\ 0 <= Northing o <= 1300000.
Proof.
  unfold OsGridRef_Valid. intros H.
  apply andb_prop in H as [H H4]. apply andb_prop in H as [H H3].
  apply andb_prop in H as [H1 H2].
  apply Z.geb_le in H1, H3. apply Z.leb_le in H2, H4. lia.
Qed.

Lemma stringN_pow_nonpos (n : Z) : n <= 0 -> stringN_pow n = 1.
Proof. intros H. destruct n; try reflexivity. lia. Qed.

(** Padding with zeros to at most five places, of a value that fits. *)
Lemma fmt_0star_d_fits (k : nat) (v : Z) :
  (k <= 5)%nat -> 0 <= v < 10 ^ Z.of_nat k ->
  fmt_0star_d (Z.of_nat k) v = decimal_digits (Nat.max 1 k) v.
Proof.
  intros Hk Hv. unfold fmt_0star_d.
  replace (Z.of_nat k <? -1000000) with false by (symmetry; apply Z.ltb_ge; lia).
  replace (1000000 <? Z.of_nat k) with false by (symmetry; apply Z.ltb_ge; lia).
  replace (Z.of_nat k <? 0) with false by (symmetry; apply Z.ltb_ge; lia).
  replace (v <? 0) with false by (symmetry; apply Z.ltb_ge; lia).
  cbn [orb].
  destruct k as [|k].
  - change (10 ^ Z.of_nat 0) with 1 in Hv. replace v with 0 by lia. reflexivity.
  - replace (Nat.max 1 (S k)) with (S k) by lia.
    apply pad_zeros_decimal; [lia | assumption].
Qed.

(** What [stringN] writes for a reference in the grid, for 0 to 11 digits. *)
Lemma OsGridRef_stringN_in_grid (o : OsGridRef) (digits : Z) (spaces : bool) :
  OsGridRef_Valid o = true -> 0 <= digits <= 11 ->
  let k := Z.to_nat (digits / 2) in
  let unit := 10 ^ (5 - digits / 2) in
  let sep := if spaces then " " else "" in
  OsGridRef_stringN o digits spaces =
  Done (String (square_letter1 (Easting o / 100000) (Northing o / 100000))
          (String (square_letter2 (Easting o / 100000) (Northing o / 100000))
             (sep ++ decimal_digits (Nat.max 1 k) (Easting o mod 100000 / unit)
                  ++ sep ++ decimal_digits (Nat.max 1 k) (Northing o mod 100000 / unit)))).
Proof.
  intros Hv Hd k unit sep.
  apply OsGridRef_Valid_bounds in Hv as [HE HN].
  unfold OsGridRef_stringN. cbv zeta.
  rewrite (Z.quot_div_nonneg (Easting o) 100000),
    (Z.quot_div_nonneg (Northing o) 100000),
    (Z.rem_mod_nonneg (Easting o) 100000),
    (Z.rem_mod_nonneg (Northing o) 100000),
    (Z.quot_div_nonneg digits 2) by lia.
  assert (Hw : 0 <= digits / 2 <= 5).
  { split; [apply Z.div_pos; lia|].
    assert (digits / 2 < 6) by (apply Z.div_lt_upper_bound; lia). lia. }
  assert (Hp : stringN_pow (5 - digits / 2) = unit).
  { unfold unit.
    assert (Hc : digits / 2 = 0 \/ digits / 2 = 1 \/ digits / 2 = 2
                 \/ digits / 2 = 3 \/ digits / 2 = 4 \/ digits / 2 = 5) by lia.
    destruct Hc as [-> | [-> | [-> | [-> | [-> | ->]]]]]; reflexivity. }
  rewrite Hp.
  assert (Hu : 0 < unit) by (apply Z.pow_pos_nonneg; lia).
  assert (Hk : 10 ^ Z.of_nat k * unit = 100000).
  { unfold k, unit. rewrite Z2Nat.id by lia.
    rewrite <- Z.pow_add_r by lia.
    replace (digits / 2 + (5 - digits / 2)) with 5 by lia. reflexivity. }
  replace (unit =? 0) with false by (symmetry; apply Z.eqb_neq; lia).
  pose proof (Z.mod_pos_bound (Easting o) 100000 ltac:(lia)) as HEr.
  pose proof (Z.mod_pos_bound (Northing o) 100000 ltac:(lia)) as HNr.
  assert (Hfit : forall r, 0 <= r < 100000 -> 0 <= r / unit < 10 ^ Z.of_nat k).
  { intros r Hr. split; [apply Z.div_pos; lia|].
    apply Z.div_lt_upper_bound; lia. }
  rewrite (Z.quot_div_nonneg (Easting o mod 100000) unit),
    (Z.quot_div_nonneg (Northing o mod 100000) unit) by lia.
  replace (digits / 2) with (Z.of_nat k)
    by (unfold k; apply Z2Nat.id; lia).
  rewrite !fmt_0star_d_fits by (try apply Hfit; try assumption; unfold k; lia).
  unfold square_letter1, square_letter2, sep.
  destruct spaces; reflexivity.
Qed.

End FormatFacts.

Section SquareFacts.
Import Ascii.
Local Open Scope string_scope.
Local Open Scope Z_scope.

(** The letters written for the 100 km squares of the grid are capitals
    other than I; read back they give the square again, unless the first
    letter is H. *)
Lemma square_letters (e100km n100km : Z) :
  0 <= e100km <= 7 -> 0 <= n100km <= 13 ->
  let c1 := square_letter1 e100km n100km in
  let c2 := square_letter2 e100km n100km in
  is_upper c1 = true /\ is_upper c2 = true
  /\ Ascii.eqb c1 "I" = false /\ Ascii.eqb c2 "I" = false
  /\ (n100km < 10 \/ 5 <= e100km ->
      (letter_index c1 <? 8) || (18 <? letter_index c1) = false
      /\ square_e100km c1 c2 = e100km /\ square_n100km c1 c2 = n100km)
  /\ (10 <= n100km -> e100km < 5 -> c1 = "H"%char).
Proof.
  intros He Hn.
  assert (Hce : e100km = 0 \/ e100km = 1 \/ e100km = 2 \/ e100km = 3
                \/ e100km = 4 \/ e100km = 5 \/ e100km = 6 \/ e100km = 7) by lia.
  assert (Hcn : n100km = 0 \/ n100km = 1 \/ n100km = 2 \/ n100km = 3
                \/ n100km = 4 \/ n100km = 5 \/ n100km = 6 \/ n100km = 7
                \/ n100km = 8 \/ n100km = 9 \/ n100km = 10 \/ n100km = 11
                \/ n100km = 12 \/ n100km = 13) by lia.
  clear He Hn.
  repeat (destruct Hce as [-> | Hce]); try subst e100km;
    repeat (destruct Hcn as [-> | Hcn]); try subst n100km;
    cbv zeta;
    (split; [reflexivity |
     split; [reflexivity |
     split; [reflexivity |
     split; [reflexivity |
     split; [intros Hc; first [exfalso; lia | repeat split; reflexivity]
            | intros Ha Hb; first [exfalso; lia | reflexivity]]]]]]).
Qed.

End SquareFacts.

Section RoundTrip.
Import Ascii.
Context {GS : GoStrings} {GSA : GoStringsASCII GS}.
Local Open Scope string_scope.
Local Open Scope Z_scope.

Lemma ParseOsGridRef_spaces (s t : string) :
  strings_ReplaceAll_space s = strings_ReplaceAll_space t ->
  ParseOsGridRef s = ParseOsGridRef t.
Proof. intros H. unfold ParseOsGridRef. now rewrite H. Qed.

Lemma strings_ReplaceAll_space_cons (c : ascii) (r r' : string) :
  strings_ReplaceAll_space r = strings_ReplaceAll_space r' ->
  strings_ReplaceAll_space (String c r) = strings_ReplaceAll_space (String c r').
Proof. intros H. simpl. now rewrite H. Qed.

Lemma strings_ReplaceAll_space_sep (spaces : bool) (a b : string) :
  let sep := if spaces then " " else "" in
  strings_ReplaceAll_space (sep ++ a ++ sep ++ b) = strings_ReplaceAll_space (a ++ b).
Proof.
  destruct spaces; cbv zeta; [|reflexivity].
  change (" " ++ a ++ " " ++ b) with (String " " (a ++ String " " b)).
  cbn [strings_ReplaceAll_space]. change (" " =? " ")%char with true. cbv iota.
  rewrite !strings_ReplaceAll_space_append.
  reflexivity.
Qed.

Lemma zeros_value (m : nat) (a : Z) :
  (m <= 5)%nat ->
  decimal_value_from a (string_take m "00000") = a * 10 ^ Z.of_nat m.
Proof.
  intros H.
  do 6 (destruct m as [|m]; [cbn [string_take decimal_value_from];
                            change (byte_value "0") with 48; simpl Z.of_nat; lia|]).
  lia.
Qed.

(** The value [ParseOsGridRef] reads from [K] digits completed with zeros. *)
Lemma padded_value (K : nat) (v : Z) :
  (K <= 5)%nat ->
  decimal_value (string_take 5 (decimal_digits K v ++ "00000"))
  = v mod 10 ^ Z.of_nat K * 10 ^ Z.of_nat (5 - K).
Proof.
  intros H.
  replace 5%nat with (String.length (decimal_digits K v) + (5 - K))%nat at 1
    by (rewrite length_decimal_digits; lia).
  rewrite string_take_past. unfold decimal_value.
  rewrite decimal_value_from_append, decimal_value_from_digits, zeros_value by lia.
  lia.
Qed.

Lemma truncation_arith (E : Z) (k : nat) :
  0 <= E -> (k <= 5)%nat ->
  let unit := 10 ^ (5 - Z.of_nat k) in
  E / 100000 * 100000
  + E mod 100000 / unit mod 10 ^ Z.of_nat (Nat.max 1 k)
    * 10 ^ Z.of_nat (5 - Nat.max 1 k)
  = E - E mod unit.
Proof.
  intros HE Hk.
  do 6 (destruct k as [|k];
        [cbv zeta; cbn [Nat.max Nat.sub Z.of_nat Pos.of_succ_nat Pos.succ Z.sub Z.opp
                         Z.add Z.pos_sub Pos.pred_double Z.succ_double Z.pred_double
                         Z.double];
         match goal with |- context [10 ^ ?n] => idtac end;
         repeat match goal with
                | |- context [10 ^ ?n] =>
                    let v := eval vm_compute in (10 ^ n) in change (10 ^ n) with v
                end;
         Z.to_euclidean_division_equations; lia|]).
  lia.
Qed.

Lemma div2_double (n : nat) : Nat.div2 (n + n) = n.
Proof.
  induction n; [reflexivity|].
  rewrite Nat.add_succ_r. simpl. now rewrite IHn.
Qed.

Lemma digit_string_digits (K : nat) (a b : Z) :
  (1 <= K)%nat -> digit_string (decimal_digits K a ++ decimal_digits K b) = true.
Proof.
  intros H. unfold digit_string.
  rewrite string_forallb_append, !decimal_digits_are_digits, andb_true_r.
  pose proof (length_decimal_digits K a) as HL.
  destruct (decimal_digits K a); [simpl in HL; lia | reflexivity].
Qed.

(** Two capital letters followed by two groups of [K] digits. *)
Lemma ParseOsGridRef_pair (c1 c2 : ascii) (K : nat) (a b : Z) :
  is_upper c1 = true -> is_upper c2 = true -> (1 <= K <= 5)%nat ->
  ParseOsGridRef (String c1 (String c2 (decimal_digits K a ++ decimal_digits K b))) =
  let s := String c1 (String c2 (decimal_digits K a ++ decimal_digits K b)) in
  if Ascii.eqb c1 "I" || Ascii.eqb c2 "I"
  then (zero_OsGridRef, Some (invalid_grid_ref_format s))
  else if (letter_index c1 <? 8) || (18 <? letter_index c1)
  then (zero_OsGridRef, Some (invalid_grid_reference s))
  else (mkOsGridRef
          (square_e100km c1 c2 * 100000
           + a mod 10 ^ Z.of_nat K * 10 ^ Z.of_nat (5 - K))
          (square_n100km c1 c2 * 100000
           + b mod 10 ^ Z.of_nat K * 10 ^ Z.of_nat (5 - K)),
        None).
Proof.
  intros H1 H2 HK.
  rewrite ParseOsGridRef_letters by (auto; apply digit_string_digits; lia).
  cbv zeta.
  rewrite string_length_append, !length_decimal_digits, div2_double.
  replace (string_take K (decimal_digits K a ++ decimal_digits K b))
    with (decimal_digits K a)
    by (rewrite <- (length_decimal_digits K a) at 2; now rewrite string_take_append).
  replace (string_drop K (decimal_digits K a ++ decimal_digits K b))
    with (decimal_digits K b)
    by (rewrite <- (length_decimal_digits K a) at 2; now rewrite string_drop_append).
  rewrite !length_decimal_digits, Nat.eqb_refl. cbn [negb].
  rewrite !padded_value by lia.
  reflexivity.
Qed.

End RoundTrip.

#[export] Instance RefStrings_ASCII : GoStringsASCII RefStrings.
Proof. split. reflexivity. Qed.

Section GridTextTheorems.
Import Ascii.
Context {GS : GoStrings} {GSA : GoStringsASCII GS}.
Local Open Scope string_scope.
Local Open Scope Z_scope.

Lemma in_grid_squares (o : OsGridRef) :
  OsGridRef_Valid o = true ->
  0 <= Easting o / 100000 <= 7 /\ 0 <= Northing o / 100000 <= 13.
Proof.
  intros H. apply OsGridRef_Valid_bounds in H as [HE HN].
  repeat split; try (apply Z.div_pos; lia).
  - assert (Easting o / 100000 < 8) by (apply Z.div_lt_upper_bound; lia). lia.
  - assert (Northing o / 100000 < 14) by (apply Z.div_lt_upper_bound; lia). lia.
Qed.

(** What [ParseOsGridRef] makes of the text [stringN] writes for a reference
    in the grid, for 0 to 11 digits. *)
Lemma ParseOsGridRef_stringN (o : OsGridRef) (digits : Z) (spaces : bool) :
  OsGridRef_Valid o = true -> 0 <= digits <= 11 ->
  exists (s : string) (K : nat),
    OsGridRef_stringN o digits spaces = Done s
    /\ (1 <= K <= 5)%nat
    /\ K = Nat.max 1 (Z.to_nat (digits / 2))
    /\ let c1 := square_letter1 (Easting o / 100000) (Northing o / 100000) in
       let c2 := square_letter2 (Easting o / 100000) (Northing o / 100000) in
       let a := Easting o mod 100000 / 10 ^ (5 - digits / 2) in
       let b := Northing o mod 100000 / 10 ^ (5 - digits / 2) in
       ParseOsGridRef s
       = ParseOsGridRef (String c1 (String c2 (decimal_digits K a ++ decimal_digits K b))).
Proof.
  intros Hv Hd.
  assert (Hw : 0 <= digits / 2 <= 5).
  { split; [apply Z.div_pos; lia|].
    assert (digits / 2 < 6) by (apply Z.div_lt_upper_bound; lia). lia. }
  eexists. exists (Nat.max 1 (Z.to_nat (digits / 2))).
  split; [apply OsGridRef_stringN_in_grid; assumption|].
  split; [lia|]. split; [reflexivity|].
  cbv zeta. apply ParseOsGridRef_spaces.
  do 2 apply strings_ReplaceAll_space_cons.
  apply strings_ReplaceAll_space_sep.
Qed.

(** Writing a reference with [stringN] and reading the text back. *)
Lemma stringN_then_parse (o : OsGridRef) (digits : Z) (spaces : bool) :
  OsGridRef_Valid o = true -> 0 <= digits <= 11 ->
  Northing o < 1000000 \/ 500000 <= Easting o ->
  let unit := 10 ^ (5 - digits / 2) in
  exists s : string,
    OsGridRef_stringN o digits spaces = Done s
    /\ ParseOsGridRef s
       = (mkOsGridRef (Easting o - Easting o mod unit) (Northing o - Northing o mod unit),
          None).
Proof.
  intros Hv Hd Hreg unit.
  destruct (ParseOsGridRef_stringN o digits spaces Hv Hd) as (s & K & Hs & HK & HKd & Hp).
  exists s. split; [assumption|]. rewrite Hp. clear Hp Hs.
  destruct (in_grid_squares o Hv) as [He Hn].
  destruct (square_letters _ _ He Hn) as (U1 & U2 & I1 & I2 & Hback & _).
  destruct Hback as (Hrange & Hsqe & Hsqn).
  { pose proof (OsGridRef_Valid_bounds o Hv) as [HE HN].
    destruct Hreg as [Hreg | Hreg].
    - left. apply Z.div_lt_upper_bound; lia.
    - right. apply Z.div_le_lower_bound; lia. }
  rewrite ParseOsGridRef_pair by assumption.
  cbv zeta. rewrite I1, I2, Hrange, Hsqe, Hsqn. cbn [orb].
  pose proof (OsGridRef_Valid_bounds o Hv) as [HE HN].
  assert (Hw : 0 <= digits / 2 <= 5).
  { split; [apply Z.div_pos; lia|].
    assert (digits / 2 < 6) by (apply Z.div_lt_upper_bound; lia). lia. }
  assert (Hu : unit = 10 ^ (5 - Z.of_nat (Z.to_nat (digits / 2)))).
  { unfold unit. now rewrite Z2Nat.id by lia. }
  subst K. fold unit. rewrite Hu.
  rewrite !truncation_arith by lia.
  reflexivity.
Qed.

(** X1: a reference in the grid, south of 1000 km or east of 500 km, comes
    back from its own text: [ParseOsGridRef] applied to what [stringN] writes
    with [digits] from 0 to 11, with or without spaces, gives the reference
    with both coordinates truncated to a multiple of [10^(5 - digits/2)]
    metres -- the reference itself for 10 or 11 digits. *)
Theorem OsGridRef_stringN_round_trip (o : OsGridRef) (digits : Z) (spaces : bool) :
  OsGridRef_Valid o = true -> 0 <= digits <= 11 ->
  Northing o < 1000000 \/ 500000 <= Easting o ->
  let unit := 10 ^ (5 - digits / 2) in
  exists s : string,
    OsGridRef_stringN o digits spaces = Done s
    /\ ParseOsGridRef s
       = (mkOsGridRef (Easting o - Easting o mod unit) (Northing o - Northing o mod unit),
          None).
Proof. exact (stringN_then_parse o digits spaces). Qed.

(** X2: [String] writes eight digits: for a reference in the grid, south of
    1000 km or east of 500 km, the text has twelve bytes and
    [ParseOsGridRef] reads it back as the reference with both coordinates
    truncated to a multiple of 10 metres. *)
Theorem OsGridRef_String_round_trip (o : OsGridRef) :
  OsGridRef_Valid o = true ->
  Northing o < 1000000 \/ 500000 <= Easting o ->
  exists s : string,
    OsGridRef_String o = Done s
    /\ String.length s = 12%nat
    /\ ParseOsGridRef s
       = (mkOsGridRef (Easting o - Easting o mod 10) (Northing o - Northing o mod 10),
          None).
Proof.
  intros Hv Hreg.
  destruct (stringN_then_parse o 8 true Hv ltac:(lia) Hreg) as (s & Hs & Hp).
  exists s. split; [exact Hs|]. split; [|exact Hp].
  clear Hp.
  rewrite OsGridRef_stringN_in_grid in Hs by (assumption || lia).
  injection Hs as <-.
  cbv zeta. cbn [String.length append].
  rewrite ?string_length_append, ?length_decimal_digits.
  reflexivity.
Qed.

(** X3: a reference in the grid at or beyond 1000 km north and west of
    500 km east is written with the first letter H, and [ParseOsGridRef]
    rejects what [stringN] writes for it, whatever the number of digits from
    0 to 11. *)
Theorem OsGridRef_stringN_northern_rejected (o : OsGridRef) (digits : Z) (spaces : bool) :
  OsGridRef_Valid o = true -> 0 <= digits <= 11 ->
  1000000 <= Northing o -> Easting o < 500000 ->
  exists (s : string) (msg : string),
    OsGridRef_stringN o digits spaces = Done s
    /\ String.get 0 s = Some "H"%char
    /\ ParseOsGridRef s = (zero_OsGridRef, Some (invalid_grid_reference msg)).
Proof.
  intros Hv Hd HN HE.
  destruct (ParseOsGridRef_stringN o digits spaces Hv Hd) as (s & K & Hs & HK & HKd & Hp).
  destruct (in_grid_squares o Hv) as [He Hn].
  destruct (square_letters _ _ He Hn) as (U1 & U2 & I1 & I2 & _ & HH).
  assert (Hc1 : square_letter1 (Easting o / 100000) (Northing o / 100000) = "H"%char).
  { pose proof (OsGridRef_Valid_bounds o Hv) as [HE' HN'].
    apply HH.
    - apply Z.div_le_lower_bound; lia.
    - apply Z.div_lt_upper_bound; lia. }
  exists s. eexists. split; [assumption|]. split.
  - rewrite OsGridRef_stringN_in_grid in Hs by assumption.
    injection Hs as <-. cbn [String.get]. now rewrite Hc1.
  - rewrite Hp. cbv zeta. rewrite ParseOsGridRef_pair by assumption.
    cbv zeta. rewrite I1, I2, Hc1. reflexivity.
Qed.

Lemma even_halves (ds : string) :
  let half := Nat.div2 (String.length ds) in
  (String.length (string_take half ds) =? String.length (string_drop half ds))%nat
  = Nat.even (String.length ds).
Proof.
  cbv zeta. rewrite string_length_take, string_length_drop.
  set (n := String.length ds).
  pose proof (Nat.div2_odd n) as H.
  rewrite <- Nat.negb_odd.
  destruct (Nat.odd n); cbn [Nat.b2n negb] in *.
  - apply Nat.eqb_neq. lia.
  - apply Nat.eqb_eq. lia.
Qed.

Lemma letter_index_upper (c : ascii) :
  is_upper c = true ->
  letter_index c = if byte_value c <? 73 then byte_value c - 65 else byte_value c - 66.
Proof.
  unfold is_upper, letter_index. intros H. apply andb_prop in H as [H1 H2].
  apply Z.leb_le in H1, H2. cbv zeta.
  rewrite byte_value_of_int, Z.mod_small by lia.
  destruct (7 <? byte_value c - 65) eqn:E7, (byte_value c <? 73) eqn:E;
    try apply Z.ltb_lt in E7; try apply Z.ltb_ge in E7;
    try apply Z.ltb_lt in E; try apply Z.ltb_ge in E; lia.
Qed.

(** X4: on two capital letters followed by digits, [ParseOsGridRef] succeeds
    exactly when the first letter is one of J to T, the second is not I and
    the number of digits is even. *)
Theorem ParseOsGridRef_letter_form (c1 c2 : ascii) (ds : string) :
  is_upper c1 = true -> is_upper c2 = true -> digit_string ds = true ->
  snd (ParseOsGridRef (String c1 (String c2 ds))) = None
  <-> (74 <= byte_value c1 <= 84 /\ c2 <> "I"%char
       /\ Nat.even (String.length ds) = true).
Proof.
  intros H1 H2 Hd.
  rewrite ParseOsGridRef_letters by assumption. cbv zeta.
  rewrite even_halves, (letter_index_upper c1 H1).
  assert (HI : byte_value "I" = 73) by reflexivity.
  destruct (Ascii.eqb_spec c1 "I") as [-> | N1].
  { cbn [orb snd]. split; [discriminate|]. rewrite HI. lia. }
  destruct (Ascii.eqb_spec c2 "I") as [-> | N2].
  { cbn [orb snd]. split; [discriminate|]. intros (_ & Hc & _). now elim Hc. }
  cbn [orb].
  assert (N1' : byte_value c1 <> 73).
  { intros E. apply N1, byte_value_inj. now rewrite HI. }
  destruct (byte_value c1 <? 73) eqn:E73;
    [apply Z.ltb_lt in E73 | apply Z.ltb_ge in E73].
  - replace (byte_value c1 - 65 <? 8) with true by (symmetry; apply Z.ltb_lt; lia).
    cbn [orb snd]. split; [discriminate|]. lia.
  - replace (byte_value c1 - 66 <? 8) with false by (symmetry; apply Z.ltb_ge; lia).
    cbn [orb].
    destruct (18 <? byte_value c1 - 66) eqn:E18;
      [apply Z.ltb_lt in E18 | apply Z.ltb_ge in E18].
    + cbn [snd]. split; [discriminate|]. lia.
    + destruct (Nat.even (String.length ds)); cbn [negb snd].
      * split; [|reflexivity]. intros _. repeat split; auto; lia.
      * split; [discriminate|]. intros (_ & _ & Hc). discriminate.
Qed.

End GridTextTheorems.

Section GridTextWitnesses.
Import Ascii.
Local Open Scope string_scope.
Local Open Scope Z_scope.

Lemma OsGridRef_stringN_round_trip_witness :
  OsGridRef_stringN (mkOsGridRef 651409 313177) 8 true = Done "TG 5140 1317"
  /\ ParseOsGridRef (GS := RefStrings) "TG 5140 1317" = (mkOsGridRef 651400 313170, None).
Proof.
  destruct (OsGridRef_stringN_round_trip (GS := RefStrings) (GSA := RefStrings_ASCII)
              (mkOsGridRef 651409 313177) 8 true) as (s & Hs & Hp).
  - reflexivity.
  - lia.
  - left. simpl. lia.
  - assert (E : s = "TG 5140 1317"%string).
    { vm_compute in Hs. now injection Hs as <-. }
    subst s. split; [reflexivity | exact Hp].
Defined.

Lemma OsGridRef_stringN_northern_rejected_witness :
  OsGridRef_stringN (mkOsGridRef 400000 1200000) 8 true = Done "HP 0000 0000"
  /\ ParseOsGridRef (GS := RefStrings) "HP 0000 0000"
     = (zero_OsGridRef, Some (invalid_grid_reference "HP00000000")).
Proof.
  destruct (OsGridRef_stringN_northern_rejected (GS := RefStrings) (GSA := RefStrings_ASCII)
              (mkOsGridRef 400000 1200000) 8 true) as (s & msg & Hs & _ & Hp).
  - reflexivity.
  - lia.
  - simpl. lia.
  - simpl. lia.
  - assert (E : s = "HP 0000 0000"%string).
    { vm_compute in Hs. now injection Hs as <-. }
    subst s. split; [reflexivity|].
    rewrite Hp. vm_compute in Hp. injection Hp as <-. reflexivity.
Defined.

Lemma ParseOsGridRef_letter_form_witness :
  snd (ParseOsGridRef (GS := RefStrings) "SJ9239552997") = None.
Proof.
  apply (ParseOsGridRef_letter_form (GS := RefStrings) (GSA := RefStrings_ASCII)
           "S"%char "J"%char "9239552997"); try reflexivity.
  repeat split; [vm_compute; discriminate | vm_compute; discriminate | discriminate].
Defined.

Lemma OsGridRef_String_round_trip_witness :
  OsGridRef_String sample_ref = Done "SJ 9239 5299"
  /\ ParseOsGridRef (GS := RefStrings) "SJ 9239 5299" = (mkOsGridRef 392390 352990, None).
Proof.
  destruct (OsGridRef_String_round_trip (GS := RefStrings) (GSA := RefStrings_ASCII)
              sample_ref) as (s & Hs & _ & Hp).
  - reflexivity.
  - left. simpl. lia.
  - assert (E : s = "SJ 9239 5299").
    { vm_compute in Hs. now injection Hs as <-. }
    subst s. split; [reflexivity | exact Hp].
Defined.

End GridTextWitnesses.

Section GridTextMore.
Import Ascii.
Context {GS : GoStrings} {GSA : GoStringsASCII GS}.
Local Open Scope string_scope.
Local Open Scope Z_scope.

(** A string of printable ASCII bytes other than space and the small
    letters is left as it is by the two normalising steps. *)
Lemma normalise_plain (s : string) :
  string_forallb (fun c => (33 <=? byte_value c) && (byte_value c <=? 96)) s = true ->
  strings_ToUpper (strings_ReplaceAll_space s) = s.
Proof.
  intros H.
  assert (Hb : forall c, (33 <=? byte_value c) && (byte_value c <=? 96) = true ->
                 33 <= byte_value c <= 96).
  { intros c Hc. apply andb_prop in Hc as [H1 H2]. apply Z.leb_le in H1, H2. lia. }
  rewrite strings_ReplaceAll_space_none.
  - rewrite ToUpper_ASCII.
    + apply string_map_upper_none.
      revert H. apply string_forallb_impl. intros c Hc. apply Hb in Hc.
      unfold is_lower. apply negb_true_iff, andb_false_intro1, Z.leb_gt. lia.
    + revert H. apply string_forallb_impl. intros c Hc. apply Hb in Hc.
      apply Z.ltb_lt. lia.
  - revert H. apply string_forallb_impl. intros c Hc. apply Hb in Hc.
    apply negb_true_iff, Ascii.eqb_neq. intros ->.
    change (byte_value " ") with 32 in Hc. lia.
Qed.

Lemma digit_is_plain (c : ascii) :
  is_digit c = true -> (33 <=? byte_value c) && (byte_value c <=? 96) = true.
Proof.
  unfold is_digit. intros H. apply andb_prop in H as [H1 H2].
  apply Z.leb_le in H1, H2. apply andb_true_intro. split; apply Z.leb_le; lia.
Qed.

Lemma span_digits_append (d : string) (c : ascii) (r : string) :
  string_forallb is_digit d = true -> is_digit c = false ->
  span_digits (d ++ String c r) = (d, String c r).
Proof.
  intros Hd Hc. induction d as [|a d IH].
  - simpl. now rewrite Hc.
  - cbn [string_forallb] in Hd. apply andb_prop in Hd as [Ha Hd].
    cbn [append span_digits]. rewrite Ha, (IH Hd). reflexivity.
Qed.

Lemma skip_regexp_space_digits (s : string) :
  digit_string s = true -> skip_regexp_space s = s.
Proof.
  unfold digit_string. destruct s as [|c r]; [discriminate|].
  cbn [string_forallb]. intros H. apply andb_prop in H as [_ H].
  apply andb_prop in H as [H _].
  cbn [skip_regexp_space].
  replace (is_regexp_space c) with false; [reflexivity|].
  unfold is_digit in H. apply andb_prop in H as [H1 H2]. apply Z.leb_le in H1, H2.
  unfold is_regexp_space. cbv zeta. symmetry.
  repeat (apply orb_false_intro); apply Z.eqb_neq; lia.
Qed.

(** [ParseOsGridRef] on two numerals separated by a comma. *)
Lemma ParseOsGridRef_numerals (e n : Z) :
  0 <= e -> 0 <= n ->
  ParseOsGridRef (decimal e ++ "," ++ decimal n) =
  let s := decimal e ++ "," ++ decimal n in
  if (2 ^ 128 <=? round_float32 e) || (2 ^ 128 <=? round_float32 n)
  then (zero_OsGridRef, Some (invalid_comma_separated_grid_ref_format s))
  else (mkOsGridRef (int_of_integral_float64 (round_float32 e))
                    (int_of_integral_float64 (round_float32 n)), None).
Proof.
  intros He Hn. unfold ParseOsGridRef.
  pose proof (decimal_is_digit_string e He) as De.
  pose proof (decimal_is_digit_string n Hn) as Dn.
  assert (De' := De). assert (Dn' := Dn).
  unfold digit_string in De', Dn'.
  apply andb_prop in De' as [_ De'], Dn' as [_ Dn'].
  rewrite normalise_plain.
  2:{ rewrite string_forallb_append. apply andb_true_intro. split.
      - revert De'. apply string_forallb_impl, digit_is_plain.
      - change ("," ++ decimal n) with (String "," (decimal n)).
        cbn [string_forallb]. apply andb_true_intro. split; [reflexivity|].
        revert Dn'. apply string_forallb_impl, digit_is_plain. }
  cbv zeta. unfold commaSeparatedFormat.
  change ("," ++ decimal n) with (String "," (decimal n)).
  rewrite span_digits_append by (auto; reflexivity).
  rewrite skip_regexp_space_digits by assumption.
  rewrite De, Dn. change ("," =? ",")%char with true. cbn [andb].
  unfold strconv_ParseFloat_32.
  rewrite !decimal_value_decimal by assumption.
  reflexivity.
Qed.

Lemma OsGridRef_NumericString_nonneg (e n : Z) :
  0 <= e -> 0 <= n ->
  OsGridRef_NumericString (mkOsGridRef e n) = decimal e ++ "," ++ decimal n.
Proof.
  intros He Hn. unfold OsGridRef_NumericString, fmt_d. cbn [Easting Northing].
  replace (e <? 0) with false by (symmetry; apply Z.ltb_ge; lia).
  replace (n <? 0) with false by (symmetry; apply Z.ltb_ge; lia).
  reflexivity.
Qed.

Lemma float32_exact (v : Z) :
  0 <= v < 2 ^ 24 ->
  round_float32 v = v /\ (2 ^ 128 <=? v) = false /\ int_of_integral_float64 v = v.
Proof.
  intros Hv. unfold round_float32, int_of_integral_float64.
  replace (v <? 2 ^ 24) with true by (symmetry; apply Z.ltb_lt; lia).
  replace (v <? 2 ^ 63) with true by (symmetry; apply Z.ltb_lt; lia).
  repeat split. apply Z.leb_gt. lia.
Qed.

(** X7: [ParseOsGridRef] reads back what [NumericString] writes, for
    coordinates from 0 up to (but not including) 2^24 metres, which covers
    every reference in the grid: the numbers go through a [float32], which
    holds these exactly. *)
Theorem OsGridRef_NumericString_round_trip (o : OsGridRef) :
  0 <= Easting o < 2 ^ 24 -> 0 <= Northing o < 2 ^ 24 ->
  ParseOsGridRef (OsGridRef_NumericString o) = (o, None).
Proof.
  destruct o as [e n]. cbn [Easting Northing]. intros He Hn.
  rewrite OsGridRef_NumericString_nonneg, ParseOsGridRef_numerals by lia. cbv zeta.
  destruct (float32_exact e He) as (-> & -> & ->).
  destruct (float32_exact n Hn) as (-> & -> & ->).
  reflexivity.
Qed.

(** Beyond 2^24 the [float32] shows: 16777217 comes back as 16777216. *)
Lemma OsGridRef_NumericString_float32 (n : Z) :
  0 <= n < 2 ^ 24 ->
  ParseOsGridRef (OsGridRef_NumericString (mkOsGridRef 16777217 n))
  = (mkOsGridRef 16777216 n, None).
Proof.
  intros Hn.
  rewrite OsGridRef_NumericString_nonneg, ParseOsGridRef_numerals by lia. cbv zeta.
  destruct (float32_exact n Hn) as (-> & -> & ->).
  reflexivity.
Qed.

Lemma decimal_value_from_nonneg (s : string) (a : Z) :
  string_forallb is_digit s = true -> 0 <= a -> 0 <= decimal_value_from a s.
Proof.
  revert a. induction s as [|c r IH]; intros a Hs Ha; [assumption|].
  cbn [string_forallb] in Hs. apply andb_prop in Hs as [Hc Hr].
  cbn [decimal_value_from]. apply IH; [assumption|].
  unfold is_digit in Hc. apply andb_prop in Hc as [H1 H2]. apply Z.leb_le in H1, H2.
  lia.
Qed.

Lemma string_forallb_take (p : ascii -> bool) (n : nat) (s : string) :
  string_forallb p s = true -> string_forallb p (string_take n s) = true.
Proof.
  revert s. induction n; intros s H; [destruct s; reflexivity|].
  destruct s as [|c r]; [reflexivity|].
  cbn [string_forallb] in H. apply andb_prop in H as [Hc Hr].
  cbn [string_take string_forallb]. now rewrite Hc, IHn.
Qed.

Lemma upper_range (c : ascii) : is_upper c = true <-> 65 <= byte_value c <= 90.
Proof.
  unfold is_upper. rewrite andb_true_iff, !Z.leb_le. tauto.
Qed.

(** Two accepted letters followed by two groups of the same number of
    digits, five or more: the first five digits of each group count. *)
Lemma ParseOsGridRef_groups (c1 c2 : ascii) (e n : string) :
  is_upper c1 = true -> is_upper c2 = true ->
  Ascii.eqb c1 "I" = false -> Ascii.eqb c2 "I" = false ->
  (letter_index c1 <? 8) || (18 <? letter_index c1) = false ->
  string_forallb is_digit e = true -> string_forallb is_digit n = true ->
  String.length e = String.length n -> (5 <= String.length e)%nat ->
  ParseOsGridRef (String c1 (String c2 (e ++ n)))
  = (mkOsGridRef (square_e100km c1 c2 * 100000 + decimal_value (string_take 5 e))
                 (square_n100km c1 c2 * 100000 + decimal_value (string_take 5 n)),
     None).
Proof.
  intros U1 U2 I1 I2 Hr He Hn Hlen H5.
  assert (Hds : digit_string (e ++ n) = true).
  { unfold digit_string. rewrite string_forallb_append, He, Hn.
    destruct e; [simpl in H5; lia | reflexivity]. }
  rewrite ParseOsGridRef_letters by assumption. cbv zeta.
  rewrite even_halves, I1, I2, Hr.
  rewrite string_length_append, <- Hlen, div2_double.
  replace (Nat.even (String.length e + String.length e)) with true.
  2:{ symmetry. apply Nat.even_spec. exists (String.length e). lia. }
  cbn [orb negb].
  rewrite string_take_append.
  rewrite string_drop_append.
  rewrite !string_take_take_append by lia.
  reflexivity.
Qed.

(** X5: of two groups of five or more digits, [ParseOsGridRef] reads the
    first five of each and ignores the rest: after an accepted pair of
    letters the result is the corner of their 100 km square plus the values
    of those five digits. *)
Theorem ParseOsGridRef_extra_digits (c1 c2 : ascii) (e n : string) :
  74 <= byte_value c1 <= 84 -> is_upper c2 = true -> c2 <> "I"%char ->
  string_forallb is_digit e = true -> string_forallb is_digit n = true ->
  String.length e = String.length n -> (5 <= String.length e)%nat ->
  ParseOsGridRef (String c1 (String c2 (e ++ n)))
  = (mkOsGridRef (square_e100km c1 c2 * 100000 + decimal_value (string_take 5 e))
                 (square_n100km c1 c2 * 100000 + decimal_value (string_take 5 n)),
     None).
Proof.
  intros H1 H2 N2 He Hn Hlen H5.
  assert (U1 : is_upper c1 = true) by (apply upper_range; lia).
  apply ParseOsGridRef_groups; try assumption.
  - apply Ascii.eqb_neq. intros ->. change (byte_value "I") with 73 in H1. lia.
  - now apply Ascii.eqb_neq.
  - rewrite (letter_index_upper c1 U1).
    replace (byte_value c1 <? 73) with false by (symmetry; apply Z.ltb_ge; lia).
    apply orb_false_intro; apply Z.ltb_ge; lia.
Qed.

Lemma string_take_decimal_digits (n m : nat) (v : Z) :
  string_take n (decimal_digits (n + m) v) = decimal_digits n (v / 10 ^ Z.of_nat m).
Proof.
  revert v. induction m; intros v.
  - rewrite Nat.add_0_r. change (10 ^ Z.of_nat 0) with 1. rewrite Z.div_1_r.
    rewrite <- (length_decimal_digits n v) at 1.
    rewrite <- (string_append_nil_r (decimal_digits n v)) at 2.
    apply string_take_append.
  - rewrite Nat.add_succ_r. cbn [decimal_digits].
    rewrite string_take_take_append by (rewrite length_decimal_digits; lia).
    rewrite IHm, Nat2Z.inj_succ, Z.pow_succ_r by lia.
    rewrite Z.div_div by (try apply Z.pow_pos_nonneg; lia).
    reflexivity.
Qed.

(** X6: with more than 11 digits [stringN] pads each group with zeros on the
    left, and [ParseOsGridRef] reads the first five digits of each group: a
    reference in the grid, south of 1000 km or east of 500 km, written with
    [digits] from 12 to two million comes back with the metres inside its
    100 km square divided by [10^(digits/2 - 5)]. *)
Theorem OsGridRef_stringN_long (o : OsGridRef) (digits : Z) (spaces : bool) :
  OsGridRef_Valid o = true -> 12 <= digits <= 2000001 ->
  Northing o < 1000000 \/ 500000 <= Easting o ->
  let shift := 10 ^ (digits / 2 - 5) in
  exists s : string,
    OsGridRef_stringN o digits spaces = Done s
    /\ ParseOsGridRef s
       = (mkOsGridRef (Easting o / 100000 * 100000 + Easting o mod 100000 / shift)
                      (Northing o / 100000 * 100000 + Northing o mod 100000 / shift),
          None).
Proof.
  intros Hv Hd Hreg shift.
  pose proof (OsGridRef_Valid_bounds o Hv) as [HE HN].
  destruct (in_grid_squares o Hv) as [He Hn].
  destruct (square_letters _ _ He Hn) as (U1 & U2 & I1 & I2 & Hback & _).
  destruct Hback as (Hrange & Hsqe & Hsqn).
  { destruct Hreg as [Hreg | Hreg].
    - left. apply Z.div_lt_upper_bound; lia.
    - right. apply Z.div_le_lower_bound; lia. }
  assert (Hw : 6 <= digits / 2 <= 1000000).
  { split; [apply Z.div_le_lower_bound; lia|].
    assert (digits / 2 < 1000001) by (apply Z.div_lt_upper_bound; lia). lia. }
  set (W := Z.to_nat (digits / 2)).
  assert (HW : Z.of_nat W = digits / 2) by (unfold W; lia).
  pose proof (Z.mod_pos_bound (Easting o) 100000 ltac:(lia)) as HEr.
  pose proof (Z.mod_pos_bound (Northing o) 100000 ltac:(lia)) as HNr.
  assert (Hfmt : forall r, 0 <= r < 100000 ->
            fmt_0star_d (digits / 2) r = decimal_digits W r).
  { intros r Hr. unfold fmt_0star_d.
    replace (digits / 2 <? -1000000) with false by (symmetry; apply Z.ltb_ge; lia).
    replace (1000000 <? digits / 2) with false by (symmetry; apply Z.ltb_ge; lia).
    replace (digits / 2 <? 0) with false by (symmetry; apply Z.ltb_ge; lia).
    replace (r <? 0) with false by (symmetry; apply Z.ltb_ge; lia).
    cbn [orb]. rewrite <- HW. apply pad_zeros_decimal; [lia|].
    split; [lia|].
    apply Z.lt_le_trans with (10 ^ 5); [lia|].
    apply Z.pow_le_mono_r; lia. }
  assert (Hs : OsGridRef_stringN o digits spaces
               = Done (String (square_letter1 (Easting o / 100000) (Northing o / 100000))
                         (String (square_letter2 (Easting o / 100000) (Northing o / 100000))
                            ((if spaces then " " else "")
                             ++ decimal_digits W (Easting o mod 100000)
                             ++ (if spaces then " " else "")
                             ++ decimal_digits W (Northing o mod 100000))))).
  { unfold OsGridRef_stringN. cbv zeta.
    rewrite (Z.quot_div_nonneg (Easting o) 100000),
      (Z.quot_div_nonneg (Northing o) 100000),
      (Z.rem_mod_nonneg (Easting o) 100000),
      (Z.rem_mod_nonneg (Northing o) 100000),
      (Z.quot_div_nonneg digits 2) by lia.
    rewrite stringN_pow_nonpos by lia. cbn [Z.eqb].
    rewrite !Z.quot_1_r, !Hfmt by assumption.
    unfold square_letter1, square_letter2.
    destruct spaces; reflexivity. }
  eexists. split; [exact Hs|].
  rewrite (ParseOsGridRef_spaces _
             (String (square_letter1 (Easting o / 100000) (Northing o / 100000))
                (String (square_letter2 (Easting o / 100000) (Northing o / 100000))
                   (decimal_digits W (Easting o mod 100000)
                    ++ decimal_digits W (Northing o mod 100000))))).
  2:{ do 2 apply strings_ReplaceAll_space_cons. apply strings_ReplaceAll_space_sep. }
  rewrite ParseOsGridRef_groups;
    try assumption; try apply decimal_digits_are_digits;
    rewrite ?length_decimal_digits; try reflexivity; try lia.
  rewrite Hsqe, Hsqn.
  replace W with (5 + (W - 5))%nat by lia.
  rewrite !string_take_decimal_digits.
  unfold decimal_value. rewrite !decimal_value_from_digits.
  replace (Z.of_nat (W - 5)) with (digits / 2 - 5) by lia. fold shift.
  assert (Hsh : 0 < shift) by (apply Z.pow_pos_nonneg; lia).
  assert (Hq : forall r, 0 <= r < 100000 -> (r / shift) mod 10 ^ Z.of_nat 5 = r / shift).
  { intros r Hr. apply Z.mod_small. split; [apply Z.div_pos; lia|].
    apply Z.le_lt_trans with r; [|change (10 ^ Z.of_nat 5) with 100000; lia].
    apply Z.div_le_upper_bound; [lia|]. nia. }
  rewrite !Hq by assumption.
  f_equal.
Qed.

End GridTextMore.

Section GridTextMoreWitnesses.
Import Ascii.
Local Open Scope string_scope.
Local Open Scope Z_scope.

Lemma OsGridRef_NumericString_round_trip_witness :
  OsGridRef_NumericString sample_ref = "392395,352997"
  /\ ParseOsGridRef (GS := RefStrings) "392395,352997" = (sample_ref, None).
Proof.
  split; [reflexivity|].
  apply (OsGridRef_NumericString_round_trip (GS := RefStrings) (GSA := RefStrings_ASCII)
           sample_ref); simpl; lia.
Defined.

Lemma ParseOsGridRef_extra_digits_witness :
  ParseOsGridRef (GS := RefStrings) "TG514091131772" = (mkOsGridRef 651409 313177, None).
Proof.
  apply (ParseOsGridRef_extra_digits (GS := RefStrings) (GSA := RefStrings_ASCII)
           "T"%char "G"%char "514091" "131772");
    try reflexivity; try discriminate.
  - vm_compute. split; discriminate.
  - simpl. lia.
Defined.

Lemma OsGridRef_stringN_long_witness :
  OsGridRef_stringN (mkOsGridRef 651409 313177) 12 true = Done "TG 051409 013177"
  /\ ParseOsGridRef (GS := RefStrings) "TG 051409 013177"
     = (mkOsGridRef 605140 301317, None).
Proof.
  destruct (OsGridRef_stringN_long (GS := RefStrings) (GSA := RefStrings_ASCII)
              (mkOsGridRef 651409 313177) 12 true) as (s & Hs & Hp).
  - reflexivity.
  - lia.
  - left. simpl. lia.
  - assert (E : s = "TG 051409 013177").
    { vm_compute in Hs. now injection Hs as <-. }
    subst s. split; [reflexivity | exact Hp].
Defined.

End GridTextMoreWitnesses.

Section GridFormatTheorems.
Import Ascii.
Local Open Scope string_scope.
Local Open Scope Z_scope.

Lemma stringN_pow_ten (n : Z) : 64 <= n -> stringN_pow n = 0.
Proof.
  intros H. unfold stringN_pow.
  destruct (Z.eq_dec n 64) as [-> | Hne]; [reflexivity|].
  replace n with (Z.pos (Z.to_pos (n - 64) + 64)) by lia.
  cbn [Z.iter]. rewrite Pos.iter_add.
  change (Pos.iter (fun ret => wrap_int (ret * 10)) 1 64) with 0.
  apply Pos.iter_invariant; [|reflexivity].
  intros x ->. reflexivity.
Qed.

Lemma stringN_pow_below (n : Z) : n < 64 -> stringN_pow n <> 0.
Proof.
  intros H. destruct (Z_le_gt_dec n 0) as [Hle | Hgt].
  - rewrite stringN_pow_nonpos by assumption. discriminate.
  - assert (Hall : forallb (fun k => negb (stringN_pow (Z.of_nat k) =? 0)) (seq 1 63)
                   = true) by (vm_compute; reflexivity).
    rewrite forallb_forall in Hall.
    specialize (Hall (Z.to_nat n)).
    rewrite Z2Nat.id in Hall by lia.
    apply Z.eqb_neq, negb_true_iff, Hall, in_seq. lia.
Qed.

(** X8: [stringN] panics with an integer division by zero exactly when
    [digits <= -118] (the local [pow] is then asked for a power of ten from
    10^64 on, which is 0 in 64 bits), whatever the reference and the spacing;
    for every other [digits] it returns a string. *)
Theorem OsGridRef_stringN_panics (o : OsGridRef) (digits : Z) (spaces : bool) :
  (OsGridRef_stringN o digits spaces = Panic integer_divide_by_zero <-> digits <= -118)
  /\ ((exists s, OsGridRef_stringN o digits spaces = Done s) <-> -118 < digits).
Proof.
  assert (Hq : Z.quot digits 2 <= -59 <-> digits <= -118).
  { pose proof (Z.quot_rem' digits 2) as Hqr.
    pose proof (Z.rem_bound_abs digits 2 ltac:(lia)) as Hr.
    assert (Z.abs (Z.rem digits 2) < 2) by lia.
    destruct (Z_le_gt_dec 0 digits) as [Hs | Hs].
    - pose proof (Z.quot_pos digits 2 Hs ltac:(lia)). lia.
    - pose proof (Z.rem_nonpos digits 2 ltac:(lia) ltac:(lia)). lia. }
  unfold OsGridRef_stringN. cbv zeta.
  destruct (Z_le_gt_dec digits (-118)) as [Hd | Hd].
  - rewrite stringN_pow_ten by lia. cbn [Z.eqb].
    split; [tauto|]. split; [intros [s Hs]; discriminate | lia].
  - pose proof (stringN_pow_below (5 - Z.quot digits 2) ltac:(lia)) as Hp.
    apply Z.eqb_neq in Hp. rewrite Hp.
    split; [split; [discriminate | lia]|].
    split; [lia|]. intros _. eexists. reflexivity.
Qed.

End GridFormatTheorems.

Section NegativeNumerals.
Import Ascii.
Context {GS : GoStrings} {GSA : GoStringsASCII GS}.
Local Open Scope string_scope.
Local Open Scope Z_scope.

Lemma fmt_d_plain (v : Z) :
  string_forallb (fun c => (33 <=? byte_value c) && (byte_value c <=? 96)) (fmt_d v)
  = true.
Proof.
  assert (Hdec : forall u, string_forallb
                   (fun c => (33 <=? byte_value c) && (byte_value c <=? 96)) (decimal u)
                 = true).
  { intros u. unfold decimal.
    apply (string_forallb_impl is_digit); [apply digit_is_plain|].
    apply decimal_digits_are_digits. }
  unfold fmt_d. destruct (v <? 0).
  - change ("-" ++ decimal (- v)) with (String "-" (decimal (- v))).
    cbn [string_forallb]. now rewrite Hdec.
  - apply Hdec.
Qed.

(** Without a match of either format the result is the format error. *)
Lemma ParseOsGridRef_no_format (s : string) :
  strings_ToUpper (strings_ReplaceAll_space s) = s ->
  commaSeparatedFormat s = None -> gridRefFormat s = false ->
  ParseOsGridRef s = (zero_OsGridRef, Some (invalid_grid_ref_format s)).
Proof.
  intros Hn Hc Hg. unfold ParseOsGridRef. rewrite Hn. cbv zeta. rewrite Hc.
  destruct s as [|s0 [|s1 ds]]; try reflexivity.
  rewrite Hg. reflexivity.
Qed.

(** X18: a negative coordinate does not come back: for every reference
    with a negative easting or northing, [ParseOsGridRef] rejects what
    [NumericString] writes, with the format error and the zero reference. *)
Theorem OsGridRef_NumericString_negative (o : OsGridRef) :
  Easting o < 0 \/ Northing o < 0 ->
  ParseOsGridRef (OsGridRef_NumericString o)
  = (zero_OsGridRef, Some (invalid_grid_ref_format (OsGridRef_NumericString o))).
Proof.
  intros Hneg. apply ParseOsGridRef_no_format.
  - apply normalise_plain. unfold OsGridRef_NumericString.
    rewrite string_forallb_append, fmt_d_plain.
    change ("," ++ fmt_d (Northing o)) with (String "," (fmt_d (Northing o))).
    cbn [string_forallb]. now rewrite fmt_d_plain.
  - unfold OsGridRef_NumericString, commaSeparatedFormat.
    change ("," ++ fmt_d (Northing o)) with (String "," (fmt_d (Northing o))).
    unfold fmt_d at 1. destruct (Easting o <? 0) eqn:E.
    + change ("-" ++ decimal (- Easting o)) with (String "-" (decimal (- Easting o))).
      cbn [append span_digits]. change (is_digit "-") with false. cbv iota.
      reflexivity.
    + apply Z.ltb_ge in E.
      assert (HN : Northing o < 0) by lia.
      pose proof (decimal_is_digit_string (Easting o) E) as De.
      assert (De' := De). unfold digit_string in De'.
      apply andb_prop in De' as [_ De'].
      rewrite span_digits_append by (auto; reflexivity).
      unfold fmt_d. replace (Northing o <? 0) with true by (symmetry; apply Z.ltb_lt; lia).
      change ("-" ++ decimal (- Northing o)) with (String "-" (decimal (- Northing o))).
      cbn [skip_regexp_space]. change (is_regexp_space "-") with false. cbv iota.
      replace (digit_string (String "-" (decimal (- Northing o)))) with false
        by reflexivity.
      now rewrite andb_false_r.
  - assert (Hhead : exists c t, OsGridRef_NumericString o = String c t
                                /\ is_upper c = false).
    { unfold OsGridRef_NumericString, fmt_d at 1.
      destruct (Easting o <? 0) eqn:E.
      - exists "-"%char. eexists. split; reflexivity.
      - apply Z.ltb_ge in E.
        pose proof (decimal_is_digit_string (Easting o) E) as De.
        unfold digit_string in De.
        destruct (decimal (Easting o)) as [|c t]; [discriminate De|].
        cbn [string_forallb negb andb String.eqb] in De.
        apply andb_prop in De as [Hc _].
        exists c. eexists. split; [reflexivity|].
        unfold is_digit in Hc. apply andb_prop in Hc as [_ Hc]. apply Z.leb_le in Hc.
        unfold is_upper. apply andb_false_intro1, Z.leb_gt. lia. }
    destruct Hhead as (c & t & -> & Hc).
    unfold gridRefFormat. destruct t; [reflexivity|]. now rewrite Hc.
Qed.

End NegativeNumerals.

Section NegativeNumeralsWitness.
Import Ascii.
Local Open Scope string_scope.
Local Open Scope Z_scope.

Lemma OsGridRef_NumericString_negative_witness :
  OsGridRef_NumericString (mkOsGridRef (-1) 0) = "-1,0"
  /\ ParseOsGridRef (GS := RefStrings) "-1,0"
     = (zero_OsGridRef, Some (invalid_grid_ref_format "-1,0")).
Proof.
  split; [reflexivity|].
  apply (OsGridRef_NumericString_negative (GS := RefStrings) (GSA := RefStrings_ASCII)
           (mkOsGridRef (-1) 0)).
  left. simpl. lia.
Defined.

End NegativeNumeralsWitness.

Section OutsideGrid.
Import Ascii.
Context {GS : GoStrings} {GSA : GoStringsASCII GS}.
Local Open Scope string_scope.
Local Open Scope Z_scope.

Lemma letter_index_nonneg (c : ascii) : 0 <= letter_index c.
Proof.
  unfold letter_index. cbv zeta.
  pose proof (byte_value_range (byte_of_int (byte_value c - 65))).
  destruct (7 <? _) eqn:E; [apply Z.ltb_lt in E|]; lia.
Qed.

(** X9: [ParseOsGridRef] makes no check against the extent of the grid.
    With K, L, M, P, Q or R as first letter, any second letter but I and an
    even number of digits it succeeds, and the reference it returns has an
    easting of 1000 km or more: [Valid] is false of it and [assertValid]
    panics. *)
Theorem ParseOsGridRef_outside_grid (c1 c2 : ascii) (ds : string) :
  c1 = "K"%char \/ c1 = "L"%char \/ c1 = "M"%char
  \/ c1 = "P"%char \/ c1 = "Q"%char \/ c1 = "R"%char ->
  is_upper c2 = true -> c2 <> "I"%char ->
  digit_string ds = true -> Nat.even (String.length ds) = true ->
  exists o : OsGridRef,
    ParseOsGridRef (String c1 (String c2 ds)) = (o, None)
    /\ 1000000 <= Easting o
    /\ OsGridRef_Valid o = false
    /\ OsGridRef_assertValid o = Panic (Invalid_OS_grid_ref o).
Proof.
  intros Hc1 U2 N2 Hd Hev.
  assert (U1 : is_upper c1 = true).
  { destruct Hc1 as [-> | [-> | [-> | [-> | [-> | ->]]]]]; reflexivity. }
  assert (Hsq : 10 <= square_e100km c1 c2).
  { unfold square_e100km.
    pose proof (letter_index_nonneg c2) as H2.
    pose proof (Z.rem_nonneg (letter_index c2) 5 ltac:(lia) H2) as Hr.
    assert (Hl : 2 <= Z.rem (letter_index c1 - 2) 5).
    { destruct Hc1 as [-> | [-> | [-> | [-> | [-> | ->]]]]]; vm_compute; discriminate. }
    lia. }
  eexists. split.
  - rewrite ParseOsGridRef_letters by assumption. cbv zeta.
    rewrite even_halves, Hev.
    replace (Ascii.eqb c1 "I") with false
      by (destruct Hc1 as [-> | [-> | [-> | [-> | [-> | ->]]]]]; reflexivity).
    replace (Ascii.eqb c2 "I") with false by (symmetry; now apply Ascii.eqb_neq).
    replace ((letter_index c1 <? 8) || (18 <? letter_index c1)) with false
      by (destruct Hc1 as [-> | [-> | [-> | [-> | [-> | ->]]]]]; reflexivity).
    cbn [orb negb]. reflexivity.
  - cbn [Easting].
    assert (Hval : 0 <= decimal_value
                     (string_take 5
                        (string_take (Nat.div2 (String.length ds)) ds ++ "00000"))).
    { apply decimal_value_from_nonneg; [|lia].
      apply string_forallb_take. rewrite string_forallb_append.
      unfold digit_string in Hd. apply andb_prop in Hd as [_ Hd].
      now rewrite (string_forallb_take _ _ _ Hd). }
    assert (HE : 1000000 <= square_e100km c1 c2 * 100000
                  + decimal_value
                      (string_take 5
                         (string_take (Nat.div2 (String.length ds)) ds ++ "00000")))
      by lia.
    split; [exact HE|].
    assert (Hf : forall o, 1000000 <= Easting o -> OsGridRef_Valid o = false).
    { intros o Ho. unfold OsGridRef_Valid.
      replace (Easting o <=? 700000) with false by (symmetry; apply Z.leb_gt; lia).
      now rewrite andb_false_r. }
    split.
    + apply Hf. exact HE.
    + unfold OsGridRef_assertValid. rewrite Hf by exact HE. reflexivity.
Qed.

End OutsideGrid.

Section OutsideGridWitness.
Import Ascii.
Local Open Scope string_scope.
Local Open Scope Z_scope.

Lemma ParseOsGridRef_outside_grid_witness :
  ParseOsGridRef (GS := RefStrings) "KA0000" = (mkOsGridRef 1000000 1400000, None)
  /\ OsGridRef_Valid (mkOsGridRef 1000000 1400000) = false.
Proof.
  destruct (ParseOsGridRef_outside_grid (GS := RefStrings) (GSA := RefStrings_ASCII)
              "K"%char "A"%char "0000") as (o & Hp & _ & Hv & _).
  - left. reflexivity.
  - reflexivity.
  - discriminate.
  - reflexivity.
  - reflexivity.
  - assert (E : o = mkOsGridRef 1000000 1400000).
    { vm_compute in Hp. now injection Hp as <-. }
    subst o. split; [exact Hp | exact Hv].
Defined.

End OutsideGridWitness.

(** ** Points in the equatorial plane *)

Section EquatorialPlane.
Context {M : GoMath}.

Lemma mul_by_zero_class (b z : float) :
  (z =? 0) = true -> zero_or_nan (Prim2SF (b * z)) = true.
Proof.
  intros H. destruct (eqb_zero_class z H) as [s Hs].
  rewrite mul_spec, Hs. destruct (Prim2SF b); reflexivity.
Qed.

Lemma div_zero_class (u v : float) :
  zero_or_nan (Prim2SF u) = true -> zero_or_nan (Prim2SF (u / v)) = true.
Proof.
  rewrite div_spec.
  destruct (Prim2SF u); try discriminate; intros _;
    destruct (Prim2SF v); reflexivity.
Qed.

Lemma mul_zero_l_class (u k : float) :
  zero_or_nan (Prim2SF u) = true -> zero_or_nan (Prim2SF (u * k)) = true.
Proof.
  rewrite mul_spec.
  destruct (Prim2SF u); try discriminate; intros _;
    destruct (Prim2SF k); reflexivity.
Qed.

(** With a zero (or NaN) [tanβ], [sinβ] is a zero (or NaN) and
    [cosβ = sinβ / tanβ] is [0/0], a NaN. *)
Lemma cos_of_zero_tan (t : float) :
  zero_or_nan (Prim2SF t) = true ->
  Prim2SF (t / math_Sqrt (1 + t * t) / t) = S754_nan.
Proof.
  intros H. unfold math_Sqrt.
  rewrite div_spec, div_spec, sqrt_spec, add_spec, mul_spec, Prim2SF_one.
  destruct (Prim2SF t) as [s | s | | s m e]; try discriminate.
  - destruct s; reflexivity.
  - reflexivity.
Qed.

(** X10: for a Cartesian point in the equatorial plane ([Z] a zero of either
    sign) [tanβ] is a zero or a NaN, [cosβ] is NaN and the guard
    [!math.IsNaN(cosβ)] leaves [φ] at 0: [Cartesian.ToLatLon] returns the
    latitude 0 exactly, whatever [X], [Y], the ellipsoid and the math library
    are. *)
Theorem Cartesian_ToLatLon_equatorial_plane (d : Datum) (x y z : float) :
  (z =? 0) = true ->
  Lat (Cartesian_ToLatLon (mkCartesian x y z d)) = 0.
Proof.
  intros Hz. unfold Cartesian_ToLatLon. cbn [c_X c_Y c_Z c_Datum Lat].
  set (a := ell_a (Ellipsoid d)). set (b := ell_b (Ellipsoid d)).
  set (p := math_Sqrt (x * x + y * y)).
  set (k := 1 + _ / _).
  set (t := b * z / (a * p) * k).
  assert (Ht : zero_or_nan (Prim2SF t) = true).
  { apply mul_zero_l_class, div_zero_class, mul_by_zero_class, Hz. }
  rewrite (is_nan_class (t / math_Sqrt (1 + t * t) / t)).
  - reflexivity.
  - apply cos_of_zero_tan, Ht.
Qed.

End EquatorialPlane.

Lemma Cartesian_ToLatLon_equatorial_plane_witness :
  Lat (Cartesian_ToLatLon (M := RefMath) (mkCartesian 3000000 (-4000000) 0 WGS84)) = 0.
Proof.
  apply (Cartesian_ToLatLon_equatorial_plane (M := RefMath) WGS84 3000000 (-4000000) 0).
  reflexivity.
Defined.

(** ** Change of datum: the datum of the result *)

Section ResultDatum.
Context {M : GoMath}.

Lemma Cartesian_ConvertDatum_Name (c : Cartesian) (d : Datum) :
  Name (c_Datum (Cartesian_ConvertDatum c d)) = Name d.
Proof.
  destruct (String.eqb (Name (c_Datum c)) (Name d)) eqn:E.
  - apply String.eqb_eq in E. now rewrite Cartesian_ConvertDatum_same.
  - apply String.eqb_neq in E. now rewrite Cartesian_ConvertDatum_Datum.
Qed.

(** X11: the result of a change of datum carries the name of the target, for
    Cartesian and for latitude/longitude points, and converting a Cartesian
    point twice to the same datum is converting it once: the second call
    finds the name it looks for and returns its argument. *)
Theorem Cartesian_ConvertDatum_idempotent (c : Cartesian) (l : LatLonEllipsoidalDatum)
    (d : Datum) :
  Name (c_Datum (Cartesian_ConvertDatum c d)) = Name d
  /\ Name (ll_Datum (LatLon_ConvertDatum l d)) = Name d
  /\ Cartesian_ConvertDatum (Cartesian_ConvertDatum c d) d = Cartesian_ConvertDatum c d.
Proof.
  split; [apply Cartesian_ConvertDatum_Name|]. split.
  - unfold LatLon_ConvertDatum, Cartesian_ToLatLon. cbn [ll_Datum].
    apply Cartesian_ConvertDatum_Name.
  - apply Cartesian_ConvertDatum_same, Cartesian_ConvertDatum_Name.
Qed.

End ResultDatum.

(** ** The tables *)


(** ** dms: parsing degrees *)

Section DmsFacts.
Import Ascii.
Local Open Scope string_scope.
Local Open Scope Z_scope.

Lemma strip_rune_lead (c : ascii) (r : string) :
  space_lead c = false -> strip_rune space_runes (String c r) = None.
Proof.
  intros H. unfold space_runes. cbn [strip_rune strip_prefix].
  repeat match goal with
         | |- context [Ascii.eqb ?a c] =>
             destruct (Ascii.eqb_spec a c) as [<- | _]; [discriminate H|]
         end.
  reflexivity.
Qed.

Lemma strip_rune_tail (c : ascii) (r : string) :
  space_tail c = false ->
  strip_rune (map string_rev space_runes) (String c r) = None.
Proof.
  intros H. unfold space_runes. cbn [map string_rev append strip_rune strip_prefix].
  repeat match goal with
         | |- context [Ascii.eqb ?a c] =>
             destruct (Ascii.eqb_spec a c) as [<- | _]; [discriminate H|]
         end.
  reflexivity.
Qed.

Lemma string_rev_append (a b : string) :
  string_rev (a ++ b) = string_rev b ++ string_rev a.
Proof.
  induction a; simpl.
  - now rewrite string_append_nil_r.
  - now rewrite IHa, string_append_assoc.
Qed.

Lemma string_rev_involutive (s : string) : string_rev (string_rev s) = s.
Proof.
  induction s; simpl; [reflexivity|].
  now rewrite string_rev_append, IHs.
Qed.

Lemma last_byte_append (a : string) (c : ascii) :
  last_byte (a ++ String c "") = Some c.
Proof.
  induction a as [|x a IH]; [reflexivity|].
  cbn [append last_byte]. rewrite IH.
  destruct (a ++ String c "") eqn:E; [destruct a; discriminate E | reflexivity].
Qed.

Lemma all_but_last_append (a : string) (c : ascii) :
  all_but_last (a ++ String c "") = a.
Proof.
  induction a as [|x a IH]; [reflexivity|].
  cbn [append all_but_last]. rewrite IH.
  destruct (a ++ String c "") eqn:E; [destruct a; discriminate E | reflexivity].
Qed.

Lemma last_byte_cons (c : ascii) (r : string) : last_byte (String c r) <> None.
Proof.
  revert c. induction r as [|x r IH]; intros c; [discriminate|].
  cbn [last_byte]. apply IH.
Qed.

Lemma last_byte_split (s : string) (c : ascii) :
  last_byte s = Some c -> s = all_but_last s ++ String c "".
Proof.
  induction s as [|x s IH]; [discriminate|].
  destruct s as [|y s].
  - cbn. intros H. now injection H as ->.
  - intros H. cbn [last_byte] in H. cbn [all_but_last append].
    f_equal. apply IH. exact H.
Qed.

Lemma trim_left_lead (c : ascii) (r : string) :
  space_lead c = false -> trim_left (String c r) = String c r.
Proof.
  intros H. unfold trim_left. cbn [String.length trim_runes].
  now rewrite strip_rune_lead.
Qed.

Lemma trim_right_tail (s : string) (c : ascii) :
  last_byte s = Some c -> space_tail c = false -> trim_right s = s.
Proof.
  intros Hl Hc. unfold trim_right.
  rewrite (last_byte_split s c Hl) at 2.
  rewrite string_rev_append. cbn [string_rev append].
  rewrite (last_byte_split s c Hl) at 1.
  rewrite string_length_append, Nat.add_comm. cbn [String.length Nat.add trim_runes].
  rewrite strip_rune_tail by assumption.
  change (String c (string_rev (all_but_last s)))
    with (string_rev (String c "") ++ string_rev (all_but_last s)).
  rewrite <- string_rev_append, string_rev_involutive.
  symmetry. now apply last_byte_split.
Qed.

(** Text that begins and ends with bytes no white space begins or ends
    with is left alone by [strings.TrimSpace]. *)
Lemma strings_TrimSpace_plain (c0 : ascii) (r : string) (c : ascii) :
  space_lead c0 = false -> last_byte (String c0 r) = Some c -> space_tail c = false ->
  strings_TrimSpace (String c0 r) = String c0 r.
Proof.
  intros H0 Hl Hc. unfold strings_TrimSpace.
  rewrite trim_left_lead by assumption.
  now apply (trim_right_tail _ c).
Qed.

Lemma trim_left_blank (s : string) :
  string_forallb is_ascii_space s = true -> trim_left s = "".
Proof.
  unfold trim_left. induction s as [|c r IH]; [reflexivity|].
  cbn [string_forallb]. intros H. apply andb_prop in H as [Hc Hr].
  cbn [String.length trim_runes].
  assert (Hs : strip_rune space_runes (String c r) = Some r).
  { unfold is_ascii_space in Hc. cbn [existsb] in Hc.
    repeat (apply orb_prop in Hc as [Hc | Hc];
            [apply Z.eqb_eq in Hc;
             assert (Hcc : c = byte_of_int (byte_value c)) by (symmetry; apply byte_of_int_value);
             rewrite Hc in Hcc; vm_compute in Hcc; subst c; reflexivity|]).
    discriminate Hc. }
  rewrite Hs. apply IH, Hr.
Qed.

Lemma strings_TrimSpace_blank (s : string) :
  string_forallb is_ascii_space s = true -> strings_TrimSpace s = "".
Proof.
  intros H. unfold strings_TrimSpace. now rewrite trim_left_blank.
Qed.

(** *** Splitting at the separators *)

Lemma separatorChars_Split_from_nonempty (b : bool) (s : string) :
  separatorChars_Split_from b s <> [].
Proof.
  revert b. induction s as [|c r IH]; intros b; [discriminate|].
  cbn [separatorChars_Split_from].
  destruct (is_number_byte c).
  - destruct (separatorChars_Split_from false r); discriminate.
  - destruct b; [apply IH | discriminate].
Qed.

Lemma separatorChars_Split_number (b : bool) (p r : string) :
  string_forallb is_number_byte p = true ->
  separatorChars_Split_from b (p ++ r)
  = match separatorChars_Split_from (match p with "" => b | _ => false end) r with
    | f :: fs => (p ++ f) :: fs
    | [] => [p]
    end.
Proof.
  revert b. induction p as [|c p IH]; intros b Hp.
  - cbn [append]. destruct (separatorChars_Split_from b r) eqn:E; [|reflexivity].
    now apply separatorChars_Split_from_nonempty in E.
  - cbn [string_forallb] in Hp. apply andb_prop in Hp as [Hc Hp].
    cbn [append separatorChars_Split_from]. rewrite Hc, (IH false Hp).
    destruct p; destruct (separatorChars_Split_from false r) eqn:E;
      try reflexivity; now apply separatorChars_Split_from_nonempty in E.
Qed.

Lemma separatorChars_Split_in_separator (q r : string) :
  string_forallb (fun c => negb (is_number_byte c)) q = true ->
  separatorChars_Split_from true (q ++ r) = separatorChars_Split_from true r.
Proof.
  induction q as [|c q IH]; intros Hq; [reflexivity|].
  cbn [string_forallb] in Hq. apply andb_prop in Hq as [Hc Hq].
  cbn [append separatorChars_Split_from].
  apply negb_true_iff in Hc. rewrite Hc. now apply IH.
Qed.

Lemma separatorChars_Split_separator (q r : string) :
  q <> "" -> string_forallb (fun c => negb (is_number_byte c)) q = true ->
  separatorChars_Split_from false (q ++ r) = "" :: separatorChars_Split_from true r.
Proof.
  destruct q as [|c q]; [congruence|]. intros _ Hq.
  cbn [string_forallb] in Hq. apply andb_prop in Hq as [Hc Hq].
  cbn [append separatorChars_Split_from].
  apply negb_true_iff in Hc. rewrite Hc.
  now rewrite separatorChars_Split_in_separator.
Qed.

Lemma separatorChars_Split_after (p r : string) :
  p <> "" -> string_forallb is_number_byte p = true ->
  separatorChars_Split_from true (p ++ r) = separatorChars_Split_from false (p ++ r).
Proof.
  destruct p as [|c p]; [congruence|]. intros _ Hp.
  cbn [string_forallb] in Hp. apply andb_prop in Hp as [Hc Hp].
  cbn [append separatorChars_Split_from]. now rewrite Hc.
Qed.

End DmsFacts.

Section DmsTheorems.
Import Ascii.
Context {SC : GoStrconv}.
Local Open Scope string_scope.

(** X13: blank text is no angle: for a string of ASCII white space (the empty
    string included) [ParseDegrees] returns 0 and the error, given that
    [strconv.ParseFloat] rejects the empty string. *)
Theorem ParseDegrees_blank (s : string) :
  string_forallb is_ascii_space s = true ->
  strconv_ParseFloat_64 "" = None ->
  ParseDegrees s = (0, Some (invalid_degree s)).
Proof.
  intros Hs Hf. unfold ParseDegrees.
  rewrite strings_TrimSpace_blank by assumption.
  cbv zeta. rewrite Hf. reflexivity.
Qed.

Lemma number_byte_plain (c : ascii) :
  is_number_byte c = true ->
  space_lead c = false /\ space_tail c = false
  /\ Ascii.eqb c "-" = false /\ Ascii.eqb c "+" = false.
Proof.
  unfold is_number_byte, is_digit. intros H.
  assert (Hb : (48 <= byte_value c <= 57)%Z \/ c = "."%char).
  { apply orb_prop in H as [H | H].
    - apply andb_prop in H as [H1 H2]. apply Z.leb_le in H1, H2. now left.
    - right. now apply Ascii.eqb_eq in H. }
  destruct Hb as [Hb | ->]; [|repeat split; reflexivity].
  repeat split.
  - unfold space_lead. cbn [existsb].
    repeat (apply orb_false_intro; [apply Z.eqb_neq; lia|]). reflexivity.
  - unfold space_tail. cbn [existsb].
    repeat (apply orb_false_intro; [apply Z.eqb_neq; lia|]). reflexivity.
  - apply Ascii.eqb_neq. intros ->. vm_compute in Hb. destruct Hb as [Hb _]. now apply Hb.
  - apply Ascii.eqb_neq. intros ->. vm_compute in Hb. destruct Hb as [Hb _]. now apply Hb.
Qed.

Lemma ParseDegrees_compass_letter (minus : bool) (t0 : ascii) (T' : string) (h : ascii) :
  let T := String t0 T' in
  let s := (if minus then "-" else "") ++ T ++ String h "" in
  is_number_byte t0 = true ->
  h = "N"%char \/ h = "E"%char \/ h = "S"%char \/ h = "W"%char ->
  strconv_ParseFloat_64 s = None ->
  ParseDegrees s
  = degrees_of_fields s (minus || Ascii.eqb h "S" || Ascii.eqb h "W") T.
Proof.
  intros T s Ht Hh Hf.
  destruct (number_byte_plain t0 Ht) as (L0 & _ & M0 & P0).
  assert (Hh' : space_tail h = false)
    by (destruct Hh as [-> | [-> | [-> | ->]]]; reflexivity).
  set (body := String t0 (T' ++ String h "")).
  assert (Hbody : T ++ String h "" = body) by reflexivity.
  assert (Hlast : last_byte body = Some h)
    by (rewrite <- Hbody; apply last_byte_append).
  assert (Htrim : strings_TrimSpace body = body)
    by (apply (strings_TrimSpace_plain _ _ h); assumption).
  assert (Hcut : all_but_last body = T)
    by (rewrite <- Hbody; apply all_but_last_append).
  destruct minus.
  - assert (Hs : s = String "-" body) by reflexivity.
    rewrite Hs in Hf |- *. clear Hs.
    assert (Htrim2 : strings_TrimSpace (String "-" body) = String "-" body).
    { apply (strings_TrimSpace_plain _ _ h); [reflexivity | exact Hlast | assumption]. }
    unfold ParseDegrees. cbv zeta. rewrite Htrim2, Hf. cbv iota beta.
    change ("-" =? "-")%char with true. cbn [orb]. cbv iota.
    rewrite Htrim, Hlast, Hcut. unfold degrees_of_fields.
    destruct Hh as [-> | [-> | [-> | ->]]]; reflexivity.
  - assert (Hs : s = body) by reflexivity.
    rewrite Hs in Hf |- *. clear Hs.
    unfold ParseDegrees. cbv zeta. rewrite Htrim, Hf.
    unfold body at 1. cbv iota beta. rewrite M0, P0. cbn [orb]. cbv iota.
    fold body. rewrite Htrim, Hlast, Hcut. unfold degrees_of_fields.
    destruct Hh as [-> | [-> | [-> | ->]]]; reflexivity.
Qed.

(** X14: a leading minus sign and a final S or W each make the angle
    negative, and together they do not cancel.  For text [T] that begins
    with a digit or a dot, [T] followed by N or E, [T] followed by S or W,
    and both with a minus sign in front are read alike: either all four are
    errors, or there is one sum [v] of the fields of [T] and the results are
    [v], [-v], [-v] and [-v]. *)
Theorem ParseDegrees_compass (t0 : ascii) (T' : string) (pos neg : ascii) :
  let T := String t0 T' in
  is_number_byte t0 = true ->
  pos = "N"%char \/ pos = "E"%char -> neg = "S"%char \/ neg = "W"%char ->
  strconv_ParseFloat_64 (T ++ String pos "") = None ->
  strconv_ParseFloat_64 (T ++ String neg "") = None ->
  strconv_ParseFloat_64 ("-" ++ T ++ String pos "") = None ->
  strconv_ParseFloat_64 ("-" ++ T ++ String neg "") = None ->
  (exists v : float,
     ParseDegrees (T ++ String pos "") = (v, None)
     /\ ParseDegrees (T ++ String neg "") = (- v, None)
     /\ ParseDegrees ("-" ++ T ++ String pos "") = (- v, None)
     /\ ParseDegrees ("-" ++ T ++ String neg "") = (- v, None))
  \/ (ParseDegrees (T ++ String pos "")
      = (0, Some (invalid_degree (T ++ String pos "")))
      /\ ParseDegrees (T ++ String neg "")
         = (0, Some (invalid_degree (T ++ String neg "")))
      /\ ParseDegrees ("-" ++ T ++ String pos "")
         = (0, Some (invalid_degree ("-" ++ T ++ String pos "")))
      /\ ParseDegrees ("-" ++ T ++ String neg "")
         = (0, Some (invalid_degree ("-" ++ T ++ String neg "")))).
Proof.
  intros T Ht Hpos Hneg F1 F2 F3 F4.
  assert (E1 : ParseDegrees (T ++ String pos "")
               = degrees_of_fields (T ++ String pos "")
                   (false || Ascii.eqb pos "S" || Ascii.eqb pos "W") T)
    by (apply (ParseDegrees_compass_letter false t0 T' pos Ht); [tauto | exact F1]).
  assert (E2 : ParseDegrees (T ++ String neg "")
               = degrees_of_fields (T ++ String neg "")
                   (false || Ascii.eqb neg "S" || Ascii.eqb neg "W") T)
    by (apply (ParseDegrees_compass_letter false t0 T' neg Ht); [tauto | exact F2]).
  assert (E3 : ParseDegrees ("-" ++ T ++ String pos "")
               = degrees_of_fields ("-" ++ T ++ String pos "")
                   (true || Ascii.eqb pos "S" || Ascii.eqb pos "W") T)
    by (apply (ParseDegrees_compass_letter true t0 T' pos Ht); [tauto | exact F3]).
  assert (E4 : ParseDegrees ("-" ++ T ++ String neg "")
               = degrees_of_fields ("-" ++ T ++ String neg "")
                   (true || Ascii.eqb neg "S" || Ascii.eqb neg "W") T)
    by (apply (ParseDegrees_compass_letter true t0 T' neg Ht); [tauto | exact F4]).
  rewrite E1, E2, E3, E4.
  replace (false || Ascii.eqb pos "S" || Ascii.eqb pos "W") with false
    by (destruct Hpos as [-> | ->]; reflexivity).
  replace (false || Ascii.eqb neg "S" || Ascii.eqb neg "W") with true
    by (destruct Hneg as [-> | ->]; reflexivity).
  cbn [orb]. unfold degrees_of_fields. cbv zeta.
  destruct (String.eqb (hd "" (separatorChars_Split (strings_TrimSpace T))) "").
  - right. repeat split.
  - destruct (ParseDegrees_loop _ 1.0 0.0) as [sum|].
    + left. exists sum. repeat split.
    + right. repeat split.
Qed.

Lemma separatorChars_Split_three (p1 q1 p2 q2 p3 q3 : string) :
  number_string p1 = true -> number_string p2 = true -> number_string p3 = true ->
  separator_string q1 = true -> q1 <> "" ->
  separator_string q2 = true -> q2 <> "" ->
  separator_string q3 = true ->
  separatorChars_Split (p1 ++ q1 ++ p2 ++ q2 ++ p3 ++ q3)
  = if String.eqb q3 "" then [p1; p2; p3] else [p1; p2; p3; ""].
Proof.
  unfold number_string, separator_string.
  intros N1 N2 N3 S1 E1 S2 E2 S3.
  apply andb_prop in N1 as [K1 N1], N2 as [K2 N2], N3 as [K3 N3].
  assert (Hne : forall p, negb (String.eqb p "") = true -> p <> "").
  { intros p Hp ->. discriminate Hp. }
  apply Hne in K1, K2, K3.
  assert (Hhead : forall p b r, p <> "" -> string_forallb is_number_byte p = true ->
            separatorChars_Split_from b (p ++ r)
            = match separatorChars_Split_from false r with
              | f :: fs => (p ++ f) :: fs
              | [] => [p]
              end).
  { intros p b r Hp Hn. rewrite separatorChars_Split_number by assumption.
    destruct p; [congruence | reflexivity]. }
  unfold separatorChars_Split.
  rewrite Hhead by assumption.
  rewrite separatorChars_Split_separator by assumption.
  rewrite separatorChars_Split_after by assumption.
  rewrite Hhead by assumption.
  rewrite separatorChars_Split_separator by assumption.
  rewrite separatorChars_Split_after by assumption.
  rewrite Hhead by assumption.
  rewrite !string_append_nil_r.
  destruct q3 as [|c q3].
  - cbn. now rewrite string_append_nil_r.
  - rewrite <- (string_append_nil_r (String c q3)).
    rewrite separatorChars_Split_separator by (assumption || discriminate).
    cbn. now rewrite string_append_nil_r.
Qed.

(** X15: degrees, minutes and seconds.  For three numerals separated by runs
    of other bytes, possibly followed by one more such run, with no white
    space at either end and no compass letter at the end, [ParseDegrees]
    returns [0 + d*1 + m*(1/60) + s*(1/60/60)] in binary64, left to right,
    where [d], [m] and [s] are what [strconv.ParseFloat] makes of the three
    numerals (and it rejects the text as a whole). *)
Theorem ParseDegrees_dms (p1 q1 p2 q2 p3 q3 : string) (d m s : float) :
  let text := p1 ++ q1 ++ p2 ++ q2 ++ p3 ++ q3 in
  number_string p1 = true -> number_string p2 = true -> number_string p3 = true ->
  separator_string q1 = true -> q1 <> "" ->
  separator_string q2 = true -> q2 <> "" ->
  separator_string q3 = true ->
  strings_TrimSpace text = text -> ends_with_compass text = false ->
  strconv_ParseFloat_64 text = None ->
  strconv_ParseFloat_64 p1 = Some d ->
  strconv_ParseFloat_64 p2 = Some m ->
  strconv_ParseFloat_64 p3 = Some s ->
  ParseDegrees text = (0 + d * 1 + m * (1 / 60) + s * (1 / 60 / 60), None).
Proof.
  intros text N1 N2 N3 S1 E1 S2 E2 S3 Htrim Hcomp Hf F1 F2 F3.
  assert (Hsplit := separatorChars_Split_three p1 q1 p2 q2 p3 q3 N1 N2 N3 S1 E1 S2 E2 S3).
  fold text in Hsplit.
  assert (Hp1 : exists c0 r, p1 = String c0 r /\ is_number_byte c0 = true).
  { unfold number_string in N1. destruct p1 as [|c0 r]; [discriminate|].
    cbn [string_forallb] in N1. apply andb_prop in N1 as [_ N1].
    apply andb_prop in N1 as [N1 _]. eauto. }
  destruct Hp1 as (c0 & r & -> & Hc0).
  destruct (number_byte_plain c0 Hc0) as (_ & _ & M0 & P0).
  unfold ParseDegrees. cbv zeta. rewrite Htrim, Hf.
  unfold text at 1. cbn [append]. rewrite M0, P0. cbn [orb].
  change (String c0 (r ++ q1 ++ p2 ++ q2 ++ p3 ++ q3)) with text.
  rewrite Htrim.
  unfold ends_with_compass in Hcomp.
  destruct (last_byte text) as [c|] eqn:El.
  2:{ now apply last_byte_cons in El. }
  apply orb_false_elim in Hcomp as [Hcomp HW].
  apply orb_false_elim in Hcomp as [Hcomp HS].
  apply orb_false_elim in Hcomp as [HN HE].
  rewrite HN, HE, HS, HW. cbn [orb]. rewrite Htrim, Hsplit.
  assert (Hp1ne : String.eqb (String c0 r) "" = false) by reflexivity.
  destruct (String.eqb q3 "").
  - cbn [hd last removelast]. rewrite Hp1ne.
    assert (Hp3 : String.eqb p3 "" = false).
    { unfold number_string in N3. apply andb_prop in N3 as [N3 _].
      now apply negb_true_iff in N3. }
    rewrite Hp3. cbn [ParseDegrees_loop]. rewrite F1, F2, F3. reflexivity.
  - cbn [hd last removelast]. rewrite Hp1ne.
    change (String.eqb "" "") with true. cbv iota.
    cbn [ParseDegrees_loop]. rewrite F1, F2, F3. reflexivity.
Qed.

End DmsTheorems.

Section DmsWitnesses.
Import Ascii.
Local Open Scope string_scope.

Lemma ParseDegrees_blank_witness :
  ParseDegrees (SC := RefStrconv) "    " = (0, Some (invalid_degree "    ")).
Proof.
  apply (ParseDegrees_blank (SC := RefStrconv) "    "); reflexivity.
Defined.

Lemma ParseDegrees_compass_witness :
  ParseDegrees (SC := RefStrconv) "45 30 N" = (45.5, None)
  /\ ParseDegrees (SC := RefStrconv) "45 30 S" = (-45.5, None)
  /\ ParseDegrees (SC := RefStrconv) "-45 30 N" = (-45.5, None)
  /\ ParseDegrees (SC := RefStrconv) "-45 30 S" = (-45.5, None).
Proof.
  destruct (ParseDegrees_compass (SC := RefStrconv) "4"%char "5 30 " "N"%char "S"%char)
    as [(v & H1 & H2 & H3 & H4) | (H1 & _)];
    try reflexivity; try (left; reflexivity).
  - assert (E : v = 45.5).
    { vm_compute in H1. now injection H1 as <-. }
    subst v. repeat split; assumption.
  - vm_compute in H1. discriminate H1.
Defined.

Lemma ParseDegrees_dms_witness :
  ParseDegrees (SC := RefStrconv) "45 45 45.36" = (45.7626, None).
Proof.
  apply (ParseDegrees_dms (SC := RefStrconv) "45" " " "45" " " "45.36" "" 45 45 45.36);
    try reflexivity; discriminate.
Defined.

End DmsWitnesses.

Section ParseLatLonCommas.
Import Ascii.
Context {M : GoMath} {SC : GoStrconv}.
Local Open Scope string_scope.

Lemma length_strings_Split_comma (s : string) :
  List.length (strings_Split_comma s) = S (comma_count s).
Proof.
  induction s as [|c r IH]; [reflexivity|].
  cbn [strings_Split_comma comma_count].
  destruct (Ascii.eqb c ","); cbn [List.length].
  - now rewrite IH.
  - destruct (strings_Split_comma r); [discriminate IH | exact IH].
Qed.

(** X16: [ParseLatLon] wants exactly one comma: text with none, or with two
    or more, gives the error and the zero value whatever the parts are, so a
    comma cannot be used inside an angle. *)
Theorem ParseLatLon_commas (latLon : string) (height : float) (datum : Datum) :
  comma_count latLon <> 1%nat ->
  ParseLatLon_dms latLon height datum = (zero_LatLon, Some (invalid_LatLon latLon)).
Proof.
  intros H. unfold ParseLatLon_dms, ParseLatLon.
  pose proof (length_strings_Split_comma latLon) as HL.
  destruct (strings_Split_comma latLon) as [|p0 [|p1 [|p2 l]]];
    cbn [List.length] in HL; try reflexivity.
  congruence.
Qed.

(** Text without a comma is one part; a comma between two such texts cuts
    there. *)
Lemma strings_Split_comma_none (a : string) :
  comma_count a = 0%nat -> strings_Split_comma a = [a].
Proof.
  induction a as [|c r IH]; [reflexivity|].
  cbn [comma_count strings_Split_comma].
  destruct (Ascii.eqb c ","); [discriminate|].
  intros H. now rewrite (IH H).
Qed.

Lemma strings_Split_comma_pair (a b : string) :
  comma_count a = 0%nat -> comma_count b = 0%nat ->
  strings_Split_comma (a ++ "," ++ b) = [a; b].
Proof.
  intros Ha Hb. change ("," ++ b) with (String "," b).
  induction a as [|c r IH].
  - cbn [append strings_Split_comma]. change ("," =? ",")%char with true.
    cbv iota. now rewrite strings_Split_comma_none.
  - cbn [comma_count] in Ha. cbn [append strings_Split_comma].
    destruct (Ascii.eqb c ","); [discriminate|].
    now rewrite (IH Ha).
Qed.

(** X17: a pair of numbers.  When the text is [a,b] with no further comma,
    [strconv.ParseFloat] reads [a] and [b] (white space at their ends set
    aside) as [lat] in [[-90, 90]] and [lon] in [[-180, 180]], then
    [ParseLatLon] returns exactly [lat] and [lon] with the given height, on
    the given datum -- on WGS84 when the datum given has no name. *)
Theorem ParseLatLon_decimal (a b : string) (lat lon height : float) (datum : Datum) :
  comma_count a = 0%nat -> comma_count b = 0%nat ->
  strconv_ParseFloat_64 (strings_TrimSpace a) = Some lat ->
  strconv_ParseFloat_64 (strings_TrimSpace b) = Some lon ->
  (-90 <=? lat)%float = true -> (lat <=? 90)%float = true ->
  (-180 <=? lon)%float = true -> (lon <=? 180)%float = true ->
  ParseLatLon_dms (a ++ "," ++ b) height datum
  = (mkLatLon lat lon height (if String.eqb (Name datum) "" then WGS84 else datum),
     None).
Proof.
  intros Ha Hb Fa Fb L1 L2 G1 G2.
  unfold ParseLatLon_dms, ParseLatLon.
  rewrite strings_Split_comma_pair by assumption.
  unfold ParseDegrees_flag, ParseDegrees. cbv zeta.
  rewrite Fa, Fb. cbn [orb].
  unfold Wrap90, Wrap180. rewrite L1, L2, G1, G2.
  reflexivity.
Qed.

End ParseLatLonCommas.

Section ParseLatLonWitness.
Import Ascii.
Local Open Scope string_scope.

Lemma ParseLatLon_commas_witness :
  ParseLatLon_dms (M := RefMath) (SC := RefStrconv) "51,4778, 0,0015" 0 WGS84
  = (zero_LatLon, Some (invalid_LatLon "51,4778, 0,0015")).
Proof.
  apply (ParseLatLon_commas (M := RefMath) (SC := RefStrconv)).
  vm_compute. discriminate.
Defined.

Lemma ParseLatLon_decimal_witness :
  ParseLatLon_dms (M := RefMath) (SC := RefStrconv) "51.47736, 0.0000" 17 zero_Datum
  = (mkLatLon 51.47736 0 17 WGS84, None).
Proof.
  apply (ParseLatLon_decimal (M := RefMath) (SC := RefStrconv)
           "51.47736" " 0.0000" 51.47736 0 17 zero_Datum); reflexivity.
Defined.

End ParseLatLonWitness.
